(** * Smart parking slip generator: plate pipeline (Task 06)

    A shallow embedding of the detection -> extraction -> formatting pipeline
    of [Task 06/app.py] (the Flask service) and [Task 06/main.py] (the
    Streamlit page), and the properties of its token filter, region
    extractor, receipt renderer and outcome handling.

    Conventions.
    - Text is a Python [str]: a list of Unicode code points. A string
      literal of this file stands for the code points of its text.
      [str.isalnum], [str.upper] and [str.lower] are those of the
      interpreter's character database, a [Py.Unicode] structure: the tables
      are its fields, together with the facts about them that the
      pipeline's properties rest on (what they do on ASCII, and which ASCII
      characters case mapping can produce).
    - The bytes of an uploaded file are a [string].
    - A confidence is a binary64 number, Rocq's primitive [float]; the
      literal [0.2] is the same double in both languages.
    - Box coordinates are NumPy [int64] scalars: integers in [Z] whose
      arithmetic wraps.
    - The detector and the recogniser are collaborators passed in as
      functions; the codecs, the fonts, the file system, the clock and
      Streamlit's image display are the fields of a [world] record. Any of
      the calls into them that the source makes outside a handler of its
      own may raise. Runs of the models, image writes, receipt saves and
      what the page shows are recorded in an event log. *)

From Stdlib Require Import ZArith NArith List String Ascii Bool Lia.
From Stdlib Require Import Floats SpecFloat.
From Stdlib Require Import QArith.
From Stdlib.Strings Require Import Byte.
Import ListNotations.

Set Warnings "-inexact-float,-via-type-mismatch,-via-type-remapping".

Local Open Scope list_scope.

(** ** String literals: the code points of a UTF-8 text *)

Module Utf8.

Definition text : Type := list N.

(** The six payload bits of a continuation byte. *)
Definition payload (b : Byte.byte) : N := N.land (Byte.to_N b) 63.

Fixpoint decode (l : list Byte.byte) : text :=
  match l with
  | [] => []
  | b :: r =>
    let n := Byte.to_N b in
    if (n <? 192)%N then n :: decode r
    else if (n <? 224)%N then
      match r with
      | b1 :: r' => ((n - 192) * 64 + payload b1)%N :: decode r'
      | _ => [n]
      end
    else if (n <? 240)%N then
      match r with
      | b1 :: b2 :: r' =>
          (((n - 224) * 64 + payload b1) * 64 + payload b2)%N :: decode r'
      | _ => [n]
      end
    else
      match r with
      | b1 :: b2 :: b3 :: r' =>
          ((((n - 240) * 64 + payload b1) * 64 + payload b2) * 64 + payload b3)%N
          :: decode r'
      | _ => [n]
      end
  end.

Definition byte_of (n : N) : Byte.byte :=
  match Byte.of_N n with
  | Some b => b
  | None => Byte.x00
  end.

Definition encode_char (c : N) : list Byte.byte :=
  if (c <? 128)%N then [byte_of c]
  else if (c <? 2048)%N then [byte_of (192 + c / 64); byte_of (128 + c mod 64)]%N
  else if (c <? 65536)%N then
    [byte_of (224 + c / 4096); byte_of (128 + (c / 64) mod 64);
     byte_of (128 + c mod 64)]%N
  else
    [byte_of (240 + c / 262144); byte_of (128 + (c / 4096) mod 64);
     byte_of (128 + (c / 64) mod 64); byte_of (128 + c mod 64)]%N.

Inductive literal : Set :=
| Empty
| Cons (c : N) (r : literal).

Fixpoint to_literal (s : text) : literal :=
  match s with
  | [] => Empty
  | c :: r => Cons c (to_literal r)
  end.

Fixpoint of_literal (s : literal) : text :=
  match s with
  | Empty => []
  | Cons c r => c :: of_literal r
  end.

Definition parse (l : list Byte.byte) : literal := to_literal (decode l).

(** A list of code points is shown as its text, the empty one apart. *)
Definition print (s : literal) : option (list Byte.byte) :=
  match s with
  | Empty => None
  | Cons _ _ => Some (flat_map encode_char (of_literal s))
  end.

End Utf8.

Declare Scope py_scope.
Delimit Scope py_scope with py.
String Notation Utf8.text Utf8.parse Utf8.print
  (via Utf8.literal mapping [[nil] => Utf8.Empty, [cons] => Utf8.Cons]) : py_scope.
Local Open Scope py_scope.

(** ** Python's [str] operations used by the pipeline *)

Module Py.

(** A character is its code point; a [str] is a sequence of characters. *)
Definition char : Type := N.
Definition str : Type := list char.

Definition between (lo hi c : N) : bool := ((lo <=? c) && (c <=? hi))%N.

(** The ASCII classes and case mapping. *)
Definition isascii_char (c : char) : bool := (c <? 128)%N.
Definition ascii_digit (c : char) : bool := between 48 57 c.
Definition ascii_upper (c : char) : bool := between 65 90 c.
Definition ascii_lower (c : char) : bool := between 97 122 c.
Definition ascii_alnum (c : char) : bool :=
  ascii_digit c || ascii_upper c || ascii_lower c.
Definition ascii_upper_char (c : char) : char :=
  if ascii_lower c then (c - 32)%N else c.
Definition ascii_lower_char (c : char) : char :=
  if ascii_upper c then (c + 32)%N else c.

(** [s.isascii()]. *)
Definition isascii (s : str) : bool := forallb isascii_char s.

(** The interpreter's character database, as the three [str] methods of
    the pipeline read it.

    [isalnum c] is [str.isalnum] of the one-character string [c], which is
    how [filter(str.isalnum, text)] calls it. [upper_char c] is
    [str.upper] of that string: the full case mapping, up to three
    characters long. [lower s] is [s.lower()]; it is taken on whole strings
    because the lower case of a capital sigma depends on its neighbours.

    The laws are facts of every CPython 3 database:
    - on the 128 ASCII characters the methods are the ASCII ones;
    - an ASCII character in the upper case of an alphanumeric character is
      a digit or an upper-case letter (as in ["ß".upper() == "SS"]);
    - an ASCII character of [s.lower()] that is no lower-case letter stands
      in [s] already. *)
Class Unicode : Type := {
  isalnum : char -> bool;
  upper_char : char -> str;
  lower : str -> str;
  isalnum_ascii :
    forall c, isascii_char c = true -> isalnum c = ascii_alnum c;
  upper_ascii :
    forall c, isascii_char c = true -> upper_char c = [ascii_upper_char c];
  lower_ascii :
    forall s, isascii s = true -> lower s = map ascii_lower_char s;
  upper_alnum :
    forall c d, isalnum c = true -> In d (upper_char c) ->
                isascii_char d = true -> ascii_digit d || ascii_upper d = true;
  lower_new :
    forall s d, In d (lower s) -> isascii_char d = true ->
                ascii_lower d = false -> In d s
}.

(** [s.upper()]: CPython maps the characters one by one. *)
Definition upper {U : Unicode} (s : str) : str := flat_map upper_char s.

(** [sep.join(l)]. *)
Fixpoint join (sep : str) (l : list str) : str :=
  match l with
  | [] => []
  | [x] => x
  | x :: r => x ++ sep ++ join sep r
  end.

(** Truth value of a [str]: non-empty. *)
Definition truthy (s : str) : bool :=
  match s with
  | [] => false
  | _ :: _ => true
  end.

(** [a or b] on strings. *)
Definition or_ (a b : str) : str := if truthy a then a else b.

(** [a == b]. *)
Fixpoint eqb (a b : str) : bool :=
  match a, b with
  | [], [] => true
  | x :: a', y :: b' => (x =? y)%N && eqb a' b'
  | _, _ => false
  end.

Fixpoint startswith (p s : str) : bool :=
  match p, s with
  | [], _ => true
  | a :: p', b :: s' => (a =? b)%N && startswith p' s'
  | _ :: _, [] => false
  end.

(** [sub in s]. *)
Fixpoint contains (sub s : str) : bool :=
  startswith sub s ||
  match s with
  | [] => false
  | _ :: r => contains sub r
  end.

(** [any(p(x) for x in l)]. *)
Definition any {A : Type} (p : A -> bool) (l : list A) : bool := existsb p l.

(** [s.replace(" ", "_")]: code point 32 becomes code point 95. *)
Definition replace_space (s : str) : str :=
  map (fun c => if (c =? 32)%N then 95%N else c) s.

End Py.

Bind Scope py_scope with Py.str.

(** ** Recogniser spans and the confidence test *)

(** EasyOCR's [readtext(..., detail=1)] yields [(bbox, text, confidence)]
    triples; the box is a list of corner points. *)
Definition span : Type := list (Z * Z) * Py.str * float.

Definition span_text (s : span) : Py.str := snd (fst s).
Definition span_conf (s : span) : float := snd s.

(** A span as the pipeline reads it: the box is never inspected. *)
Definition sp (text : Py.str) (conf : float) : span := ([], text, conf).

(** [conf >= 0.2] on doubles. *)
Definition confidence_threshold : float := 0.2%float.

Definition ge_threshold (conf : float) : bool :=
  PrimFloat.leb confidence_threshold conf.

(** ["".join(filter(str.isalnum, text)).upper()]. *)
Definition clean {U : Py.Unicode} (text : Py.str) : Py.str :=
  Py.upper (filter Py.isalnum text).

(** ** NumPy: [int64] scalars and basic slices *)

Module Np.

(** Two's-complement wrap of an [int64] result. *)
Definition wrap64 (z : Z) : Z := ((z + 2 ^ 63) mod 2 ^ 64 - 2 ^ 63)%Z.

(** One bound [i] of a basic slice on an axis of length [n]: a negative
    bound counts from the end, and the result is clipped to [0, n]. *)
Definition adjust (n i : Z) : Z :=
  let i := if (i <? 0)%Z then (i + n)%Z else i in
  Z.max 0 (Z.min n i).

(** Rows read by [a[start:stop]]: the half-open range [lo, hi). *)
Definition slice (n start stop : Z) : Z * Z :=
  (adjust n start, adjust n stop).

(** Length of [a[start:stop]]. *)
Definition slice_len (n start stop : Z) : Z :=
  let '(lo, hi) := slice n start stop in Z.max 0 (hi - lo).

End Np.

(** ** Images

    Pixel values never influence the control flow of the pipeline, so an
    image is the expression that produced it, with its shape computed. *)

Inductive image : Type :=
| Pixels (tag : nat) (height width : nat)
    (* a decoded 3-channel pixel grid *)
| Crop (src : image) (r0 r1 c0 c1 : Z)
    (* src[r0:r1, c0:c1] *)
| Boxed (src : image) (pt1 pt2 : Z * Z) (color : Z * Z * Z) (thickness : Z).
    (* cv2.rectangle on src.copy() *)

Fixpoint shape (img : image) : Z * Z :=
  match img with
  | Pixels _ h w => (Z.of_nat h, Z.of_nat w)
  | Crop src r0 r1 c0 c1 =>
      (Np.slice_len (fst (shape src)) r0 r1, Np.slice_len (snd (shape src)) c0 c1)
  | Boxed src _ _ _ _ => shape src
  end.

(** [img.size]: number of array elements, three channels per pixel. *)
Definition size (img : image) : Z := (fst (shape img) * snd (shape img) * 3)%Z.

(** A detector box, one row of [boxes.xyxy...astype(int)]. *)
Definition box : Type := Z * Z * Z * Z.

(** The padded, clamped rectangle [(y1_pad, y2_pad, x1_pad, x2_pad)] that
    both variants slice out of the image ([pad] is 4 in the service and 2 on
    the page); the coordinate arithmetic is NumPy's. *)
Definition padded_rect (pad : Z) (image_np : image) (b : box) : Z * Z * Z * Z :=
  let '(x1, y1, x2, y2) := b in
  let y1_pad := Z.max 0 (Np.wrap64 (y1 - pad)) in
  let y2_pad := Z.min (fst (shape image_np)) (Np.wrap64 (y2 + pad)) in
  let x1_pad := Z.max 0 (Np.wrap64 (x1 - pad)) in
  let x2_pad := Z.min (snd (shape image_np)) (Np.wrap64 (x2 + pad)) in
  (y1_pad, y2_pad, x1_pad, x2_pad).

(** [image_np[y1_pad:y2_pad, x1_pad:x2_pad]]. *)
Definition crop_of (pad : Z) (image_np : image) (b : box) : image :=
  let '(y1_pad, y2_pad, x1_pad, x2_pad) := padded_rect pad image_np b in
  Crop image_np y1_pad y2_pad x1_pad x2_pad.

(** ** Fonts, canvases, time *)

Inductive font : Type :=
| Truetype (path : Py.str) (size : Z)
| DefaultFont.

Inductive draw_op : Type :=
| RoundedRectangle (xy : Z * Z * Z * Z) (radius : Z)
    (fill outline : option Py.str) (width : Z)
| Rectangle (xy : Z * Z * Z * Z) (outline : Py.str) (width : Z)
| Line (p q : Z * Z) (fill : Py.str) (width : Z)
| Text (x : Q) (y : Z) (text : Py.str) (f : font) (fill : Py.str).

Record canvas : Type := {
  canvas_size : Z * Z;
  canvas_bg : Py.str;
  canvas_ops : list draw_op
}.

(** Strings drawn on a canvas, in drawing order. *)
Fixpoint drawn_texts (ops : list draw_op) : list Py.str :=
  match ops with
  | [] => []
  | Text _ _ s _ _ :: r => s :: drawn_texts r
  | _ :: r => drawn_texts r
  end.

Record datetime : Type := {
  year : nat; month : nat; day : nat;
  hour : nat; minute : nat; second : nat
}.

Module Time.

Fixpoint digits (d : Decimal.uint) : Py.str :=
  match d with
  | Decimal.Nil => ""
  | Decimal.D0 r => "0" ++ digits r
  | Decimal.D1 r => "1" ++ digits r
  | Decimal.D2 r => "2" ++ digits r
  | Decimal.D3 r => "3" ++ digits r
  | Decimal.D4 r => "4" ++ digits r
  | Decimal.D5 r => "5" ++ digits r
  | Decimal.D6 r => "6" ++ digits r
  | Decimal.D7 r => "7" ++ digits r
  | Decimal.D8 r => "8" ++ digits r
  | Decimal.D9 r => "9" ++ digits r
  end.

(** A number in decimal. *)
Definition decimal (n : nat) : Py.str :=
  match Nat.to_uint n with
  | Decimal.Nil => "0"
  | d => digits d
  end.

(** Two-digit, zero-padded field. *)
Definition pad2 (n : nat) : Py.str :=
  if Nat.ltb n 10 then "0" ++ decimal n else decimal n.

Definition month_abbr (m : nat) : Py.str :=
  nth (m - 1)
    ["Jan"; "Feb"; "Mar"; "Apr"; "May"; "Jun";
     "Jul"; "Aug"; "Sep"; "Oct"; "Nov"; "Dec"] "".

Definition directive (d : ascii) (t : datetime) : Py.str :=
  match d with
  | "d"%char => pad2 (day t)
  | "b"%char => month_abbr (month t)
  | "m"%char => pad2 (month t)
  | "Y"%char => decimal (year t)
  | "H"%char => pad2 (hour t)
  | "M"%char => pad2 (minute t)
  | "S"%char => pad2 (second t)
  | _ => [37%N; N_of_ascii d]
  end.

(** [t.strftime(fmt)] for the directives the pipeline uses (C locale); the
    format is an ASCII literal. *)
Fixpoint strftime (fmt : string) (t : datetime) : Py.str :=
  match fmt with
  | EmptyString => []
  | String "%" (String d r) => directive d t ++ strftime r t
  | String c r => N_of_ascii c :: strftime r t
  end.

End Time.

(** ** Collaborators, events and the effect monad *)

(** A call into a library returns or raises; an exception is known by its
    message. *)
Inductive outcome (A : Type) : Type :=
| Returns (a : A)
| Raises (what : Py.str).
Arguments Returns {A} a.
Arguments Raises {A} what.

(** The services around the pipeline that neither variant implements. *)
Record world : Type := {
  imdecode : string -> outcome (option image);
    (* cv2.imdecode of the upload's bytes: None if undecodable *)
  imwrite : Py.str -> image -> outcome bool;     (* cv2.imwrite *)
  font_loads : Py.str -> bool;                   (* ImageFont.truetype succeeds *)
  path_exists : Py.str -> bool;                  (* os.path.exists *)
  textbbox : font -> Py.str -> Z * Z * Z * Z;    (* ImageDraw.textbbox at (0, 0) *)
  save : Py.str -> canvas -> outcome unit;       (* PIL Image.save *)
  st_image_upload : string -> outcome unit;
    (* st.image of an uploaded file *)
  st_image_empty : image -> outcome unit;
    (* st.image of an array that holds no pixel *)
  now : datetime                                 (* datetime.now() of the request *)
}.

Inductive st_kind : Type := StSuccess | StError | StWarning | StInfo.

Inductive event : Type :=
| EvDetect (img : image)                  (* the YOLO model was run *)
| EvReadtext (img : image)                (* the recogniser was run *)
| EvImwrite (path : Py.str) (img : image) (* cv2.imwrite was called *)
| EvSlip (path : Py.str) (c : canvas)     (* a receipt was drawn and its save requested *)
| EvSt (k : st_kind) (msg : Py.str)       (* a Streamlit message box *)
| EvStImage (caption : Py.str)            (* st.image was called *)
| EvStDownload (file_name : Py.str).      (* st.download_button *)

(** Computations that log events and may raise. *)
Definition M (A : Type) : Type := list event * outcome A.

Definition ret {A : Type} (a : A) : M A := ([], Returns a).

Definition bind {A B : Type} (m : M A) (k : A -> M B) : M B :=
  match m with
  | (l, Returns a) => let '(l', r) := k a in (l ++ l', r)
  | (l, Raises e) => (l, Raises e)
  end.

(** Record an event, then hand over a library call's outcome. *)
Definition call {A : Type} (e : event) (o : outcome A) : M A := ([e], o).

(** A library call that leaves no event. *)
Definition lift {A : Type} (o : outcome A) : M A := ([], o).

Definition emit (e : event) : M unit := ([e], Returns tt).

(** [try: m  except Exception as e: handler e], followed by [k] when [m]
    did not raise. The handler is the except clause with the values the
    locals hold where [m] stands. *)
Definition attempt {A B : Type} (m : M A) (handler : Py.str -> M B)
    (k : A -> M B) : M B :=
  match m with
  | (l, Returns a) => let '(l', r) := k a in (l ++ l', r)
  | (l, Raises e) => let '(l', r) := handler e in (l ++ l', r)
  end.

Notation "x <- m ;; k" := (bind m (fun x => k))
  (at level 61, m at next level, right associativity).
Notation "m ;;; k" := (bind m (fun _ => k))
  (at level 61, right associativity).

Definition log {A : Type} (m : M A) : list event := fst m.
Definition result {A : Type} (m : M A) : outcome A := snd m.

(** The recogniser was never run. *)
Definition no_readtext (l : list event) : Prop :=
  forall img, ~ In (EvReadtext img) l.

(** A receipt was rendered whose drawn strings include [s]. *)
Definition slip_shows (l : list event) (s : Py.str) : Prop :=
  exists path c, In (EvSlip path c) l /\ In s (drawn_texts (canvas_ops c)).

Definition no_slip (l : list event) : Prop :=
  forall path c, ~ In (EvSlip path c) l.

(** ** The service variant: [Task 06/app.py] *)

Module App.

Definition FONT_BOLD : Py.str := "fonts/Poppins/Poppins-Bold.ttf".
Definition FONT_REGULAR : Py.str := "fonts/Poppins/Poppins-Regular.ttf".
Definition SLIPS_DIR : Py.str := "static/slips".

(** The four label/value rows of the receipt. *)
Definition rows (plate_text : Py.str) (entry_time : datetime)
  : list (Py.str * Py.str) :=
  [ ("Vehicle Plate", plate_text);
    ("Entry Time", Time.strftime "%d %b %Y  %H:%M:%S" entry_time);
    ("Parking Fee", "Rs. 30.00");
    ("Status", "ACTIVE") ].

Definition title : Py.str := "PARKING RECEIPT".
Definition footer : Py.str :=
  "Powered by Smart Parking System  •  YOLO + EasyOCR".

(** The [for label, value in rows] loop, [y] advancing by 55. *)
Fixpoint draw_rows (f_label f_value : font) (y : Z)
    (rs : list (Py.str * Py.str)) : list draw_op :=
  match rs with
  | [] => []
  | (label, value) :: r =>
      Text (inject_Z 50) y label f_label "#A78BFA"
      :: Text (inject_Z 270) y value f_value "#FFFFFF"
      :: draw_rows f_label f_value (y + 55) r
  end.

(** Horizontally centred text: [(W - (bbox[2] - bbox[0])) / 2]. *)
Definition centred (W : Z) (bbox : Z * Z * Z * Z) : Q :=
  let '(x0, _, x2, _) := bbox in (inject_Z (W - (x2 - x0)) / inject_Z 2)%Q.

(** An uploaded file of the multipart form. *)
Record upload : Type := { filename : Py.str; content : string }.

(** The request: the form's [image] part, when present. *)
Record request : Type := { files_image : option upload }.

(** A JSON object of string fields, and the HTTP status. *)
Definition response : Type := list (Py.str * Py.str) * Z.

Section Pipeline.

Context {U : Py.Unicode}.
Variable E : world.
(** [yolo_model(image_np)] reduced to its integer boxes, and
    [ocr_reader.readtext]. *)
Variable yolo_model : image -> outcome (list box).
Variable ocr_reader : image -> outcome (list span).

(** Lines 56-60: the cleaned text of every span at or above the threshold. *)
Definition texts (raw : list span) : list Py.str :=
  map (fun s => clean (span_text s))
      (filter (fun s => ge_threshold (span_conf s)) raw).

(** Line 61: [" ".join(t for t in texts if t) or "No text detected"]. *)
Definition plate_text (raw : list span) : Py.str :=
  Py.or_ (Py.join " " (filter Py.truthy (texts raw))) "No text detected".

Definition detect_plate (image_np : image) : M (option box) :=
  boxes <- call (EvDetect image_np) (yolo_model image_np) ;;
  match boxes with
  | [] => ret None
  | b :: _ => ret (Some b)
  end.

Definition extract_text (image_np : image) (b : box) : M (Py.str * image) :=
  let pad := 4%Z in
  let crop := crop_of pad image_np b in
  if (size crop =? 0)%Z then ret ("Crop Error", crop)
  else
    raw <- call (EvReadtext crop) (ocr_reader crop) ;;
    ret (plate_text raw, crop).

(** The fonts of the receipt: Poppins, or PIL's default for all four. *)
Definition fonts : font * font * font * font :=
  if font_loads E FONT_BOLD && font_loads E FONT_REGULAR then
    (Truetype FONT_BOLD 30, Truetype FONT_REGULAR 16,
     Truetype FONT_BOLD 18, Truetype FONT_REGULAR 12)
  else (DefaultFont, DefaultFont, DefaultFont, DefaultFont).

Definition slip_canvas (plate_text : Py.str) (entry_time : datetime)
  : canvas :=
  let W := 600%Z in
  let H := 380%Z in
  let '(f_title, f_label, f_value, f_small) := fonts in
  {| canvas_size := (W, H);
     canvas_bg := "#0D0D1A";
     canvas_ops :=
       [ RoundedRectangle (12, 12, W - 12, H - 12)%Z 14 None (Some "#4C1D95") 2;
         RoundedRectangle (12, 12, W - 12, 60)%Z 14 (Some "#7C3AED") None 1;
         Text (centred W (textbbox E f_title title)) 18 title f_title "#FFFFFF";
         Line (40, 75)%Z (W - 40, 75)%Z "#4C1D95" 1 ]
       ++ draw_rows f_label f_value 95 (rows plate_text entry_time)
       ++ [ Text (centred W (textbbox E f_small footer)) (H - 30) footer
              f_small "#94A3B8" ] |}.

(** Draw the receipt and save it; returns the file name. *)
Definition generate_slip (plate_text : Py.str) (entry_time : datetime)
  : M Py.str :=
  let img := slip_canvas plate_text entry_time in
  let filename :=
    "slip_" ++ Py.replace_space plate_text ++ "_"
    ++ Time.strftime "%Y%m%d_%H%M%S" entry_time ++ ".png" in
  let path := SLIPS_DIR ++ "/" ++ filename in
  call (EvSlip path img) (save E path img) ;;;
  ret filename.

Definition process (req : request) : M response :=
  match files_image req with
  | None => ret ([("error", "No image uploaded")], 400%Z)
  | Some file =>
    if Py.eqb (filename file) "" then
      ret ([("error", "Empty filename")], 400%Z)
    else
      decoded <- lift (imdecode E (content file)) ;;
      match decoded with
      | None => ret ([("error", "Could not decode image")], 400%Z)
      | Some img_bgr =>
        found <- detect_plate img_bgr ;;
        match found with
        | None =>
            ret ([("error", "No number plate detected in image")], 200%Z)
        | Some b =>
          pc <- extract_text img_bgr b ;;
          let '(plate_text, crop) := pc in
          let '(x1, y1, x2, y2) := b in
          let annotated := Boxed img_bgr (x1, y1) (x2, y2) (124, 58, 237)%Z 3 in
          let anno_path := SLIPS_DIR ++ "/annotated_latest.jpg" in
          call (EvImwrite anno_path annotated) (imwrite E anno_path annotated) ;;;
          let crop_path := SLIPS_DIR ++ "/crop_latest.jpg" in
          call (EvImwrite crop_path crop) (imwrite E crop_path crop) ;;;
          let entry_time := now E in
          slip_file <- generate_slip plate_text entry_time ;;
          ret ([ ("plate", plate_text);
                 ("entry_time", Time.strftime "%d %b %Y, %H:%M:%S" entry_time);
                 ("fee", "Rs. 30.00");
                 ("slip_url", "/static/slips/" ++ slip_file);
                 ("anno_url", "/static/slips/annotated_latest.jpg");
                 ("crop_url", "/static/slips/crop_latest.jpg") ], 200%Z)
        end
      end
  end.

End Pipeline.

End App.

(** ** The interactive variant: [Task 06/main.py] *)

Module Main.

Definition FONT_REGULAR_PATH : Py.str := "fonts/Poppins-Regular.ttf".
Definition FONT_BOLD_PATH : Py.str := "fonts/Poppins-Bold.ttf".
Definition SLIP_FILENAME : Py.str := "generated_parking_slip.png".

Definition RECOGNITION_EMPTY : Py.str := "OCR failed (EasyOCR found no text)".
Definition RECOGNITION_FILTERED : Py.str :=
  "OCR failed (Low confidence or non-alphanumeric)".

(** What [detect_and_ocr] returns:
    [(box, plate_text, cropped_plate_img, processed_for_ocr_img)]. *)
Definition detection : Type :=
  option box * Py.str * option image * option image.

(** The except clause of [detect_and_ocr], with the locals it returns. *)
Definition on_exception (b : option box) (cropped processed : option image)
    (e : Py.str) : M detection :=
  emit (EvSt StError
          ("⚠️ An error occurred during detection or EasyOCR processing: " ++ e)) ;;;
  ret (b, "Processing Error", cropped, processed).

Record slip_fonts : Type := {
  font_title : font; font_text : font; font_value_bold : font;
  font_small : font; font_icon : font
}.

Definition primary_color : Py.str := "#2C3E50".
Definition secondary_color : Py.str := "#7F8C8D".
Definition accent_color : Py.str := "#BDC3C7".

(** The message shown when [is_success] is false, lines 360-367. *)
Definition failure_message (plate_text_result : Py.str) : event :=
  if Py.eqb plate_text_result RECOGNITION_EMPTY then
    EvSt StError "❌ OCR Failed: EasyOCR did not find any recognizable text."
  else if Py.eqb plate_text_result RECOGNITION_FILTERED then
    EvSt StWarning
      "⚠️ OCR Warning: Text found but had low confidence or contained only symbols after filtering."
  else if Py.eqb plate_text_result "No plate detected" then
    EvSt StError "❌ Detection Failed: No number plate found by YOLO."
  else EvSt StWarning ("⚠️ Status: `" ++ plate_text_result ++ "`").

(** The [for icon, label, value, value_font in content_items] loop;
    [y_pos] advances by 50 per row and is returned with the drawing. *)
Fixpoint draw_items (F : slip_fonts) (y_pos : Z)
    (items : list (Py.str * Py.str * Py.str * font)) : list draw_op * Z :=
  match items with
  | [] => ([], y_pos)
  | (icon, label, value, value_font) :: r =>
      let '(ops, y_end) := draw_items F (y_pos + 50) r in
      (Text (inject_Z 35) (y_pos + 3) icon (font_icon F) primary_color
       :: Text (inject_Z (35 + 40)) y_pos label (font_text F) secondary_color
       :: Text (inject_Z 280) y_pos value value_font primary_color
       :: ops, y_end)
  end.

Section Script.

Context {U : Py.Unicode}.
Variable E : world.

(** Lines 108-117: the loop that appends every kept, non-empty cleaned
    text to [filtered_texts]. *)
Definition filtered_texts (ocr_results : list span) : list Py.str :=
  fold_left
    (fun acc s =>
       if ge_threshold (span_conf s) then
         let cleaned_text := clean (span_text s) in
         if Py.truthy cleaned_text then acc ++ [cleaned_text] else acc
       else acc)
    ocr_results [].

(** Lines 104-124: the reading computed from the recogniser's spans. *)
Definition plate_text (ocr_results : list span) : Py.str :=
  match ocr_results with
  | [] => RECOGNITION_EMPTY
  | _ :: _ =>
      match filtered_texts ocr_results with
      | [] => RECOGNITION_FILTERED
      | (_ :: _) as l => Py.join " " l
      end
  end.

Definition detect_and_ocr (image_np : image)
    (yolo_model : option (image -> outcome (list box)))
    (easyocr_reader : option (image -> outcome (list span))) : M detection :=
  match easyocr_reader with
  | None => ret (None, "OCR Error (Reader not loaded)", None, None)
  | Some readtext =>
    attempt
      match yolo_model with
      | Some model => call (EvDetect image_np) (model image_np)
      | None => lift (Raises "'NoneType' object is not callable")
      end
      (on_exception None None None)
      (fun boxes =>
         match boxes with
         | [] => ret (None, "No plate detected", None, None)
         | (x1, y1, x2, y2) :: _ =>
           let b : box := (x1, y1, x2, y2) in
           let padding := 2%Z in
           let cropped_plate_img := crop_of padding image_np b in
           let processed_for_ocr_img := cropped_plate_img in
           if (size cropped_plate_img =? 0)%Z then
             ret (Some b, "Crop Error", Some cropped_plate_img,
                  Some processed_for_ocr_img)
           else
             attempt
               (call (EvReadtext processed_for_ocr_img)
                     (readtext processed_for_ocr_img))
               (on_exception (Some b) (Some cropped_plate_img)
                             (Some processed_for_ocr_img))
               (fun ocr_results =>
                  ret (Some b, plate_text ocr_results, Some cropped_plate_img,
                       Some processed_for_ocr_img))
         end)
  end.

(** Line 206: what the receipt shows for the plate. *)
Definition display_plate_text (plate_text : Py.str) : Py.str :=
  if Py.truthy plate_text
     && negb (Py.contains "failed" (Py.lower plate_text))
     && negb (Py.contains "error" (Py.lower plate_text))
  then plate_text else "N/A".

(** The three icon/label/value rows of the receipt, each with the font
    of its value. *)
Definition content_items (F : slip_fonts) (plate_text : Py.str)
    (entry_time_obj : datetime) : list (Py.str * Py.str * Py.str * font) :=
  [ ("🚗", "Vehicle Plate", display_plate_text plate_text, font_value_bold F);
    ("📅", "Entry Time", Time.strftime "%d %b %Y, %H:%M:%S" entry_time_obj,
     font_text F);
    ("💰", "Parking Fee", "Rs. 30.00", font_text F) ].

(** Line 355: the page's success test on the returned plate string. *)
Definition is_success (plate_text_result : Py.str) : bool :=
  negb (Py.any (fun err_msg => Py.contains err_msg (Py.lower plate_text_result))
               ["error"; "failed"; "no plate"; "n/a"; "crop"])
  && Py.truthy plate_text_result.

(** Poppins when both files exist and load, else Arial, else PIL's
    default; the flag is [fonts_ok]. *)
Definition load_fonts : slip_fonts * bool :=
  if path_exists E FONT_REGULAR_PATH && path_exists E FONT_BOLD_PATH
     && font_loads E FONT_BOLD_PATH && font_loads E FONT_REGULAR_PATH
  then
    ({| font_title := Truetype FONT_BOLD_PATH 34;
        font_text := Truetype FONT_REGULAR_PATH 18;
        font_value_bold := Truetype FONT_BOLD_PATH 20;
        font_small := Truetype FONT_REGULAR_PATH 13;
        font_icon := Truetype FONT_REGULAR_PATH 20 |}, true)
  else if font_loads E "arialbd.ttf" && font_loads E "arial.ttf" then
    ({| font_title := Truetype "arialbd.ttf" 32;
        font_text := Truetype "arial.ttf" 17;
        font_value_bold := Truetype "arialbd.ttf" 19;
        font_small := Truetype "arial.ttf" 13;
        font_icon := Truetype "arial.ttf" 19 |}, false)
  else
    ({| font_title := DefaultFont; font_text := DefaultFont;
        font_value_bold := DefaultFont; font_small := DefaultFont;
        font_icon := DefaultFont |}, false).

Definition slip_canvas (plate_text : Py.str) (entry_time_obj : datetime)
  : canvas :=
  let slip_width := 600%Z in
  let slip_height := 400%Z in
  let border_margin := 20%Z in
  let content_padding_x := 35%Z in
  let F := fst load_fonts in
  let y_pos := (border_margin + 25)%Z in
  let header_text := "PARKING RECEIPT" in
  let '(hx0, hy0, hx2, hy3) := textbbox E (font_title F) header_text in
  let header_width := (hx2 - hx0)%Z in
  let header := Text (inject_Z (slip_width - header_width) / inject_Z 2)%Q
                     y_pos header_text (font_title F) primary_color in
  let y_pos := (y_pos + ((hy3 - hy0) + 15))%Z in
  let divider := Line (content_padding_x, y_pos)
                      (slip_width - content_padding_x, y_pos)%Z accent_color 1 in
  let y_pos := (y_pos + 25)%Z in
  let '(item_ops, y_pos) :=
    draw_items F y_pos (content_items F plate_text entry_time_obj) in
  let y_pos := (y_pos + 5)%Z in
  let qr_size := 80%Z in
  let qr_x := (slip_width - border_margin - content_padding_x - qr_size)%Z in
  let qr_y := y_pos in
  let footer_y := (slip_height - border_margin - 25)%Z in
  let powered_by_text := "Powered by Downlabs" in
  let '(px0, _, px2, _) := textbbox E (font_small F) powered_by_text in
  {| canvas_size := (slip_width, slip_height);
     canvas_bg := "#F8F9FA";
     canvas_ops :=
       [ RoundedRectangle
           (border_margin, border_margin,
            slip_width - border_margin, slip_height - border_margin)%Z
           10 None (Some accent_color) 2;
         header; divider ]
       ++ item_ops
       ++ [ Rectangle (qr_x, qr_y, qr_x + qr_size, qr_y + qr_size)%Z accent_color 1;
            Line (qr_x + 5, qr_y + 5)%Z
                 (qr_x + qr_size - 5, qr_y + qr_size - 5)%Z accent_color 0;
            Line (qr_x + qr_size - 5, qr_y + 5)%Z
                 (qr_x + 5, qr_y + qr_size - 5)%Z accent_color 0;
            Text (inject_Z (qr_x + 18)) (qr_y + 30) "SCAN"
                 (font_small F) secondary_color;
            Text (inject_Z content_padding_x) (qr_y + 15)
                 "Scan for details or payment." (font_text F) secondary_color;
            Text (inject_Z (slip_width - (px2 - px0)) / inject_Z 2)%Q
                 footer_y powered_by_text (font_small F) secondary_color ] |}.

(** Draw the receipt and save it under [SLIP_FILENAME]; [None] when the
    save fails. *)
Definition create_parking_slip (plate_text : Py.str)
    (entry_time_obj : datetime) : M (option Py.str) :=
  let slip := slip_canvas plate_text entry_time_obj in
  (if snd load_fonts then ret tt
   else emit (EvSt StInfo
     "ℹ️ Custom Poppins fonts not found or failed to load. Using default fonts. Appearance may vary.")) ;;;
  attempt
    (call (EvSlip SLIP_FILENAME slip) (save E SLIP_FILENAME slip))
    (fun e =>
       emit (EvSt StError ("❌ Failed to save the parking slip image: " ++ e)) ;;;
       ret None)
    (fun _ => ret (Some SLIP_FILENAME)).

(** How [st.image] of an array ends. Streamlit shows an array that holds
    pixels; what the call does with one that holds none is the world's
    [st_image_empty]. *)
Definition shown (img : image) : outcome unit :=
  if (size img =? 0)%Z then st_image_empty E img else Returns tt.

(** [st.image(img, caption=...)]. *)
Definition st_image (img : image) (caption : Py.str) : M unit :=
  call (EvStImage caption) (shown img).

(** The except clause of the results column, lines 394-396. *)
Definition on_unexpected (e : Py.str) : M unit :=
  emit (EvSt StError ("🚫 An unexpected error occurred: " ++ e)).

(** The results column of the page, lines 323-401, for one run of the
    script; [uploaded_file] is the upload's bytes. Dividers, headers and
    the spinner are not recorded, and the preview of the saved receipt and
    the download button are shown without more ado. *)
Definition results_column (uploaded_file : option string)
    (yolo_model : option (image -> outcome (list box)))
    (easy_ocr_reader : option (image -> outcome (list span))) : M unit :=
  let models_loaded :=
    match yolo_model, easy_ocr_reader with
    | Some _, Some _ => true
    | _, _ => false
    end in
  match uploaded_file with
  | None => emit (EvSt StInfo "☝️ Upload an image to begin.")
  | Some file_bytes =>
    if negb models_loaded then
      emit (EvSt StError "⚠️ Models failed to load. Cannot process.")
    else
      attempt
        (img_cv <- lift (imdecode E file_bytes) ;;
         match img_cv with
         | None =>
             emit (EvSt StError "❌ Failed to decode image. Please try another file.")
         | Some img_cv =>
           d <- detect_and_ocr img_cv yolo_model easy_ocr_reader ;;
           let '(detection_box, plate_text_result, cropped_img, ocr_input_img) := d in
           let current_time := now E in
           match detection_box with
           | None =>
               emit (EvSt StError
                       "❌ **Detection Failed:** No number plate could be detected.")
           | Some (x1, y1, x2, y2) =>
             let img_with_box := Boxed img_cv (x1, y1) (x2, y2) (0, 255, 0)%Z 3 in
             st_image img_with_box "Detected Number Plate Area" ;;;
             match cropped_img with
             | Some cropped_img => st_image cropped_img "Cropped Plate Sent to EasyOCR"
             | None => ret tt
             end ;;;
             if is_success plate_text_result then
               emit (EvSt StSuccess ("✅ **`" ++ plate_text_result ++ "`**")) ;;;
               slip_filepath <- create_parking_slip plate_text_result current_time ;;
               match slip_filepath with
               | Some p =>
                   if path_exists E p then
                     emit (EvStImage "Parking Slip Preview") ;;;
                     emit (EvStDownload
                             ("Parking_Slip_" ++ Py.replace_space plate_text_result
                              ++ "_" ++ Time.strftime "%Y%m%d_%H%M" current_time
                              ++ ".png"))
                   else
                     emit (EvSt StError "❌ Failed to generate or save the parking slip.")
               | None =>
                   emit (EvSt StError "❌ Failed to generate or save the parking slip.")
               end
             else
               emit (failure_message plate_text_result) ;;;
               emit (EvSt StInfo
                 "ℹ️ Parking slip cannot be generated due to issues in plate detection or text extraction.")
           end
         end)
        on_unexpected
        (fun _ => ret tt)
  end.

End Script.

End Main.

(** ** Start-up of the page: the model loaders and the two columns of
    [Task 06/main.py]

    The loaders are modelled for one run of the script: the cache of
    [st.cache_resource] and the calls to [logger] are left out. *)

Module Startup.

Definition YOLO_MODEL_PATH : Py.str := "best.pt".
Definition OCR_LANGUAGES : list Py.str := ["en"].

(** How a constructor call ends, by the except clause that catches it. *)
Inductive construction (A : Type) : Type :=
| Built (a : A)
| ModuleNotFound (details : Py.str)   (* ModuleNotFoundError *)
| Failed (details : Py.str).          (* any other Exception *)
Arguments Built {A} a.
Arguments ModuleNotFound {A} details.
Arguments Failed {A} details.

(** An [easyocr.Reader]: the device it runs on and its [readtext]. *)
Record reader : Type := {
  device : Py.str;
  readtext : image -> outcome (list span)
}.

(** The two model libraries. *)
Record libraries : Type := {
  YOLO : Py.str -> outcome (image -> outcome (list box));
  Reader : list Py.str -> bool -> construction reader
}.

Section Loaders.

Context {U : Py.Unicode}.
Variable E : world.
Variable L : libraries.

(** Lines 27-41. *)
Definition load_yolo_model (model_path : Py.str)
  : M (option (image -> outcome (list box))) :=
  if negb (path_exists E model_path) then
    emit (EvSt StError
            ("💥 **Error:** YOLO model file not found at `" ++ model_path ++ "`.")) ;;;
    ret None
  else
    match YOLO L model_path with
    | Returns model => ret (Some model)
    | Raises e =>
        emit (EvSt StError
                ("💥 **Error:** Failed to load YOLO model. Details: " ++ e)) ;;;
        ret None
    end.

(** Lines 43-63. *)
Definition load_easyocr_reader (languages : list Py.str) (gpu : bool)
  : M (option reader) :=
  match Reader L languages gpu with
  | Built r =>
      (if gpu && negb (Py.eqb (device r) "cuda") then
         emit (EvSt StInfo
           "ℹ️ EasyOCR is running on CPU. For faster processing, ensure PyTorch with CUDA support is installed and a GPU is available.")
       else ret tt) ;;;
      ret (Some r)
  | ModuleNotFound e =>
      emit (EvSt StError
        ("💥 **Error:** EasyOCR or its dependencies (like PyTorch) not found. Please install them. Details: " ++ e)) ;;;
      emit (EvSt StError
        "Please install PyTorch and EasyOCR: `pip install easyocr torch torchvision torchaudio` (adjust PyTorch command based on your system/CUDA).") ;;;
      ret None
  | Failed e =>
      emit (EvSt StError
        ("💥 **Error:** Failed to initialize EasyOCR reader. Check internet connection or installation. Details: " ++ e)) ;;;
      ret None
  end.

(** The upload column, lines 312-321: the uploaded file is shown as it
    comes, outside any handler. *)
Definition upload_column (uploaded_file : option string) : M unit :=
  match uploaded_file with
  | Some file_bytes =>
      call (EvStImage "Uploaded Vehicle Image") (st_image_upload E file_bytes)
  | None => ret tt
  end.

(** One run of the script, lines 306-401: load both models, show the
    upload, then the results column. *)
Definition page (uploaded_file : option string) : M unit :=
  yolo_model <- load_yolo_model YOLO_MODEL_PATH ;;
  easy_ocr_reader <- load_easyocr_reader OCR_LANGUAGES true ;;
  upload_column uploaded_file ;;;
  Main.results_column E uploaded_file yolo_model
    (option_map readtext easy_ocr_reader).

End Loaders.

End Startup.

(** * Vocabulary of the properties *)

Module Spec.

(** A character of an ASCII token: a digit or an upper-case letter. *)
Definition token_char (c : Py.char) : bool :=
  Py.ascii_digit c || Py.ascii_upper c.

Definition is_space (c : Py.char) : bool := (c =? 32)%N.

(** An ASCII token: non-empty, digits and upper-case letters only. *)
Definition token (s : Py.str) : bool := Py.truthy s && forallb token_char s.

(** A digit, an upper-case ASCII letter or a space. *)
Definition token_or_space (c : Py.char) : bool := token_char c || is_space c.

(** No ASCII lower-case letter: what separates a joined reading from the
    sentinels. *)
Definition not_lower (c : Py.char) : bool := negb (Py.ascii_lower c).

(** A character a reading can hold: one that is not ASCII, or a digit, an
    upper-case letter or a space. *)
Definition reading_char (c : Py.char) : bool :=
  negb (Py.isascii_char c) || token_or_space c.

(** Every span's text is ASCII. *)
Definition ascii_spans (raw : list span) : bool :=
  forallb (fun s => Py.isascii (span_text s)) raw.

(** The comparison [conf >= bound] of two doubles as IEEE 754 defines it:
    the operands compare as equal or as greater. *)
Definition at_least (conf bound : float) : bool :=
  match SFcompare (Prim2SF conf) (Prim2SF bound) with
  | Some Eq | Some Gt => true
  | _ => false
  end.

(** Strings separated by one space each. *)
Fixpoint spaced (l : list Py.str) : Py.str :=
  match l with
  | [] => []
  | x :: r =>
      match r with
      | [] => x
      | _ :: _ => x ++ 32%N :: spaced r
      end
  end.

Section Reading.

Context {U : Py.Unicode}.

(** "Alphanumeric characters and spaces", as [str.isalnum] reads
    alphanumeric. *)
Definition alnum_or_space (c : Py.char) : bool := Py.isalnum c || is_space c.

(** The alphanumeric characters of a text, each in upper case. *)
Fixpoint alphanumerics_upper (text : Py.str) : Py.str :=
  match text with
  | [] => []
  | c :: r =>
      if Py.isalnum c then Py.upper_char c ++ alphanumerics_upper r
      else alphanumerics_upper r
  end.

(** The cleaned texts of the spans with confidence at least 0.2, without
    the empty ones, in input order. *)
Fixpoint plate_tokens (spans : list span) : list Py.str :=
  match spans with
  | [] => []
  | (_, text, conf) :: r =>
      if at_least conf 0.2 then
        match alphanumerics_upper text with
        | [] => plate_tokens r
        | (_ :: _) as t => t :: plate_tokens r
        end
      else plate_tokens r
  end.

(** The reading as the specification words it: keep the spans with
    confidence at least 0.2, reduce each text to its alphanumeric
    characters in upper case, drop the empty ones, join with one space, and
    fall back on the sentinel when nothing is left. *)
Definition plate_reading (sentinel : Py.str) (spans : list span) : Py.str :=
  match plate_tokens spans with
  | [] => sentinel
  | (_ :: _) as l => spaced l
  end.

(** The cleaned strings that survive: what both variants join. *)
Definition surviving (raw : list span) : list Py.str :=
  filter Py.truthy (App.texts raw).

(** The statement that a filter's reading is never empty and is one of
    its sentinels or made of alphanumeric characters and spaces only. *)
Definition alnum_and_spaces (f : list span -> Py.str) (sentinels : list Py.str)
  : Prop :=
  forall raw,
    f raw <> [] /\ (In (f raw) sentinels \/ forallb alnum_or_space (f raw) = true).

(** Where a character of a reading comes from: it is a joining space, or
    it stands in the upper case of an alphanumeric character of a span. *)
Definition from_spans (raw : list span) (d : Py.char) : Prop :=
  d = 32%N
  \/ exists s c, In s raw /\ In c (span_text s)
                 /\ Py.isalnum c = true /\ In d (Py.upper_char c).

End Reading.


(** Events of interest in a log. *)
Definition is_readtext (e : event) : bool :=
  match e with
  | EvReadtext _ => true
  | _ => false
  end.

Definition is_slip (e : event) : bool :=
  match e with
  | EvSlip _ _ => true
  | _ => false
  end.

Definition is_detect (e : event) : bool :=
  match e with
  | EvDetect _ => true
  | _ => false
  end.

Definition is_imwrite (e : event) : bool :=
  match e with
  | EvImwrite _ _ => true
  | _ => false
  end.

Definition is_download (e : event) : bool :=
  match e with
  | EvStDownload _ => true
  | _ => false
  end.

(** A model was run, an image written or a receipt saved. *)
Definition is_work (e : event) : bool :=
  is_detect e || is_readtext e || is_imwrite e || is_slip e.

(** [count p l]: how many events of [l] satisfy [p]. *)
Definition count (p : event -> bool) (l : list event) : nat :=
  List.length (filter p l).

(** A library call returned. *)
Definition returned {A : Type} (o : outcome A) : bool :=
  match o with
  | Returns _ => true
  | Raises _ => false
  end.

(** The words the page's success test looks for. *)
Definition failure_words : list Py.str :=
  ["error"; "failed"; "no plate"; "n/a"; "crop"].

(** No space in a string. *)
Definition no_space (s : Py.str) : bool := forallb (fun c => negb (is_space c)) s.

(** The 128 ASCII characters. *)
Definition ascii_table : list Py.char := map N.of_nat (seq 0 128).

(** No space in a [strftime] format. *)
Definition plain_format (fmt : string) : bool :=
  forallb (fun c => negb (Ascii.eqb c " ")) (list_ascii_of_string fmt).


(** A coordinate far from the limits of [int64]. *)
Definition in_range (z : Z) : Prop := (- 2 ^ 62 <= z < 2 ^ 62)%Z.

(** A rectangle [(y1_pad, y2_pad, x1_pad, x2_pad)] without area: it holds
    no row or no column. *)
Definition no_area (r : Z * Z * Z * Z) : Prop :=
  let '(y1_pad, y2_pad, x1_pad, x2_pad) := r in
  (y2_pad <= y1_pad \/ x2_pad <= x1_pad)%Z.

(** A rectangle without area whose stop bounds are not negative. *)
Definition zero_area (r : Z * Z * Z * Z) : Prop :=
  let '(y1_pad, y2_pad, x1_pad, x2_pad) := r in
  (0 <= y2_pad /\ 0 <= x2_pad /\ (y2_pad <= y1_pad \/ x2_pad <= x1_pad))%Z.

(** A box that lies in the image: [0 <= x1 <= x2 <= width] and
    [0 <= y1 <= y2 <= height]. *)
Definition box_in_image (image_np : image) (b : box) : Prop :=
  let '(x1, y1, x2, y2) := b in
  (0 <= x1 <= x2 /\ x2 <= snd (shape image_np)
   /\ 0 <= y1 <= y2 /\ y2 <= fst (shape image_np))%Z.

(** The same spans with other boxes and with their texts mapped. *)
Definition recased (f : Py.str -> Py.str) (g : span -> list (Z * Z))
    (raw : list span) : list span :=
  map (fun s => (g s, f (span_text s), span_conf s)) raw.

(** The file name of the service's receipt: line 120 of [app.py]. *)
Definition slip_file_name (plate_text : Py.str) (entry_time : datetime) : Py.str :=
  "slip_" ++ Py.replace_space plate_text ++ "_"
  ++ Time.strftime "%Y%m%d_%H%M%S" entry_time ++ ".png".

(** The two fixed artifacts of the service. *)
Definition anno_path : Py.str := "static/slips/annotated_latest.jpg".
Definition crop_path : Py.str := "static/slips/crop_latest.jpg".

(** The body of a successful answer. *)
Definition success_body (E : world) (plate : Py.str) : list (Py.str * Py.str) :=
  [ ("plate", plate);
    ("entry_time", Time.strftime "%d %b %Y, %H:%M:%S" (now E));
    ("fee", "Rs. 30.00");
    ("slip_url", "/static/slips/" ++ slip_file_name plate (now E));
    ("anno_url", "/static/slips/annotated_latest.jpg");
    ("crop_url", "/static/slips/crop_latest.jpg") ].

(** What [process] does once a box is found and a reading obtained: two
    image writes, the receipt, the answer. *)
Definition finish (E : world) (image_np : image) (b : box) (plate : Py.str)
    (crop : image) : M App.response :=
  let '(x1, y1, x2, y2) := b in
  let annotated := Boxed image_np (x1, y1) (x2, y2) (124, 58, 237)%Z 3 in
  let slip := App.slip_canvas E plate (now E) in
  let path := "static/slips/" ++ slip_file_name plate (now E) in
  match imwrite E anno_path annotated with
  | Raises e => ([EvImwrite anno_path annotated], Raises e)
  | Returns _ =>
    match imwrite E crop_path crop with
    | Raises e =>
        ([EvImwrite anno_path annotated; EvImwrite crop_path crop], Raises e)
    | Returns _ =>
        ([EvImwrite anno_path annotated; EvImwrite crop_path crop;
          EvSlip path slip],
         match save E path slip with
         | Returns _ => Returns (success_body E plate, 200%Z)
         | Raises e => Raises e
         end)
    end
  end.

(** The message of [detect_and_ocr]'s except clause. *)
Definition processing_error (e : Py.str) : event :=
  EvSt StError
    ("⚠️ An error occurred during detection or EasyOCR processing: " ++ e).

(** The message of the results column's except clause. *)
Definition unexpected (e : Py.str) : event :=
  EvSt StError ("🚫 An unexpected error occurred: " ++ e).

(** The name under which the page offers a receipt for download. *)
Definition download_name (plate : Py.str) (t : datetime) : Py.str :=
  "Parking_Slip_" ++ Py.replace_space plate ++ "_"
  ++ Time.strftime "%Y%m%d_%H%M" t ++ ".png".

Section Verdict.

Context {U : Py.Unicode}.
Variable E : world.

(** What the page shows for a plate once the box and the crop are on
    display: the plate and its receipt, or the failure. *)
Definition verdict (plate : Py.str) : list event :=
  if Main.is_success plate then
    EvSt StSuccess ("✅ **`" ++ plate ++ "`**")
    :: (if snd (Main.load_fonts E) then []
        else [EvSt StInfo
          "ℹ️ Custom Poppins fonts not found or failed to load. Using default fonts. Appearance may vary."])
    ++ EvSlip Main.SLIP_FILENAME (Main.slip_canvas E plate (now E))
    :: (match save E Main.SLIP_FILENAME (Main.slip_canvas E plate (now E)) with
        | Returns _ =>
            if path_exists E Main.SLIP_FILENAME then
              [ EvStImage "Parking Slip Preview";
                EvStDownload (download_name plate (now E)) ]
            else
              [EvSt StError "❌ Failed to generate or save the parking slip."]
        | Raises e =>
            [ EvSt StError ("❌ Failed to save the parking slip image: " ++ e);
              EvSt StError "❌ Failed to generate or save the parking slip." ]
        end)
  else
    [ Main.failure_message plate;
      EvSt StInfo
        "ℹ️ Parking slip cannot be generated due to issues in plate detection or text extraction." ].

(** What the page shows after [detect_and_ocr] returned [d] for the image
    [image_np]: the two displays, each of which may end the column with the
    message of its exception, then the verdict. *)
Definition after_detection (image_np : image) (d : Main.detection) : list event :=
  let '(detection_box, plate, cropped_img, _) := d in
  match detection_box with
  | None =>
      [EvSt StError "❌ **Detection Failed:** No number plate could be detected."]
  | Some (x1, y1, x2, y2) =>
      EvStImage "Detected Number Plate Area"
      :: match Main.shown E (Boxed image_np (x1, y1) (x2, y2) (0, 255, 0)%Z 3) with
         | Raises e => [unexpected e]
         | Returns _ =>
             match cropped_img with
             | Some c =>
                 EvStImage "Cropped Plate Sent to EasyOCR"
                 :: match Main.shown E c with
                    | Raises e => [unexpected e]
                    | Returns _ => verdict plate
                    end
             | None => verdict plate
             end
         end
  end.

End Verdict.

End Spec.

(** ** A sample installation, for running the pipeline *)

Module Demo.

(** An excerpt of the character database: ASCII, and the letters
    [É] (201), [ß] (223), [é] (233), [İ] (304) and [ǰ] (496) with their case
    mappings as CPython has them; every other character is taken for a
    caseless symbol, as the combining marks 775 and 780 are. *)
Definition letters : list Py.char := [201; 223; 233; 304; 496]%N.

Definition isalnum (c : Py.char) : bool :=
  if Py.isascii_char c then Py.ascii_alnum c else existsb (N.eqb c) letters.

Definition upper_char (c : Py.char) : Py.str :=
  if Py.isascii_char c then [Py.ascii_upper_char c]
  else if (c =? 223)%N then "SS"
  else if (c =? 233)%N then [201%N]
  else if (c =? 496)%N then [74; 780]%N
  else [c].

Definition lower_char (c : Py.char) : Py.str :=
  if Py.isascii_char c then [Py.ascii_lower_char c]
  else if (c =? 201)%N then [233%N]
  else if (c =? 304)%N then [105; 775]%N
  else [c].

Definition lower (s : Py.str) : Py.str := flat_map lower_char s.

Lemma excerpt_isalnum_ascii c :
  Py.isascii_char c = true -> isalnum c = Py.ascii_alnum c.
Proof. intros H; unfold isalnum; now rewrite H. Qed.

Lemma excerpt_upper_ascii c :
  Py.isascii_char c = true -> upper_char c = [Py.ascii_upper_char c].
Proof. intros H; unfold upper_char; now rewrite H. Qed.

Lemma excerpt_lower_ascii s :
  Py.isascii s = true -> lower s = map Py.ascii_lower_char s.
Proof.
  unfold lower, Py.isascii; induction s as [|c s IH]; [reflexivity|].
  cbn [forallb flat_map map]; intros H.
  apply andb_true_iff in H as [Hc Hs].
  unfold lower_char at 1; rewrite Hc, (IH Hs); reflexivity.
Qed.

Lemma excerpt_upper_alnum c d :
  isalnum c = true -> In d (upper_char c) -> Py.isascii_char d = true ->
  Py.ascii_digit d || Py.ascii_upper d = true.
Proof.
  unfold isalnum, upper_char.
  destruct (Py.isascii_char c) eqn:Hc.
  - intros Ha [<-|[]] _.
    unfold Py.ascii_alnum, Py.ascii_upper_char, Py.ascii_digit, Py.ascii_upper,
      Py.ascii_lower, Py.between in *.
    destruct ((97 <=? c)%N && (c <=? 122)%N) eqn:Hl.
    + apply andb_true_iff in Hl as [H1 H2].
      apply N.leb_le in H1; apply N.leb_le in H2.
      apply orb_true_iff; right; apply andb_true_iff; split; apply N.leb_le; lia.
    + rewrite orb_false_r in Ha; exact Ha.
  - intros Ha Hin Hd.
    unfold letters in Ha; cbn [existsb] in Ha.
    repeat (apply orb_true_iff in Ha as [Ha|Ha];
            [apply N.eqb_eq in Ha; subst c; cbn in Hin;
             repeat (destruct Hin as [<-|Hin]; [try discriminate Hd; reflexivity|]);
             destruct Hin|]).
    discriminate Ha.
Qed.

Lemma excerpt_lower_new s d :
  In d (lower s) -> Py.isascii_char d = true -> Py.ascii_lower d = false ->
  In d s.
Proof.
  unfold lower; intros Hin Hd Hl.
  apply in_flat_map in Hin as (c & Hc & Hin).
  assert (d = c); [|now subst].
  unfold lower_char in Hin.
  destruct (Py.isascii_char c) eqn:Ha.
  - destruct Hin as [<-|[]].
    unfold Py.ascii_lower_char, Py.ascii_lower, Py.ascii_upper, Py.between in *.
    destruct ((65 <=? c)%N && (c <=? 90)%N) eqn:Hu; [|reflexivity].
    apply andb_true_iff in Hu as [H1 H2].
    apply N.leb_le in H1; apply N.leb_le in H2.
    apply andb_false_iff in Hl as [Hl|Hl]; apply N.leb_gt in Hl; lia.
  - destruct (c =? 201)%N; [destruct Hin as [<-|[]]; discriminate Hd|].
    destruct (c =? 304)%N.
    + destruct Hin as [<-|[<-|[]]]; [discriminate Hl | discriminate Hd].
    + destruct Hin as [<-|[]]; reflexivity.
Qed.

#[global] Instance unicode : Py.Unicode := {|
  Py.isalnum := isalnum;
  Py.upper_char := upper_char;
  Py.lower := lower;
  Py.isalnum_ascii := excerpt_isalnum_ascii;
  Py.upper_ascii := excerpt_upper_ascii;
  Py.lower_ascii := excerpt_lower_ascii;
  Py.upper_alnum := excerpt_upper_alnum;
  Py.lower_new := excerpt_lower_new
|}.

(** OpenCV and Streamlit refuse an image without pixels; the messages
    stand for the libraries' own. *)
Definition no_pixels : Py.str := "the image is empty".

(** A 480 x 640 picture decodes from every upload that holds a byte; the
    writes of images that hold pixels succeed, as does every save; no font
    file is installed, and text is ten pixels wide per character. *)
Definition installation : world := {|
  imdecode := fun file_bytes =>
    match file_bytes with
    | EmptyString => Raises "the buffer is empty"
    | String _ _ => Returns (Some (Pixels 0 480 640))
    end;
  imwrite := fun _ img => if (size img =? 0)%Z then Raises no_pixels else Returns true;
  font_loads := fun _ => false;
  path_exists := fun _ => true;
  textbbox := fun _ s => (0, 0, 10 * Z.of_nat (List.length s), 12)%Z;
  save := fun _ _ => Returns tt;
  st_image_upload := fun _ => Returns tt;
  st_image_empty := fun _ => Raises no_pixels;
  now := {| year := 2024; month := 3; day := 7;
            hour := 9; minute := 5; second := 0 |}
|}.

Definition img : image := Pixels 0 480 640.

(** Detectors: nothing found, a plate in the image, a box beside it. *)
Definition yolo_none : image -> outcome (list box) := fun _ => Returns [].
Definition yolo_plate : image -> outcome (list box) :=
  fun _ => Returns [(100, 200, 300, 260)%Z].
Definition yolo_outside : image -> outcome (list box) :=
  fun _ => Returns [(700, 200, 800, 260)%Z].

(** Recognisers. *)
Definition ocr_abc : image -> outcome (list span) :=
  fun _ => Returns [sp "ABC 123" 0.9].
Definition ocr_crop : image -> outcome (list span) :=
  fun _ => Returns [sp "CROP 12" 0.9].
Definition ocr_na : image -> outcome (list span) :=
  fun _ => Returns [sp "NA 123" 0.9].

(** An upload: the bytes and the form part that carries them. *)
Definition jpeg : string := "jpeg".

Definition request : App.request :=
  {| App.files_image := Some {| App.filename := "car.jpg"; App.content := jpeg |} |}.

End Demo.

(** ** More sample collaborators *)

Module Sample.

Definition yolo_two : image -> outcome (list box) :=
  fun _ => Returns [(100, 200, 300, 260)%Z; (10, 10, 50, 30)%Z].
Definition yolo_two' : image -> outcome (list box) :=
  fun _ => Returns [(100, 200, 300, 260)%Z; (400, 400, 450, 420)%Z].
Definition yolo_above : image -> outcome (list box) :=
  fun _ => Returns [(100, -60, 300, -10)%Z].
Definition yolo_broken : image -> outcome (list box) :=
  fun _ => Raises "CUDA out of memory".
Definition ocr_broken : image -> outcome (list span) :=
  fun _ => Raises "CUDA out of memory".
Definition ocr_nothing : image -> outcome (list span) := fun _ => Returns [].

(** The sample installation with other libraries: one whose image writes
    and displays take an image without pixels in their stride. *)
Definition lenient : world := {|
  imdecode := imdecode Demo.installation;
  imwrite := fun _ _ => Returns true;
  font_loads := font_loads Demo.installation;
  path_exists := path_exists Demo.installation;
  textbbox := textbbox Demo.installation;
  save := save Demo.installation;
  st_image_upload := st_image_upload Demo.installation;
  st_image_empty := fun _ => Returns tt;
  now := now Demo.installation
|}.

(** An installation without the model file. *)
Definition no_model_file : world := {|
  imdecode := imdecode Demo.installation;
  imwrite := imwrite Demo.installation;
  font_loads := font_loads Demo.installation;
  path_exists := fun _ => false;
  textbbox := textbbox Demo.installation;
  save := save Demo.installation;
  st_image_upload := st_image_upload Demo.installation;
  st_image_empty := st_image_empty Demo.installation;
  now := now Demo.installation
|}.

(** An installation whose disk is full: the receipt cannot be saved. *)
Definition disk_full : world := {|
  imdecode := imdecode Demo.installation;
  imwrite := imwrite Demo.installation;
  font_loads := font_loads Demo.installation;
  path_exists := path_exists Demo.installation;
  textbbox := textbbox Demo.installation;
  save := fun _ _ => Raises "No space left on device";
  st_image_upload := st_image_upload Demo.installation;
  st_image_empty := st_image_empty Demo.installation;
  now := now Demo.installation
|}.

(** An installation in which Streamlit cannot show the uploaded file. *)
Definition not_a_picture : world := {|
  imdecode := fun _ => Returns None;
  imwrite := imwrite Demo.installation;
  font_loads := font_loads Demo.installation;
  path_exists := path_exists Demo.installation;
  textbbox := textbbox Demo.installation;
  save := save Demo.installation;
  st_image_upload := fun _ => Raises "cannot identify image file";
  st_image_empty := st_image_empty Demo.installation;
  now := now Demo.installation
|}.

Definition libraries : Startup.libraries := {|
  Startup.YOLO := fun _ => Returns Demo.yolo_plate;
  Startup.Reader := fun _ _ =>
    Startup.Built {| Startup.device := "cpu";
                     Startup.readtext := Demo.ocr_abc |}
|}.

Definition no_torch : Startup.libraries := {|
  Startup.YOLO := fun _ => Returns Demo.yolo_plate;
  Startup.Reader := fun _ _ => Startup.ModuleNotFound "No module named 'torch'"
|}.

End Sample.

(** * Properties *)

(** ** Characters and strings *)

Module Chars.
Import Spec.

Section Database.

Context {U : Py.Unicode}.

Lemma token_char_ascii c : token_char c = true -> Py.isascii_char c = true.
Proof.
  unfold token_char, Py.ascii_digit, Py.ascii_upper, Py.between, Py.isascii_char.
  intros H; apply N.ltb_lt.
  apply orb_true_iff in H as [H|H]; apply andb_true_iff in H as [_ H];
    apply N.leb_le in H; lia.
Qed.

Lemma token_char_alnum c : token_char c = true -> Py.ascii_alnum c = true.
Proof. unfold token_char, Py.ascii_alnum; intros ->; reflexivity. Qed.


Lemma token_char_not_lower c : token_char c = true -> Py.ascii_lower c = false.
Proof.
  unfold token_char, Py.ascii_digit, Py.ascii_upper, Py.ascii_lower, Py.between.
  intros H.
  destruct ((97 <=? c)%N && (c <=? 122)%N) eqn:Hl; [|reflexivity].
  apply andb_true_iff in Hl as [Hl _]; apply N.leb_le in Hl.
  apply orb_true_iff in H as [H|H]; apply andb_true_iff in H as [_ H];
    apply N.leb_le in H; lia.
Qed.

(** The upper case of an ASCII alphanumeric character is a token
    character. *)
Lemma ascii_upper_token c :
  Py.ascii_alnum c = true -> token_char (Py.ascii_upper_char c) = true.
Proof.
  unfold token_char, Py.ascii_alnum, Py.ascii_upper_char, Py.ascii_digit,
    Py.ascii_upper, Py.ascii_lower, Py.between.
  destruct ((97 <=? c)%N && (c <=? 122)%N) eqn:Hl.
  - intros _; apply andb_true_iff in Hl as [H1 H2].
    apply N.leb_le in H1; apply N.leb_le in H2.
    apply orb_true_iff; right; apply andb_true_iff; split; apply N.leb_le; lia.
  - rewrite orb_false_r; auto.
Qed.


Lemma clean_cons c s :
  clean (c :: s) = (if Py.isalnum c then Py.upper_char c else []) ++ clean s.
Proof.
  unfold clean, Py.upper; cbn [filter].
  destruct (Py.isalnum c); reflexivity.
Qed.

(** On ASCII text cleaning is the ASCII filter and case mapping. *)
Lemma clean_ascii s :
  Py.isascii s = true ->
  clean s = map Py.ascii_upper_char (filter Py.ascii_alnum s).
Proof.
  unfold Py.isascii; induction s as [|c s IH]; [reflexivity|].
  cbn [forallb]; intros H; apply andb_true_iff in H as [Hc Hs].
  rewrite clean_cons, (Py.isalnum_ascii c Hc), (Py.upper_ascii c Hc), (IH Hs).
  cbn [filter]; destruct (Py.ascii_alnum c); reflexivity.
Qed.



(** Cleaned ASCII text is made of token characters. *)
Lemma clean_ascii_tokens s :
  Py.isascii s = true -> forallb token_char (clean s) = true.
Proof.
  intros H; rewrite (clean_ascii s H).
  clear H; induction s as [|c s IH]; [reflexivity|].
  cbn [filter]; destruct (Py.ascii_alnum c) eqn:Hc; [|exact IH].
  cbn [map forallb]; now rewrite (ascii_upper_token c Hc), IH.
Qed.

(** The ASCII characters of a cleaned text are digits and upper-case
    letters, whatever the text. *)
Lemma clean_reading_chars s : forallb reading_char (clean s) = true.
Proof.
  apply forallb_forall; intros d Hd.
  unfold clean, Py.upper in Hd.
  apply in_flat_map in Hd as (c & Hc & Hd).
  apply filter_In in Hc as [_ Hc].
  unfold reading_char, token_or_space, token_char.
  destruct (Py.isascii_char d) eqn:Ha; [|reflexivity].
  now rewrite (Py.upper_alnum c d Hc Hd Ha).
Qed.

(** Every character of a cleaned text comes from the upper case of an
    alphanumeric character of the text. *)
Lemma clean_origin s d :
  In d (clean s) ->
  exists c, In c s /\ Py.isalnum c = true /\ In d (Py.upper_char c).
Proof.
  unfold clean, Py.upper; intros Hd.
  apply in_flat_map in Hd as (c & Hc & Hd).
  apply filter_In in Hc as [Hin Hc]; eauto.
Qed.

End Database.

Lemma truthy_app_l s t : Py.truthy s = true -> Py.truthy (s ++ t) = true.
Proof. now destruct s. Qed.

Lemma truthy_false s : Py.truthy s = false -> s = [].
Proof. now destruct s. Qed.

Lemma eqb_eq a b : Py.eqb a b = true <-> a = b.
Proof.
  revert b; induction a as [|x a IH]; intros [|y b]; cbn [Py.eqb];
    try (split; [discriminate | congruence]); [tauto|].
  rewrite andb_true_iff, N.eqb_eq, IH; split.
  - now intros [-> ->].
  - intros H; injection H; auto.
Qed.

Lemma eqb_refl a : Py.eqb a a = true.
Proof. now apply eqb_eq. Qed.

Lemma eqb_neq a b : Py.eqb a b = false <-> a <> b.
Proof.
  destruct (Py.eqb a b) eqn:H.
  - apply eqb_eq in H; split; [discriminate | congruence].
  - split; [|reflexivity].
    intros _ Heq; apply eqb_eq in Heq; congruence.
Qed.

End Chars.

(** ** The token filter *)

Module Filter.
Import Spec.

Lemma SFcompare_antisym a b :
  SFcompare b a =
  match SFcompare a b with
  | Some c => Some (CompOpp c)
  | None => None
  end.
Proof.
  destruct a as [sa|sa| |sa ma ea], b as [sb|sb| |sb mb eb]; simpl;
    try reflexivity;
    try (destruct sa; reflexivity); try (destruct sb; reflexivity);
    try (destruct sa, sb; reflexivity).
  pose proof (eq_sym (Pos.compare_cont_antisym ma mb Eq)) as Hm.
  destruct sa, sb; try reflexivity;
    rewrite (Z.compare_antisym ea eb); destruct (ea ?= eb)%Z; simpl;
    try reflexivity.
  - exact (f_equal (fun c => Some (CompOpp c)) Hm).
  - exact (f_equal Some Hm).
Qed.

(** The test of the code is the IEEE comparison with 0.2. *)
Lemma ge_threshold_at_least conf : ge_threshold conf = at_least conf 0.2.
Proof.
  unfold ge_threshold, at_least, confidence_threshold.
  rewrite leb_spec; unfold SFleb.
  rewrite (SFcompare_antisym (Prim2SF conf) (Prim2SF 0.2)).
  destruct (SFcompare (Prim2SF conf) (Prim2SF 0.2)) as [[]|]; reflexivity.
Qed.

Lemma join_spaced l : Py.join " " l = spaced l.
Proof.
  induction l as [|x r IH]; [reflexivity|].
  destruct r as [|y r]; [reflexivity|].
  change (Py.join " " (x :: y :: r)) with (x ++ " " ++ Py.join " " (y :: r)).
  rewrite IH; reflexivity.
Qed.

Lemma join_truthy l :
  l <> [] -> Forall (fun t => Py.truthy t = true) l ->
  Py.truthy (Py.join " " l) = true.
Proof.
  intros Hne Hl; destruct l as [|x r]; [congruence|].
  apply Forall_inv in Hl.
  destruct r; simpl; [exact Hl|].
  now apply Chars.truthy_app_l.
Qed.

Lemma join_forallb p l :
  p 32%N = true -> Forall (fun t => forallb p t = true) l ->
  forallb p (Py.join " " l) = true.
Proof.
  intros Hsp; induction l as [|x r IH]; intros Hl; [reflexivity|].
  pose proof (Forall_inv Hl) as Hx; pose proof (Forall_inv_tail Hl) as Hr.
  destruct r as [|y r]; [exact Hx|].
  change (Py.join " " (x :: y :: r)) with (x ++ " " ++ Py.join " " (y :: r)).
  rewrite !forallb_app, Hx, (IH Hr); cbn; now rewrite Hsp.
Qed.

(** A character of a joined string is the separating space or a character
    of one of the strings. *)
Lemma join_origin l d :
  In d (Py.join " " l) -> d = 32%N \/ exists t, In t l /\ In d t.
Proof.
  induction l as [|x r IH]; [intros []|].
  destruct r as [|y r].
  - intros H; right; exists x; split; [now left | exact H].
  - change (Py.join " " (x :: y :: r)) with (x ++ " " ++ Py.join " " (y :: r)).
    intros H; apply in_app_or in H as [H|H].
    + right; exists x; split; [now left | exact H].
    + apply in_app_or in H as [H|H].
      * left; destruct H as [H|[]]; now symmetry.
      * destruct (IH H) as [Hd|(t & Ht & Hd)]; [now left|].
        right; exists t; split; [now right | exact Hd].
Qed.

Section Database.

Context {U : Py.Unicode}.

Lemma clean_alphanumerics_upper text : clean text = alphanumerics_upper text.
Proof.
  induction text as [|c r IH]; [reflexivity|].
  rewrite Chars.clean_cons, IH; cbn [alphanumerics_upper].
  destruct (Py.isalnum c); reflexivity.
Qed.

Lemma surviving_app a b : surviving (a ++ b) = surviving a ++ surviving b.
Proof.
  unfold surviving, App.texts.
  now rewrite filter_app, map_app, filter_app.
Qed.

Lemma surviving_cons s raw :
  surviving (s :: raw) =
  (if ge_threshold (span_conf s) then
     if Py.truthy (clean (span_text s)) then [clean (span_text s)] else []
   else []) ++ surviving raw.
Proof.
  unfold surviving, App.texts; simpl.
  destruct (ge_threshold (span_conf s)); simpl; [|reflexivity].
  now destruct (Py.truthy (clean (span_text s))).
Qed.

(** What survives is what the specification's wording keeps. *)
Lemma surviving_plate_tokens raw : surviving raw = plate_tokens raw.
Proof.
  induction raw as [|[[bbox text] conf] raw IH]; [reflexivity|].
  rewrite surviving_cons; cbn [plate_tokens].
  change (span_conf (bbox, text, conf)) with conf.
  change (span_text (bbox, text, conf)) with text.
  rewrite <- ge_threshold_at_least, <- clean_alphanumerics_upper, IH.
  destruct (ge_threshold conf); [|reflexivity].
  destruct (clean text); reflexivity.
Qed.

(** The loop of the page computes the same list, appended to what it
    starts from. *)
Lemma loop_surviving raw acc :
  fold_left
    (fun acc s =>
       if ge_threshold (span_conf s) then
         let cleaned_text := clean (span_text s) in
         if Py.truthy cleaned_text then acc ++ [cleaned_text] else acc
       else acc)
    raw acc
  = acc ++ surviving raw.
Proof.
  revert acc; induction raw as [|s raw IH]; intros acc; simpl.
  - now rewrite app_nil_r.
  - rewrite IH, surviving_cons.
    destruct (ge_threshold (span_conf s)); simpl; [|reflexivity].
    destruct (Py.truthy (clean (span_text s))); simpl; [|reflexivity].
    now rewrite <- app_assoc.
Qed.

Lemma filtered_texts_surviving raw : Main.filtered_texts raw = surviving raw.
Proof. unfold Main.filtered_texts; now rewrite loop_surviving. Qed.

Lemma surviving_truthy raw : Forall (fun t => Py.truthy t = true) (surviving raw).
Proof.
  apply Forall_forall; intros t Ht.
  now apply filter_In in Ht as [_ Ht].
Qed.

Lemma surviving_reading_chars raw :
  Forall (fun t => forallb reading_char t = true) (surviving raw).
Proof.
  unfold surviving, App.texts.
  apply Forall_forall; intros t Ht.
  apply filter_In in Ht as [Ht _].
  apply in_map_iff in Ht as [s [<- _]].
  apply Chars.clean_reading_chars.
Qed.

(** The survivors of ASCII spans are ASCII tokens. *)
Lemma surviving_tokens raw :
  ascii_spans raw = true -> Forall (fun t => token t = true) (surviving raw).
Proof.
  intros Hascii; unfold surviving, App.texts.
  apply Forall_forall; intros t Ht.
  apply filter_In in Ht as [Ht Htr].
  apply in_map_iff in Ht as [s [<- Hs]].
  apply filter_In in Hs as [Hs _].
  unfold ascii_spans in Hascii; rewrite forallb_forall in Hascii.
  unfold token; now rewrite Htr, (Chars.clean_ascii_tokens _ (Hascii s Hs)).
Qed.

Lemma join_reading_chars raw :
  forallb reading_char (Py.join " " (surviving raw)) = true.
Proof. apply join_forallb; [reflexivity | apply surviving_reading_chars]. Qed.

(** No joined reading is a string with an ASCII lower-case letter or
    ASCII punctuation in it: the sentinels, for instance. *)
Lemma join_not_sentinel raw s :
  forallb reading_char s = false -> Py.join " " (surviving raw) <> s.
Proof.
  intros Hs Heq.
  pose proof (join_reading_chars raw) as Hch.
  rewrite Heq in Hch; congruence.
Qed.

(** The service's reading, by cases on what survives. *)
Lemma app_plate_text_cases raw :
  App.plate_text raw =
  match surviving raw with
  | [] => "No text detected"
  | _ :: _ => Py.join " " (surviving raw)
  end.
Proof.
  unfold App.plate_text; fold (surviving raw).
  pose proof (surviving_truthy raw) as Htr.
  destruct (surviving raw) as [|x r] eqn:Hs; [reflexivity|].
  unfold Py.or_; now rewrite join_truthy.
Qed.

(** The page's reading, by cases on what the recogniser returned and on
    what survives. *)
Lemma main_plate_text_cases raw :
  Main.plate_text raw =
  match surviving raw with
  | [] => match raw with
          | [] => Main.RECOGNITION_EMPTY
          | _ :: _ => Main.RECOGNITION_FILTERED
          end
  | _ :: _ => Py.join " " (surviving raw)
  end.
Proof.
  unfold Main.plate_text; rewrite filtered_texts_surviving.
  destruct raw as [|s raw]; [reflexivity|].
  now destruct (surviving (s :: raw)).
Qed.

End Database.

(** On ASCII spans every character database gives the readings that the
    excerpt gives. *)
Lemma ascii_surviving {U : Py.Unicode} raw :
  ascii_spans raw = true ->
  surviving raw = surviving (U := Demo.unicode) raw.
Proof.
  unfold ascii_spans; induction raw as [|s raw IH]; [reflexivity|].
  cbn [forallb]; intros H; apply andb_true_iff in H as [Hs Hr].
  rewrite (surviving_cons (U := U)), (surviving_cons (U := Demo.unicode)), (IH Hr).
  now rewrite (Chars.clean_ascii (U := U) _ Hs),
    (Chars.clean_ascii (U := Demo.unicode) _ Hs).
Qed.

Lemma ascii_readings {U : Py.Unicode} raw :
  ascii_spans raw = true ->
  App.plate_text raw = App.plate_text (U := Demo.unicode) raw
  /\ Main.plate_text raw = Main.plate_text (U := Demo.unicode) raw.
Proof.
  intros H.
  rewrite (app_plate_text_cases (U := U)), (main_plate_text_cases (U := U)),
    (app_plate_text_cases (U := Demo.unicode)),
    (main_plate_text_cases (U := Demo.unicode)), (ascii_surviving raw H).
  split; reflexivity.
Qed.

(** A reading of ASCII spans, computed with the excerpt. *)
Ltac by_excerpt :=
  match goal with
  | |- App.plate_text ?raw = _ =>
      rewrite (proj1 (ascii_readings raw eq_refl)); reflexivity
  | |- Main.plate_text ?raw = _ =>
      rewrite (proj2 (ascii_readings raw eq_refl)); reflexivity
  end.

End Filter.

Section TokenFilter.

Context {U : Py.Unicode}.

(** C1. The token filter is a function of the recogniser's spans alone: in
    both variants the reading is obtained by keeping exactly the spans
    whose confidence compares as at least 0.2, reducing each kept text to
    its alphanumeric characters in upper case, dropping the texts that
    became empty, joining the rest with one space in input order, and
    returning the variant's sentinel when nothing is left. One span
    ["ABC 123"] at 0.9 reads ["ABC123"]; of the four spans ["ab-1"] at 0.9,
    ["ZZ9"] at 0.1, ["--"] at 0.9 and ["c 2"] at 0.2 the second and the
    third drop out and the reading is ["AB1 C2"]; two kept spans read in
    the order they came in. *)
Theorem token_filter_contract (raw : list span) :
  App.plate_text raw = Spec.plate_reading "No text detected" raw
  /\ Main.plate_text raw =
     Spec.plate_reading
       (match raw with
        | [] => Main.RECOGNITION_EMPTY
        | _ :: _ => Main.RECOGNITION_FILTERED
        end) raw
  /\ App.plate_text [sp "ABC 123" 0.9] = "ABC123"
  /\ Main.plate_text [sp "ABC 123" 0.9] = "ABC123"
  /\ App.plate_text [sp "ab-1" 0.9; sp "ZZ9" 0.1; sp "--" 0.9; sp "c 2" 0.2]
     = "AB1 C2"
  /\ Main.plate_text [sp "ab-1" 0.9; sp "ZZ9" 0.1; sp "--" 0.9; sp "c 2" 0.2]
     = "AB1 C2"
  /\ App.plate_text [sp "b7" 0.5; sp "a" 0.5] = "B7 A"
  /\ Main.plate_text [sp "b7" 0.5; sp "a" 0.5] = "B7 A"
  /\ App.plate_text [sp "ZZ9" 0.1; sp "--" 0.9] = "No text detected"
  /\ Main.plate_text [sp "ZZ9" 0.1; sp "--" 0.9] = Main.RECOGNITION_FILTERED.
Proof.
  split; [|split].
  - rewrite Filter.app_plate_text_cases.
    unfold Spec.plate_reading; rewrite <- Filter.surviving_plate_tokens.
    destruct (Spec.surviving raw) as [|x r] eqn:Hs; [reflexivity|].
    apply Filter.join_spaced.
  - rewrite Filter.main_plate_text_cases.
    unfold Spec.plate_reading; rewrite <- Filter.surviving_plate_tokens.
    destruct (Spec.surviving raw) as [|x r] eqn:Hs; [reflexivity|].
    apply Filter.join_spaced.
  - repeat split; Filter.by_excerpt.
Qed.

End TokenFilter.

(** Two spans ["XY12"] at 0.5 and ["Z9"] at 0.1: only the first survives. *)
Example two_spans_one_below_threshold :
  App.plate_text [sp "XY12" 0.5; sp "Z9" 0.1] = "XY12"
  /\ Main.plate_text [sp "XY12" 0.5; sp "Z9" 0.1] = "XY12".
Proof. split; reflexivity. Qed.

Module Reading.
Import Spec.

Section Database.

Context {U : Py.Unicode}.

Lemma join_from_spans raw :
  Forall (from_spans raw) (Py.join " " (surviving raw)).
Proof.
  apply Forall_forall; intros d Hd.
  destruct (Filter.join_origin _ _ Hd) as [->|(t & Ht & Hdt)]; [now left|].
  unfold surviving, App.texts in Ht.
  apply filter_In in Ht as [Ht _].
  apply in_map_iff in Ht as (s & <- & Hs).
  apply filter_In in Hs as [Hs _].
  destruct (Chars.clean_origin _ _ Hdt) as (c & Hc & Ha & Hu).
  right; exists s, c; auto.
Qed.

Lemma token_or_space_alnum d :
  token_or_space d = true -> alnum_or_space d = true.
Proof.
  unfold token_or_space, alnum_or_space; intros H.
  apply orb_true_iff in H as [H|H]; [|now rewrite H, orb_true_r].
  now rewrite (Py.isalnum_ascii d (Chars.token_char_ascii d H)),
    (Chars.token_char_alnum d H).
Qed.

Lemma token_token_or_space t :
  token t = true -> forallb token_or_space t = true.
Proof.
  unfold token; intros H; apply andb_true_iff in H as [_ H].
  rewrite forallb_forall in *; intros d Hd.
  unfold token_or_space; now rewrite (H d Hd).
Qed.

Lemma join_ascii_chars raw :
  ascii_spans raw = true ->
  forallb token_or_space (Py.join " " (surviving raw)) = true.
Proof.
  intros H; apply Filter.join_forallb; [reflexivity|].
  pose proof (Filter.surviving_tokens raw H) as Htok.
  rewrite Forall_forall in *; intros t Ht.
  apply token_token_or_space; auto.
Qed.

Lemma forallb_impl (p q : Py.char -> bool) s :
  (forall c, p c = true -> q c = true) ->
  forallb p s = true -> forallb q s = true.
Proof. rewrite !forallb_forall; auto. Qed.

End Database.

End Reading.

(** C4, as stated, fails: the character U+01F0 (a small j with a caron) is
    alphanumeric, and its upper case is a capital J followed by the
    combining caron U+030C, which is not; so the reading of the one span
    ["ǰ"] is no sentinel and holds a character that is neither
    alphanumeric nor a space. *)
Lemma reading_with_combining_mark :
  Py.isalnum 496%N = true
  /\ Py.upper_char 496%N = [74; 780]%N
  /\ Py.isalnum 780%N = false
  /\ App.plate_text [sp "ǰ" 0.9] = [74; 780]%N
  /\ Main.plate_text [sp "ǰ" 0.9] = [74; 780]%N
  /\ forallb Spec.alnum_or_space (App.plate_text [sp "ǰ" 0.9]) = false
  /\ ~ Spec.alnum_and_spaces App.plate_text ["No text detected"]
  /\ ~ Spec.alnum_and_spaces Main.plate_text
         [Main.RECOGNITION_EMPTY; Main.RECOGNITION_FILTERED].
Proof.
  repeat split; try reflexivity.
  - intros H; destruct (H [sp "ǰ" 0.9]) as [_ [[Hs|[]]|Hc]];
      [discriminate Hs | discriminate Hc].
  - intros H; destruct (H [sp "ǰ" 0.9]) as [_ [[Hs|[Hs|[]]]|Hc]];
      [discriminate Hs | discriminate Hs | discriminate Hc].
Qed.

Section ReadingShape.

Context {U : Py.Unicode}.

(** C4, amended. For every sequence of spans the reading is never the
    empty string: it is the sentinel of the variant, or a non-empty string
    each character of which is a joining space or stands in the upper case
    of an alphanumeric character of a span; its ASCII characters are
    digits, upper-case letters and spaces. When the recognised texts are
    ASCII, it is the sentinel or consists of digits, upper-case letters and
    spaces only, which are alphanumeric characters and spaces. *)
Theorem plate_reading_never_empty (raw : list span) :
  (App.plate_text raw <> ""
   /\ (App.plate_text raw = "No text detected"
       \/ (Py.truthy (App.plate_text raw) = true
           /\ Forall (Spec.from_spans raw) (App.plate_text raw)
           /\ forallb Spec.reading_char (App.plate_text raw) = true)))
  /\ (Main.plate_text raw <> ""
      /\ (Main.plate_text raw = Main.RECOGNITION_EMPTY
          \/ Main.plate_text raw = Main.RECOGNITION_FILTERED
          \/ (Py.truthy (Main.plate_text raw) = true
              /\ Forall (Spec.from_spans raw) (Main.plate_text raw)
              /\ forallb Spec.reading_char (Main.plate_text raw) = true)))
  /\ (Spec.ascii_spans raw = true ->
      (App.plate_text raw = "No text detected"
       \/ (forallb Spec.token_or_space (App.plate_text raw) = true
           /\ forallb Spec.alnum_or_space (App.plate_text raw) = true))
      /\ (Main.plate_text raw = Main.RECOGNITION_EMPTY
          \/ Main.plate_text raw = Main.RECOGNITION_FILTERED
          \/ (forallb Spec.token_or_space (Main.plate_text raw) = true
              /\ forallb Spec.alnum_or_space (Main.plate_text raw) = true))).
Proof.
  rewrite Filter.app_plate_text_cases, Filter.main_plate_text_cases.
  pose proof (Filter.surviving_truthy raw) as Htr.
  pose proof (Reading.join_from_spans raw) as Hfrom.
  pose proof (Filter.join_reading_chars raw) as Hch.
  pose proof (Reading.join_ascii_chars raw) as Hascii.
  destruct (Spec.surviving raw) as [|x r] eqn:Hs.
  - split; [|split].
    + split; [discriminate | now left].
    + split; [destruct raw; discriminate|].
      destruct raw; [now left | right; now left].
    + intros _; split; [now left|].
      destruct raw; [now left | right; now left].
  - assert (Hjoin : Py.truthy (Py.join " " (x :: r)) = true)
      by (apply Filter.join_truthy; [discriminate | exact Htr]).
    assert (Hne : Py.join " " (x :: r) <> "")
      by (intros H; rewrite H in Hjoin; discriminate).
    split; [|split].
    + split; [exact Hne | right; auto].
    + split; [exact Hne | right; right; auto].
    + intros Ha; specialize (Hascii Ha).
      pose proof (Reading.forallb_impl _ _ _ Reading.token_or_space_alnum Hascii).
      split; [right | right; right]; auto.
Qed.

End ReadingShape.

(** ** Feeding a reading back into the filter *)

Module Refilter.
Import Spec.

Section Database.

Context {U : Py.Unicode}.






End Database.

End Refilter.


Section Refiltering.

Context {U : Py.Unicode}.


End Refiltering.


(** ** The confidence threshold *)

Module Threshold.



Section Database.

Context {U : Py.Unicode}.




End Database.

End Threshold.

Section Boundary.

Context {U : Py.Unicode}.


End Boundary.


(** ** The region extractor *)

Module Region.

Lemma adjust_range n i : (0 <= n -> 0 <= Np.adjust n i <= n)%Z.
Proof. unfold Np.adjust; destruct (i <? 0)%Z; lia. Qed.

Lemma slice_len_range n start stop :
  (0 <= n -> 0 <= Np.slice_len n start stop <= n)%Z.
Proof.
  intros Hn; unfold Np.slice_len, Np.slice.
  pose proof (adjust_range n start Hn); pose proof (adjust_range n stop Hn).
  lia.
Qed.

Lemma shape_nonneg img : (0 <= fst (shape img) /\ 0 <= snd (shape img))%Z.
Proof.
  induction img as [tag h w|src IH r0 r1 c0 c1|src IH p q col th]; simpl.
  - lia.
  - destruct IH as [Hh Hw].
    pose proof (slice_len_range _ r0 r1 Hh); pose proof (slice_len_range _ c0 c1 Hw).
    lia.
  - exact IH.
Qed.

Lemma wrap64_small z : (- 2 ^ 63 <= z < 2 ^ 63)%Z -> Np.wrap64 z = z.
Proof.
  intros H; unfold Np.wrap64.
  rewrite Z.mod_small by (change (2 ^ 64)%Z with (2 ^ 63 + 2 ^ 63)%Z; lia).
  lia.
Qed.

(** A bound that is already within [0, n] is read as it stands. *)
Lemma adjust_plain n i : (0 <= i <= n)%Z -> Np.adjust n i = i.
Proof.
  intros H; unfold Np.adjust.
  destruct (i <? 0)%Z eqn:Hi; [apply Z.ltb_lt in Hi; lia | lia].
Qed.

(** A start bound beyond the axis is read as its end. *)
Lemma adjust_beyond n i : (0 <= n <= i)%Z -> Np.adjust n i = n.
Proof.
  intros H; unfold Np.adjust.
  destruct (i <? 0)%Z eqn:Hi; [apply Z.ltb_lt in Hi; lia | lia].
Qed.

(** A negative bound counts from the end. *)
Lemma adjust_negative n i : (- n <= i < 0)%Z -> Np.adjust n i = (n + i)%Z.
Proof.
  intros H; unfold Np.adjust.
  destruct (i <? 0)%Z eqn:Hi; [lia | apply Z.ltb_ge in Hi; lia].
Qed.

(** The padded rectangle when no coordinate overflows. *)
Lemma padded_rect_plain pad image_np x1 y1 x2 y2 :
  Spec.in_range x1 -> Spec.in_range y1 -> Spec.in_range x2 -> Spec.in_range y2 ->
  Spec.in_range pad ->
  padded_rect pad image_np (x1, y1, x2, y2)
  = (Z.max 0 (y1 - pad), Z.min (fst (shape image_np)) (y2 + pad),
     Z.max 0 (x1 - pad), Z.min (snd (shape image_np)) (x2 + pad)).
Proof.
  unfold Spec.in_range; intros Hx1 Hy1 Hx2 Hy2 Hp; unfold padded_rect.
  assert (H62 : (2 ^ 63 = 2 ^ 62 + 2 ^ 62)%Z) by reflexivity.
  rewrite !wrap64_small by lia; reflexivity.
Qed.


(** An array without area is a slice without rows or without columns. *)
Lemma size_zero_iff img :
  size img = 0%Z <-> fst (shape img) = 0%Z \/ snd (shape img) = 0%Z.
Proof. unfold size; destruct (shape_nonneg img); nia. Qed.

(** A rectangle without area, stops not negative, gives an empty crop. *)
Lemma zero_area_empty pad image_np b :
  Spec.zero_area (padded_rect pad image_np b) ->
  size (crop_of pad image_np b) = 0%Z.
Proof.
  unfold crop_of.
  destruct (padded_rect pad image_np b) as [[[y1p y2p] x1p] x2p] eqn:Hrect.
  assert (Hy1 : (0 <= y1p)%Z /\ (y2p <= fst (shape image_np))%Z
                /\ (0 <= x1p)%Z /\ (x2p <= snd (shape image_np))%Z).
  { destruct b as [[[x1 y1] x2] y2]; unfold padded_rect in Hrect.
    injection Hrect as <- <- <- <-; lia. }
  destruct Hy1 as (Hy1 & Hy2 & Hx1 & Hx2).
  intros (Hys & Hxs & Hzero).
  destruct (shape_nonneg image_np) as [Hh Hw].
  apply size_zero_iff; cbn [shape fst snd].
  unfold Np.slice_len, Np.slice.
  rewrite (adjust_plain _ y2p), (adjust_plain _ x2p) by lia.
  destruct Hzero as [Hz|Hz]; [left | right].
  - destruct (Z_le_gt_dec y1p (fst (shape image_np))).
    + rewrite adjust_plain by lia; lia.
    + rewrite adjust_beyond by lia; lia.
  - destruct (Z_le_gt_dec x1p (snd (shape image_np))).
    + rewrite adjust_plain by lia; lia.
    + rewrite adjust_beyond by lia; lia.
Qed.

(** A crop that holds a pixel is cut from an image that holds one. *)
Lemma crop_of_pixels pad image_np b :
  size (crop_of pad image_np b) <> 0%Z -> size image_np <> 0%Z.
Proof.
  unfold crop_of.
  destruct (padded_rect pad image_np b) as [[[y1p y2p] x1p] x2p].
  rewrite !size_zero_iff; cbn [shape fst snd].
  destruct (shape_nonneg image_np) as [Hh Hw].
  pose proof (slice_len_range _ y1p y2p Hh) as Hr.
  pose proof (slice_len_range _ x1p x2p Hw) as Hc.
  intros H Hz; apply H; destruct Hz as [Hz|Hz]; rewrite Hz in *; lia.
Qed.

End Region.



(** A plate at the top-left corner of a 480 x 640 image, padded by 4: the
    rectangle is cut at the edges and is not empty. *)
Example crop_at_corner :
  padded_rect 4 (Pixels 0 480 640) (0, 0, 120, 40)%Z = (0, 44, 0, 124)%Z
  /\ shape (crop_of 4 (Pixels 0 480 640) (0, 0, 120, 40)%Z) = (44, 124)%Z.
Proof. split; reflexivity. Qed.

(** ** Diagnostic states of the recogniser *)


Section Diagnostics.

Context {U : Py.Unicode}.


End Diagnostics.

(** ** Event logs *)

Module Log.
Import Spec.

Lemma no_readtext_iff l : no_readtext l <-> existsb is_readtext l = false.
Proof.
  unfold no_readtext; split.
  - intros H; destruct (existsb is_readtext l) eqn:Hex; [|reflexivity].
    apply existsb_exists in Hex as [e [Hin He]].
    destruct e; try discriminate; now apply H in Hin.
  - intros Hex img Hin.
    assert (existsb is_readtext l = true)
      by (apply existsb_exists; now exists (EvReadtext img)).
    congruence.
Qed.

Lemma no_slip_iff l : no_slip l <-> existsb is_slip l = false.
Proof.
  unfold no_slip; split.
  - intros H; destruct (existsb is_slip l) eqn:Hex; [|reflexivity].
    apply existsb_exists in Hex as [e [Hin He]].
    destruct e; try discriminate; now apply H in Hin.
  - intros Hex path c Hin.
    assert (existsb is_slip l = true)
      by (apply existsb_exists; now exists (EvSlip path c)).
    congruence.
Qed.

Lemma has_slip l : existsb is_slip l = true -> exists path c, In (EvSlip path c) l.
Proof.
  intros Hex; apply existsb_exists in Hex as [e [Hin He]].
  destruct e; try discriminate; eauto.
Qed.

Lemma existsb_filter (p : event -> bool) l :
  existsb p l = false <-> filter p l = [].
Proof.
  induction l as [|e l IH]; [tauto|].
  cbn [existsb filter]; destruct (p e); cbn [orb]; [|exact IH].
  split; discriminate.
Qed.

End Log.

(** ** The two variants, run by run *)

Module Service.
Import Spec.

Section Database.

Context {U : Py.Unicode}.

(** [process] on a decodable upload, by what the collaborators do. *)
Lemma process_decoded E yolo reader name file_bytes image_np :
  Py.eqb name "" = false ->
  imdecode E file_bytes = Returns (Some image_np) ->
  App.process E yolo reader
    {| App.files_image :=
         Some {| App.filename := name; App.content := file_bytes |} |}
  = match yolo image_np with
    | Raises e => ([EvDetect image_np], Raises e)
    | Returns [] =>
        ([EvDetect image_np],
         Returns ([("error", "No number plate detected in image")], 200%Z))
    | Returns (b :: _) =>
        let crop := crop_of 4 image_np b in
        if (size crop =? 0)%Z then
          (EvDetect image_np :: log (finish E image_np b "Crop Error" crop),
           result (finish E image_np b "Crop Error" crop))
        else
          match reader crop with
          | Raises e => ([EvDetect image_np; EvReadtext crop], Raises e)
          | Returns raw =>
              (EvDetect image_np :: EvReadtext crop
               :: log (finish E image_np b (App.plate_text raw) crop),
               result (finish E image_np b (App.plate_text raw) crop))
          end
    end.
Proof.
  intros Hname Hdecode.
  unfold App.process, App.detect_plate, App.extract_text, App.generate_slip,
    bind, call, lift, ret.
  cbv beta iota zeta.
  cbn [App.files_image App.filename App.content].
  rewrite Hname, Hdecode.
  cbv beta iota zeta.
  destruct (yolo image_np) as [[|[[[x1 y1] x2] y2] rest]|e];
    cbv beta iota zeta; try reflexivity.
  unfold finish, log, result.
  change (App.SLIPS_DIR ++ "/annotated_latest.jpg") with anno_path.
  change (App.SLIPS_DIR ++ "/crop_latest.jpg") with crop_path.
  destruct (size (crop_of 4 image_np (x1, y1, x2, y2)) =? 0)%Z;
    cbv beta iota zeta.
  - change (App.SLIPS_DIR ++ "/" ++ "slip_" ++ Py.replace_space "Crop Error" ++
            "_" ++ Time.strftime "%Y%m%d_%H%M%S" (now E) ++ ".png")
      with ("static/slips/" ++ Spec.slip_file_name "Crop Error" (now E)).
    destruct (imwrite E anno_path _); [|reflexivity].
    destruct (imwrite E crop_path _); [|reflexivity].
    destruct (save E _ _); reflexivity.
  - destruct (reader (crop_of 4 image_np (x1, y1, x2, y2))) as [raw|e];
      cbv beta iota zeta; [|reflexivity].
    change (App.SLIPS_DIR ++ "/" ++ "slip_" ++
            Py.replace_space (App.plate_text raw) ++
            "_" ++ Time.strftime "%Y%m%d_%H%M%S" (now E) ++ ".png")
      with ("static/slips/" ++ Spec.slip_file_name (App.plate_text raw) (now E)).
    destruct (imwrite E anno_path _); [|reflexivity].
    destruct (imwrite E crop_path _); [|reflexivity].
    destruct (save E _ _); reflexivity.
Qed.

(** [process] before the detector: the three refusals and the decoder's
    exception. *)
Lemma process_undecoded E yolo reader name file_bytes :
  Py.eqb name "" = false ->
  App.process E yolo reader
    {| App.files_image :=
         Some {| App.filename := name; App.content := file_bytes |} |}
  = match imdecode E file_bytes with
    | Raises e => ([], Raises e)
    | Returns None => ([], Returns ([("error", "Could not decode image")], 400%Z))
    | Returns (Some image_np) =>
        App.process E yolo reader
          {| App.files_image :=
               Some {| App.filename := name; App.content := file_bytes |} |}
    end.
Proof.
  intros Hname.
  destruct (imdecode E file_bytes) as [[image_np|]|e] eqn:Hdecode; [reflexivity| |];
    unfold App.process, bind, lift, ret;
    cbn [App.files_image App.filename App.content];
    now rewrite Hname, Hdecode.
Qed.

(** Facts about [finish] that hold whatever the writes do. *)
Lemma finish_facts E image_np b plate crop :
  let r := finish E image_np b plate crop in
  count is_detect (log r) = 0%nat
  /\ count is_readtext (log r) = 0%nat
  /\ (count is_imwrite (log r) <= 2)%nat
  /\ (count is_slip (log r) <= 1)%nat
  /\ (count is_slip (log r) = 1%nat -> count is_imwrite (log r) = 2%nat)
  /\ (forall body st,
        result r = Returns (body, st) ->
        st = 200%Z /\ body = success_body E plate
        /\ count is_slip (log r) = 1%nat
        /\ slip_shows (log r) plate).
Proof.
  destruct b as [[[x1 y1] x2] y2]; unfold finish.
  destruct (imwrite E anno_path _);
    [destruct (imwrite E crop_path _); [destruct (save E _ _) eqn:Hs|]|];
    cbv zeta; unfold log, result, count; cbn [fst snd];
    (split; [reflexivity|]); (split; [reflexivity|]);
    (split; [cbn; lia|]); (split; [cbn; lia|]);
    (split; [cbn; intros; lia|]);
    intros body st H; try discriminate H.
  injection H as <- <-; repeat split.
  do 2 eexists; split; [right; right; left; reflexivity|].
  unfold App.slip_canvas, App.fonts.
  destruct (font_loads E App.FONT_BOLD && font_loads E App.FONT_REGULAR);
    simpl; tauto.
Qed.

End Database.

End Service.

Module Interactive.
Import Spec.

Section Database.

Context {U : Py.Unicode}.

(** [detect_and_ocr] with both models loaded, by what they do. *)
Lemma detect_loaded image_np yolo rd :
  Main.detect_and_ocr image_np (Some yolo) (Some rd)
  = match yolo image_np with
    | Raises e =>
        ([EvDetect image_np; processing_error e],
         Returns (None, "Processing Error", None, None))
    | Returns [] =>
        ([EvDetect image_np], Returns (None, "No plate detected", None, None))
    | Returns (b :: _) =>
        let crop := crop_of 2 image_np b in
        if (size crop =? 0)%Z then
          ([EvDetect image_np],
           Returns (Some b, "Crop Error", Some crop, Some crop))
        else
          match rd crop with
          | Returns raw =>
              ([EvDetect image_np; EvReadtext crop],
               Returns (Some b, Main.plate_text raw, Some crop, Some crop))
          | Raises e =>
              ([EvDetect image_np; EvReadtext crop; processing_error e],
               Returns (Some b, "Processing Error", Some crop, Some crop))
          end
    end.
Proof.
  unfold Main.detect_and_ocr, Main.on_exception, attempt, call, bind, emit, ret,
    processing_error.
  cbv beta iota zeta.
  destruct (yolo image_np) as [[|[[[x1 y1] x2] y2] rest]|e];
    cbv beta iota zeta; try reflexivity.
  destruct (size (crop_of 2 image_np (x1, y1, x2, y2)) =? 0)%Z;
    [reflexivity|].
  destruct (rd (crop_of 2 image_np (x1, y1, x2, y2))); reflexivity.
Qed.

(** The results column once the upload is decoded and [detect_and_ocr]
    has returned. *)
Lemma results_after_detection E file_bytes image_np yolo rd l d :
  imdecode E file_bytes = Returns (Some image_np) ->
  Main.detect_and_ocr image_np (Some yolo) (Some rd) = (l, Returns d) ->
  Main.results_column E (Some file_bytes) (Some yolo) (Some rd)
  = (l ++ after_detection E image_np d, Returns tt).
Proof.
  intros Hdecode Hd.
  unfold Main.results_column; cbn [negb]; rewrite Hdecode.
  unfold lift at 1, bind at 1; cbv beta iota zeta; cbn [app].
  rewrite Hd.
  destruct d as [[[b plate] c] p].
  unfold Main.create_parking_slip, Main.st_image, Main.on_unexpected,
    after_detection, verdict, unexpected, download_name,
    attempt, call, bind, emit, ret.
  cbv beta iota zeta.
  destruct b as [[[[x1 y1] x2] y2]|];
    [destruct (Main.shown E (Boxed image_np (x1, y1) (x2, y2) (0, 255, 0)%Z 3));
     [destruct c as [c|]; [destruct (Main.shown E c)|]|]|];
    cbv beta iota zeta;
    try (destruct (Main.is_success plate), (snd (Main.load_fonts E)),
           (save E Main.SLIP_FILENAME (Main.slip_canvas E plate (now E)));
         cbv beta iota zeta;
         try destruct (path_exists E Main.SLIP_FILENAME));
    cbv beta iota zeta; repeat rewrite <- app_assoc; cbn [app];
    rewrite ?app_nil_r; reflexivity.
Qed.

(** The results column when the upload cannot be decoded. *)
Lemma results_undecoded E file_bytes yolo rd :
  Main.results_column E (Some file_bytes) (Some yolo) (Some rd)
  = match imdecode E file_bytes with
    | Raises e => ([unexpected e], Returns tt)
    | Returns None =>
        ([EvSt StError "❌ Failed to decode image. Please try another file."],
         Returns tt)
    | Returns (Some image_np) =>
        Main.results_column E (Some file_bytes) (Some yolo) (Some rd)
    end.
Proof.
  destruct (imdecode E file_bytes) as [[image_np|]|e] eqn:Hdecode; [reflexivity| |];
    unfold Main.results_column; cbn [negb]; rewrite Hdecode; reflexivity.
Qed.

(** [detect_and_ocr] always returns, and it only ever runs the two models
    and shows its own error message. *)
Lemma detect_quiet image_np ym er :
  exists l d,
    Main.detect_and_ocr image_np ym er = (l, Returns d)
    /\ filter is_slip l = [] /\ filter is_download l = []
    /\ filter is_imwrite l = [].
Proof.
  destruct er as [rd|]; [|do 2 eexists; split; [reflexivity|]; auto].
  destruct ym as [yolo|].
  - rewrite detect_loaded.
    destruct (yolo image_np) as [[|b rest]|e]; cbv zeta;
      [ | destruct (size (crop_of 2 image_np b) =? 0)%Z;
          [|destruct (rd (crop_of 2 image_np b))] | ];
      do 2 eexists; (split; [reflexivity|]); auto.
  - do 2 eexists; split; [reflexivity|]; auto.
Qed.

End Database.

End Interactive.

(** ** No detection *)

Section NoDetection.

Context {U : Py.Unicode}.

(** C2. When the detector yields no box for the decoded image, the service
    answers status 200 with the object [{"error": "No number plate detected
    in image"}], the page gets [(None, "No plate detected", None, None)] and
    shows its detection failure, and in both the only collaborator called is
    the detector: the recogniser is never run. *)
Theorem no_detection_short_circuits
    (E : world) (name : Py.str) (file_bytes : string) (image_np : image)
    (yolo_model : image -> outcome (list box))
    (reader : image -> outcome (list span))
    (Hname : Py.eqb name "" = false)
    (Hdecode : imdecode E file_bytes = Returns (Some image_np))
    (Hnone : yolo_model image_np = Returns []) :
  let req := {| App.files_image :=
                  Some {| App.filename := name; App.content := file_bytes |} |} in
  App.process E yolo_model reader req
    = ([EvDetect image_np],
       Returns ([("error", "No number plate detected in image")], 200%Z))
  /\ no_readtext (log (App.process E yolo_model reader req))
  /\ Main.detect_and_ocr image_np (Some yolo_model) (Some reader)
     = ([EvDetect image_np], Returns (None, "No plate detected", None, None))
  /\ Main.results_column E (Some file_bytes) (Some yolo_model) (Some reader)
     = ([EvDetect image_np;
         EvSt StError "❌ **Detection Failed:** No number plate could be detected."],
        Returns tt)
  /\ no_readtext
       (log (Main.results_column E (Some file_bytes) (Some yolo_model) (Some reader))).
Proof.
  intros req.
  assert (Hp : App.process E yolo_model reader req
               = ([EvDetect image_np],
                  Returns ([("error", "No number plate detected in image")], 200%Z)))
    by (unfold req; rewrite (Service.process_decoded _ _ _ _ _ _ Hname Hdecode);
        now rewrite Hnone).
  assert (Hd : Main.detect_and_ocr image_np (Some yolo_model) (Some reader)
               = ([EvDetect image_np],
                  Returns (None, "No plate detected", None, None)))
    by (rewrite Interactive.detect_loaded; now rewrite Hnone).
  assert (Hr : Main.results_column E (Some file_bytes) (Some yolo_model) (Some reader)
               = ([EvDetect image_np;
                   EvSt StError
                     "❌ **Detection Failed:** No number plate could be detected."],
                  Returns tt))
    by (rewrite (Interactive.results_after_detection _ _ _ _ _ _ _ Hdecode Hd);
        reflexivity).
  rewrite Hp, Hr; repeat split; try exact Hd.
  - apply Log.no_readtext_iff; reflexivity.
  - apply Log.no_readtext_iff; reflexivity.
Qed.

End NoDetection.

(** The sample installation with a detector that finds nothing. *)
Lemma no_detection_short_circuits_witness :
  App.process Demo.installation Demo.yolo_none Demo.ocr_abc Demo.request
    = ([EvDetect Demo.img],
       Returns ([("error", "No number plate detected in image")], 200%Z))
  /\ no_readtext
       (log (Main.results_column Demo.installation (Some Demo.jpeg)
               (Some Demo.yolo_none) (Some Demo.ocr_abc))).
Proof.
  destruct (no_detection_short_circuits Demo.installation "car.jpg" Demo.jpeg Demo.img
              Demo.yolo_none Demo.ocr_abc)
    as (H1 & _ & _ & _ & H5).
  - reflexivity.
  - reflexivity.
  - reflexivity.
  - split; [exact H1 | exact H5].
Defined.

(** ** The receipt *)

Module Slip.

Section Database.

Context {U : Py.Unicode}.

(** What the service draws, in order: title, four label/value rows, footer. *)
Lemma app_drawn_texts E plate t :
  drawn_texts (canvas_ops (App.slip_canvas E plate t)) =
  [ "PARKING RECEIPT";
    "Vehicle Plate"; plate;
    "Entry Time"; Time.strftime "%d %b %Y  %H:%M:%S" t;
    "Parking Fee"; "Rs. 30.00";
    "Status"; "ACTIVE";
    App.footer ].
Proof.
  unfold App.slip_canvas, App.fonts.
  destruct (font_loads E App.FONT_BOLD && font_loads E App.FONT_REGULAR);
    reflexivity.
Qed.

Lemma app_canvas_size E plate t :
  canvas_size (App.slip_canvas E plate t) = (600, 380)%Z.
Proof.
  unfold App.slip_canvas, App.fonts.
  destruct (font_loads E App.FONT_BOLD && font_loads E App.FONT_REGULAR);
    reflexivity.
Qed.

Lemma app_divider E plate t :
  In (Line (40, 75)%Z (560, 75)%Z "#4C1D95" 1)
     (canvas_ops (App.slip_canvas E plate t)).
Proof.
  unfold App.slip_canvas, App.fonts.
  destruct (font_loads E App.FONT_BOLD && font_loads E App.FONT_REGULAR);
    simpl; auto.
Qed.

(** What the page draws, in order: title, three icon/label/value rows, the
    QR placeholder's captions, footer. *)
Lemma main_drawn_texts E plate t :
  drawn_texts (canvas_ops (Main.slip_canvas E plate t)) =
  [ "PARKING RECEIPT";
    "🚗"; "Vehicle Plate"; Main.display_plate_text plate;
    "📅"; "Entry Time"; Time.strftime "%d %b %Y, %H:%M:%S" t;
    "💰"; "Parking Fee"; "Rs. 30.00";
    "SCAN"; "Scan for details or payment.";
    "Powered by Downlabs" ].
Proof.
  unfold Main.slip_canvas.
  destruct (textbbox E (Main.font_title (fst (Main.load_fonts E))) "PARKING RECEIPT")
    as [[[hx0 hy0] hx2] hy3].
  destruct (textbbox E (Main.font_small (fst (Main.load_fonts E))) "Powered by Downlabs")
    as [[[px0 py0] px2] py3].
  reflexivity.
Qed.

Lemma main_canvas_size E plate t :
  canvas_size (Main.slip_canvas E plate t) = (600, 400)%Z.
Proof.
  unfold Main.slip_canvas.
  destruct (textbbox E (Main.font_title (fst (Main.load_fonts E))) "PARKING RECEIPT")
    as [[[hx0 hy0] hx2] hy3].
  destruct (textbbox E (Main.font_small (fst (Main.load_fonts E))) "Powered by Downlabs")
    as [[[px0 py0] px2] py3].
  reflexivity.
Qed.

Lemma main_divider E plate t :
  exists y, In (Line (35, y)%Z (565, y)%Z Main.accent_color 1)
               (canvas_ops (Main.slip_canvas E plate t)).
Proof.
  unfold Main.slip_canvas.
  destruct (textbbox E (Main.font_title (fst (Main.load_fonts E))) "PARKING RECEIPT")
    as [[[hx0 hy0] hx2] hy3].
  destruct (textbbox E (Main.font_small (fst (Main.load_fonts E))) "Powered by Downlabs")
    as [[[px0 py0] px2] py3].
  eexists; simpl; right; right; left; reflexivity.
Qed.

End Database.

(** [%d %b %Y  %H:%M:%S]: day, month name, year, then the time of day. *)
Lemma entry_time_format t :
  Time.strftime "%d %b %Y  %H:%M:%S" t =
  Time.pad2 (day t) ++ " " ++ Time.month_abbr (month t) ++ " "
  ++ Time.decimal (year t) ++ "  "
  ++ Time.pad2 (hour t) ++ ":" ++ Time.pad2 (minute t) ++ ":"
  ++ Time.pad2 (second t).
Proof.
  cbn [Time.strftime Time.directive].
  now rewrite app_nil_r.
Qed.

End Slip.

(** C8, as stated, fails for the page: its receipt for the plate ["ABC123"]
    has the rows Vehicle Plate, Entry Time and Parking Fee, and neither the
    label ["Status"] nor the value ["ACTIVE"] is drawn on it. *)
Lemma page_receipt_has_no_status :
  log (Main.create_parking_slip Demo.installation "ABC123" (now Demo.installation))
    = [ EvSt StInfo
          "ℹ️ Custom Poppins fonts not found or failed to load. Using default fonts. Appearance may vary.";
        EvSlip "generated_parking_slip.png"
          (Main.slip_canvas Demo.installation "ABC123" (now Demo.installation)) ]
  /\ drawn_texts (canvas_ops (Main.slip_canvas Demo.installation "ABC123" (now Demo.installation)))
     = [ "PARKING RECEIPT";
         "🚗"; "Vehicle Plate"; "ABC123";
         "📅"; "Entry Time"; "07 Mar 2024, 09:05:00";
         "💰"; "Parking Fee"; "Rs. 30.00";
         "SCAN"; "Scan for details or payment.";
         "Powered by Downlabs" ]
  /\ ~ In "Status"
       (drawn_texts (canvas_ops (Main.slip_canvas Demo.installation "ABC123" (now Demo.installation))))
  /\ ~ In "ACTIVE"
       (drawn_texts (canvas_ops (Main.slip_canvas Demo.installation "ABC123" (now Demo.installation)))).
Proof.
  repeat split; try reflexivity.
  - vm_compute; intros H.
    repeat (destruct H as [H|H]; [discriminate H|]); exact H.
  - vm_compute; intros H.
    repeat (destruct H as [H|H]; [discriminate H|]); exact H.
Qed.

Section Receipt.

Context {U : Py.Unicode}.

(** C8, amended. For every reading and entry time the service draws, on a
    600 x 380 canvas, the title, a divider, the four rows Vehicle Plate,
    Entry Time (day, month name, year, hour:minute:second), Parking Fee
    ["Rs. 30.00"] and Status ["ACTIVE"], and the footer caption, and saves
    that canvas. The page draws, on a 600 x 400 canvas, the title, a
    divider, the three rows Vehicle Plate, Entry Time and Parking Fee
    ["Rs. 30.00"], the QR placeholder's captions and its footer, and saves
    that canvas; it has no Status row. *)
Theorem receipt_fields (E : world) (plate : Py.str) (t : datetime) :
  (canvas_size (App.slip_canvas E plate t) = (600, 380)%Z
   /\ drawn_texts (canvas_ops (App.slip_canvas E plate t))
      = [ "PARKING RECEIPT";
          "Vehicle Plate"; plate;
          "Entry Time"; Time.strftime "%d %b %Y  %H:%M:%S" t;
          "Parking Fee"; "Rs. 30.00";
          "Status"; "ACTIVE";
          "Powered by Smart Parking System  •  YOLO + EasyOCR" ]
   /\ In (Line (40, 75)%Z (560, 75)%Z "#4C1D95" 1)
         (canvas_ops (App.slip_canvas E plate t))
   /\ Time.strftime "%d %b %Y  %H:%M:%S" t
      = Time.pad2 (day t) ++ " " ++ Time.month_abbr (month t) ++ " "
        ++ Time.decimal (year t) ++ "  "
        ++ Time.pad2 (hour t) ++ ":" ++ Time.pad2 (minute t) ++ ":"
        ++ Time.pad2 (second t)
   /\ exists path,
        log (App.generate_slip E plate t) = [EvSlip path (App.slip_canvas E plate t)])
  /\ (canvas_size (Main.slip_canvas E plate t) = (600, 400)%Z
      /\ drawn_texts (canvas_ops (Main.slip_canvas E plate t))
         = [ "PARKING RECEIPT";
             "🚗"; "Vehicle Plate"; Main.display_plate_text plate;
             "📅"; "Entry Time"; Time.strftime "%d %b %Y, %H:%M:%S" t;
             "💰"; "Parking Fee"; "Rs. 30.00";
             "SCAN"; "Scan for details or payment.";
             "Powered by Downlabs" ]
      /\ (exists y, In (Line (35, y)%Z (565, y)%Z "#BDC3C7" 1)
                       (canvas_ops (Main.slip_canvas E plate t)))
      /\ In (EvSlip "generated_parking_slip.png" (Main.slip_canvas E plate t))
            (log (Main.create_parking_slip E plate t))).
Proof.
  split; repeat split.
  - apply Slip.app_canvas_size.
  - apply Slip.app_drawn_texts.
  - apply Slip.app_divider.
  - apply Slip.entry_time_format.
  - unfold App.generate_slip, call, bind.
    destruct (save E _ _); eexists; reflexivity.
  - apply Slip.main_canvas_size.
  - apply Slip.main_drawn_texts.
  - apply Slip.main_divider.
  - unfold Main.create_parking_slip, attempt, call, bind, emit, ret.
    destruct (snd (Main.load_fonts E)), (save E _ _); simpl; auto.
Qed.

End Receipt.

(** ** The page's success test *)

Module Page.
Import Spec.

Lemma startswith_In sub s c :
  Py.startswith sub s = true -> In c sub -> In c s.
Proof.
  revert s; induction sub as [|a sub IH]; intros s; [intros _ []|].
  destruct s as [|b s]; cbn [Py.startswith]; [discriminate|].
  intros H Hin; apply andb_true_iff in H as [Hab Hrest].
  apply N.eqb_eq in Hab; subst b.
  destruct Hin as [<-|Hin]; [now left | right; eauto].
Qed.

(** The characters of a substring stand in the string. *)
Lemma contains_In sub s c :
  Py.contains sub s = true -> In c sub -> In c s.
Proof.
  induction s as [|b s IH]; cbn [Py.contains].
  - rewrite orb_false_r; intros H; now apply startswith_In.
  - intros H Hin; apply orb_true_iff in H as [H|H].
    + exact (startswith_In _ _ _ H Hin).
    + right; auto.
Qed.

(** On an ASCII string every character database gives the verdict and the
    display that the excerpt gives. *)
Lemma ascii_is_success {U : Py.Unicode} s :
  Py.isascii s = true ->
  Main.is_success s = Main.is_success (U := Demo.unicode) s.
Proof.
  intros H; unfold Main.is_success.
  now rewrite (@Py.lower_ascii U s H), (@Py.lower_ascii Demo.unicode s H).
Qed.

Lemma ascii_display {U : Py.Unicode} s :
  Py.isascii s = true ->
  Main.display_plate_text s = Main.display_plate_text (U := Demo.unicode) s.
Proof.
  intros H; unfold Main.display_plate_text.
  now rewrite (@Py.lower_ascii U s H), (@Py.lower_ascii Demo.unicode s H).
Qed.

(** The verdict on an ASCII string, computed with the excerpt. *)
Ltac by_excerpt :=
  match goal with
  | |- Main.is_success ?s = _ =>
      rewrite (ascii_is_success s eq_refl); reflexivity
  | |- Main.display_plate_text ?s = _ =>
      rewrite (ascii_display s eq_refl); reflexivity
  end.

Section Database.

Context {U : Py.Unicode}.

Lemma is_success_false_iff s :
  Main.is_success s = false <->
  s = []
  \/ exists sub, In sub failure_words /\ Py.contains sub (Py.lower s) = true.
Proof.
  unfold Main.is_success, Py.any; fold failure_words.
  rewrite andb_false_iff, negb_false_iff, existsb_exists.
  split; intros [H|H]; auto.
  - left; now apply Chars.truthy_false.
  - right; now subst s.
Qed.

(** The sentinels of [detect_and_ocr] all fail the success test. *)
Lemma crop_error_fails : Main.is_success "Crop Error" = false.
Proof. by_excerpt. Qed.

Lemma processing_error_fails : Main.is_success "Processing Error" = false.
Proof. by_excerpt. Qed.

Lemma no_plate_fails : Main.is_success "No plate detected" = false.
Proof. by_excerpt. Qed.

Lemma recognition_empty_fails : Main.is_success Main.RECOGNITION_EMPTY = false.
Proof. by_excerpt. Qed.

Lemma recognition_filtered_fails :
  Main.is_success Main.RECOGNITION_FILTERED = false.
Proof. by_excerpt. Qed.

Lemma failure_message_not_slip s : is_slip (Main.failure_message s) = false.
Proof.
  unfold Main.failure_message.
  destruct (Py.eqb s Main.RECOGNITION_EMPTY); [reflexivity|].
  destruct (Py.eqb s Main.RECOGNITION_FILTERED); [reflexivity|].
  destruct (Py.eqb s "No plate detected"); reflexivity.
Qed.

Lemma failure_message_not_download s :
  is_download (Main.failure_message s) = false.
Proof.
  unfold Main.failure_message.
  destruct (Py.eqb s Main.RECOGNITION_EMPTY); [reflexivity|].
  destruct (Py.eqb s Main.RECOGNITION_FILTERED); [reflexivity|].
  destruct (Py.eqb s "No plate detected"); reflexivity.
Qed.

(** A result that passes the test is shown on the receipt as it is. *)
Lemma display_of_success s :
  Main.is_success s = true -> Main.display_plate_text s = s.
Proof.
  unfold Main.is_success, Main.display_plate_text, Py.any.
  cbn [existsb]; intros H.
  apply andb_true_iff in H as [H Ht]; apply negb_true_iff in H.
  apply orb_false_iff in H as [He H]; apply orb_false_iff in H as [Hf _].
  now rewrite Ht, He, Hf.
Qed.

(** No reading that the filter joined contains ["n/a"]: a reading holds no
    slash, and lower-casing adds none. *)
Lemma reading_never_contains_n_a raw :
  surviving raw <> [] ->
  Py.contains "n/a" (Py.lower (Main.plate_text raw)) = false.
Proof.
  intros Hne; rewrite Filter.main_plate_text_cases.
  pose proof (Filter.join_reading_chars raw) as Hch.
  destruct (surviving raw) as [|x r]; [congruence|].
  destruct (Py.contains "n/a" (Py.lower (Py.join " " (x :: r)))) eqn:Hc;
    [|reflexivity].
  assert (Hin : In 47%N (Py.lower (Py.join " " (x :: r))))
    by (apply (contains_In _ _ _ Hc); right; left; reflexivity).
  apply Py.lower_new in Hin; [|reflexivity|reflexivity].
  rewrite forallb_forall in Hch; specialize (Hch _ Hin); discriminate Hch.
Qed.

(** Without a receipt to show, nothing is saved or offered. *)
Lemma verdict_of_failure E plate :
  Main.is_success plate = false ->
  verdict E plate
  = [ Main.failure_message plate;
      EvSt StInfo
        "ℹ️ Parking slip cannot be generated due to issues in plate detection or text extraction." ].
Proof. unfold verdict; now intros ->. Qed.

Lemma slips_of_verdict E plate :
  filter is_slip (verdict E plate)
  = if Main.is_success plate
    then [EvSlip Main.SLIP_FILENAME (Main.slip_canvas E plate (now E))]
    else [].
Proof.
  unfold verdict.
  destruct (Main.is_success plate), (snd (Main.load_fonts E)),
    (save E Main.SLIP_FILENAME (Main.slip_canvas E plate (now E)));
    try destruct (path_exists E Main.SLIP_FILENAME);
    cbn [app filter is_slip]; rewrite ?failure_message_not_slip;
    reflexivity.
Qed.

Lemma downloads_of_verdict E plate :
  filter is_download (verdict E plate)
  = if Main.is_success plate
       && returned (save E Main.SLIP_FILENAME (Main.slip_canvas E plate (now E)))
       && path_exists E Main.SLIP_FILENAME
    then [EvStDownload (download_name plate (now E))]
    else [].
Proof.
  unfold verdict, returned.
  destruct (Main.is_success plate), (snd (Main.load_fonts E)),
    (save E Main.SLIP_FILENAME (Main.slip_canvas E plate (now E)));
    try destruct (path_exists E Main.SLIP_FILENAME);
    cbn [app filter is_download andb]; rewrite ?failure_message_not_download;
    reflexivity.
Qed.

(** After a failure the page saves and offers nothing, however the
    displays end. *)
Lemma quiet_after_failure E image_np b plate c p :
  Main.is_success plate = false ->
  filter is_slip (after_detection E image_np (b, plate, c, p)) = []
  /\ filter is_download (after_detection E image_np (b, plate, c, p)) = []
  /\ filter is_readtext (after_detection E image_np (b, plate, c, p)) = [].
Proof.
  intros Hf; unfold after_detection.
  destruct b as [[[[x1 y1] x2] y2]|]; [|auto].
  rewrite (verdict_of_failure E plate Hf).
  destruct (Main.shown E (Boxed image_np (x1, y1) (x2, y2) (0, 255, 0)%Z 3));
    [|auto].
  pose proof (failure_message_not_slip plate) as Hs.
  pose proof (failure_message_not_download plate) as Hd.
  assert (Hr : is_readtext (Main.failure_message plate) = false).
  { unfold Main.failure_message.
    destruct (Py.eqb plate Main.RECOGNITION_EMPTY); [reflexivity|].
    destruct (Py.eqb plate Main.RECOGNITION_FILTERED); [reflexivity|].
    destruct (Py.eqb plate "No plate detected"); reflexivity. }
  destruct c as [c|]; [destruct (Main.shown E c)|];
    cbn [filter is_slip is_download is_readtext]; rewrite ?Hs, ?Hd, ?Hr; auto.
Qed.

(** What [detect_and_ocr] returns with a plate that passes the test: the
    box and a crop that holds pixels, which the page then shows. *)
Lemma after_success E image_np yolo rd l b plate c p :
  Main.detect_and_ocr image_np (Some yolo) (Some rd)
    = (l, Returns (b, plate, c, p)) ->
  Main.is_success plate = true ->
  after_detection E image_np (b, plate, c, p)
  = EvStImage "Detected Number Plate Area"
    :: EvStImage "Cropped Plate Sent to EasyOCR" :: verdict E plate.
Proof.
  rewrite Interactive.detect_loaded.
  pose proof crop_error_fails; pose proof processing_error_fails;
    pose proof no_plate_fails.
  destruct (yolo image_np) as [[|[[[x1 y1] x2] y2] rest]|e]; cbv zeta.
  - intros Hd; injection Hd as _ _ <- _ _; congruence.
  - destruct (size (crop_of 2 image_np (x1, y1, x2, y2)) =? 0)%Z eqn:Hsize.
    + intros Hd; injection Hd as _ _ <- _ _; congruence.
    + apply Z.eqb_neq in Hsize.
      pose proof (Region.crop_of_pixels _ _ _ Hsize) as Himg.
      apply Z.eqb_neq in Hsize, Himg.
      assert (Hbox : Main.shown E (Boxed image_np (x1, y1) (x2, y2) (0, 255, 0)%Z 3)
                     = Returns tt)
        by (unfold Main.shown;
            change (size (Boxed image_np (x1, y1) (x2, y2) (0, 255, 0)%Z 3))
              with (size image_np); now rewrite Himg).
      assert (Hcrop : Main.shown E (crop_of 2 image_np (x1, y1, x2, y2))
                      = Returns tt)
        by (unfold Main.shown; now rewrite Hsize).
      destruct (rd (crop_of 2 image_np (x1, y1, x2, y2))) as [raw|e];
        intros Hd; injection Hd as _ <- <- <- _; [|congruence].
      intros _; unfold after_detection; now rewrite Hbox, Hcrop.
  - intros Hd; injection Hd as _ _ <- _ _; congruence.
Qed.

(** The receipt is rendered exactly when the success test passes, and it is
    the receipt of the returned plate. *)
Lemma slips_of_run E file_bytes image_np yolo rd l b plate c p :
  imdecode E file_bytes = Returns (Some image_np) ->
  Main.detect_and_ocr image_np (Some yolo) (Some rd)
    = (l, Returns (b, plate, c, p)) ->
  filter is_slip (log (Main.results_column E (Some file_bytes) (Some yolo) (Some rd)))
  = if Main.is_success plate
    then [EvSlip Main.SLIP_FILENAME (Main.slip_canvas E plate (now E))]
    else [].
Proof.
  intros Hdecode Hd.
  rewrite (Interactive.results_after_detection _ _ _ _ _ _ _ Hdecode Hd).
  destruct (Interactive.detect_quiet image_np (Some yolo) (Some rd))
    as (l' & d' & Hd' & Hl & _).
  rewrite Hd in Hd'; injection Hd' as <- <-.
  unfold log; cbn [fst]; rewrite filter_app, Hl; cbn [app].
  destruct (Main.is_success plate) eqn:Hok.
  - rewrite (after_success _ _ _ _ _ _ _ _ _ Hd Hok).
    cbn [filter is_slip]; now rewrite slips_of_verdict, Hok.
  - now destruct (quiet_after_failure E image_np b plate c p Hok).
Qed.

Lemma downloads_of_run E file_bytes image_np yolo rd l b plate c p :
  imdecode E file_bytes = Returns (Some image_np) ->
  Main.detect_and_ocr image_np (Some yolo) (Some rd)
    = (l, Returns (b, plate, c, p)) ->
  filter is_download
    (log (Main.results_column E (Some file_bytes) (Some yolo) (Some rd)))
  = if Main.is_success plate
       && returned (save E Main.SLIP_FILENAME (Main.slip_canvas E plate (now E)))
       && path_exists E Main.SLIP_FILENAME
    then [EvStDownload (download_name plate (now E))]
    else [].
Proof.
  intros Hdecode Hd.
  rewrite (Interactive.results_after_detection _ _ _ _ _ _ _ Hdecode Hd).
  destruct (Interactive.detect_quiet image_np (Some yolo) (Some rd))
    as (l' & d' & Hd' & _ & Hl & _).
  rewrite Hd in Hd'; injection Hd' as <- <-.
  unfold log; cbn [fst]; rewrite filter_app, Hl; cbn [app].
  destruct (Main.is_success plate) eqn:Hok.
  - rewrite (after_success _ _ _ _ _ _ _ _ _ Hd Hok).
    cbn [filter is_download]; now rewrite downloads_of_verdict, Hok.
  - now destruct (quiet_after_failure E image_np b plate c p Hok) as (_ & H & _).
Qed.

Lemma filter_In_nil (p : event -> bool) l e :
  filter p l = [] -> p e = true -> ~ In e l.
Proof.
  intros Hf He Hin.
  assert (H : In e (filter p l)) by (apply filter_In; auto).
  now rewrite Hf in H.
Qed.

End Database.

End Page.

(** ** A crop of zero area *)

(** C3, as stated, fails. For a box beside the image the padded rectangle
    has no column, the crop is empty and the reading is ["Crop Error"]; the
    page counts it as a failure and renders no receipt, whether Streamlit
    refuses to show the empty crop (the sample installation) or shows it
    (the lenient one). In the sample installation, where OpenCV refuses to
    write an image without pixels, the service renders none either. And for
    a box above the image the padded rectangle has no row, yet the slice
    counts its negative stop from the bottom edge and the recogniser is run
    on the crop. *)
Lemma no_receipt_on_crop_error :
  Spec.no_area (padded_rect 2 Demo.img (700, 200, 800, 260)%Z)
  /\ Main.detect_and_ocr Demo.img (Some Demo.yolo_outside) (Some Demo.ocr_abc)
     = ([EvDetect Demo.img],
        Returns (Some (700, 200, 800, 260)%Z, "Crop Error",
                 Some (crop_of 2 Demo.img (700, 200, 800, 260)%Z),
                 Some (crop_of 2 Demo.img (700, 200, 800, 260)%Z)))
  /\ Main.results_column Demo.installation (Some Demo.jpeg)
       (Some Demo.yolo_outside) (Some Demo.ocr_abc)
     = ([ EvDetect Demo.img;
          EvStImage "Detected Number Plate Area";
          EvStImage "Cropped Plate Sent to EasyOCR";
          EvSt StError "🚫 An unexpected error occurred: the image is empty" ],
        Returns tt)
  /\ Main.results_column Sample.lenient (Some Demo.jpeg)
       (Some Demo.yolo_outside) (Some Demo.ocr_abc)
     = ([ EvDetect Demo.img;
          EvStImage "Detected Number Plate Area";
          EvStImage "Cropped Plate Sent to EasyOCR";
          EvSt StWarning "⚠️ Status: `Crop Error`";
          EvSt StInfo
            "ℹ️ Parking slip cannot be generated due to issues in plate detection or text extraction." ],
        Returns tt)
  /\ ~ slip_shows (log (Main.results_column Demo.installation (Some Demo.jpeg)
                          (Some Demo.yolo_outside) (Some Demo.ocr_abc)))
         "Crop Error"
  /\ ~ slip_shows (log (Main.results_column Sample.lenient (Some Demo.jpeg)
                          (Some Demo.yolo_outside) (Some Demo.ocr_abc)))
         "Crop Error"
  /\ Spec.no_area (padded_rect 4 Demo.img (700, 200, 800, 260)%Z)
  /\ App.process Demo.installation Demo.yolo_outside Demo.ocr_abc Demo.request
     = ([ EvDetect Demo.img;
          EvImwrite "static/slips/annotated_latest.jpg"
            (Boxed Demo.img (700, 200)%Z (800, 260)%Z (124, 58, 237)%Z 3);
          EvImwrite "static/slips/crop_latest.jpg"
            (crop_of 4 Demo.img (700, 200, 800, 260)%Z) ],
        Raises "the image is empty")
  /\ Spec.no_area (padded_rect 4 Demo.img (100, -60, 300, -10)%Z)
  /\ App.extract_text Demo.ocr_abc Demo.img (100, -60, 300, -10)%Z
     = ([EvReadtext (crop_of 4 Demo.img (100, -60, 300, -10)%Z)],
        Returns ("ABC123", crop_of 4 Demo.img (100, -60, 300, -10)%Z))
  /\ Spec.no_area (padded_rect 2 Demo.img (100, -60, 300, -10)%Z)
  /\ Main.detect_and_ocr Demo.img (Some Sample.yolo_above) (Some Demo.ocr_abc)
     = ([ EvDetect Demo.img;
          EvReadtext (crop_of 2 Demo.img (100, -60, 300, -10)%Z) ],
        Returns (Some (100, -60, 300, -10)%Z, "ABC123",
                 Some (crop_of 2 Demo.img (100, -60, 300, -10)%Z),
                 Some (crop_of 2 Demo.img (100, -60, 300, -10)%Z))).
Proof.
  assert (Hno : forall E l,
            Main.results_column E (Some Demo.jpeg)
              (Some Demo.yolo_outside) (Some Demo.ocr_abc) = (l, Returns tt) ->
            existsb Spec.is_slip l = false ->
            ~ slip_shows (log (Main.results_column E (Some Demo.jpeg)
                                 (Some Demo.yolo_outside) (Some Demo.ocr_abc)))
                "Crop Error").
  { intros E l Hrun Hl (path & c & Hin & _); rewrite Hrun in Hin.
    apply Log.no_slip_iff in Hl; exact (Hl path c Hin). }
  repeat split; try reflexivity;
    try (cbv; right; discriminate); try (cbv; left; discriminate).
  - eapply Hno; reflexivity.
  - eapply Hno; reflexivity.
Qed.

Section EmptyCrop.

Context {U : Py.Unicode}.

(** C3, amended. When the padded rectangle of the first detected box has
    zero area and its stop bounds are not negative, the crop is empty and
    both variants return the reading ["Crop Error"] without running the
    recogniser. The service then goes on to its writes with that reading,
    as with any other. The page counts it as a failure, as it counts the
    two readings of a recognition without result: the success test rejects
    it and no receipt is rendered; the page shows it as a status or, when
    Streamlit raises on the empty crop, the message of that exception. *)
Theorem empty_crop_outcome
    (E : world) (name : Py.str) (file_bytes : string) (image_np : image)
    (yolo_model : image -> outcome (list box))
    (reader : image -> outcome (list span))
    (x1 y1 x2 y2 : Z) (rest : list box)
    (Hname : Py.eqb name "" = false)
    (Hdecode : imdecode E file_bytes = Returns (Some image_np))
    (Hbox : yolo_model image_np = Returns ((x1, y1, x2, y2) :: rest)) :
  let b : box := (x1, y1, x2, y2) in
  let req := {| App.files_image :=
                  Some {| App.filename := name; App.content := file_bytes |} |} in
  let service := App.process E yolo_model reader req in
  let page :=
    Main.results_column E (Some file_bytes) (Some yolo_model) (Some reader) in
  (Spec.zero_area (padded_rect 4 image_np b) ->
   size (crop_of 4 image_np b) = 0%Z
   /\ App.extract_text reader image_np b
      = ([], Returns ("Crop Error", crop_of 4 image_np b))
   /\ no_readtext (log service)
   /\ service
      = (EvDetect image_np
         :: log (Spec.finish E image_np b "Crop Error" (crop_of 4 image_np b)),
         result (Spec.finish E image_np b "Crop Error" (crop_of 4 image_np b))))
  /\ (Spec.zero_area (padded_rect 2 image_np b) ->
      size (crop_of 2 image_np b) = 0%Z
      /\ Main.detect_and_ocr image_np (Some yolo_model) (Some reader)
         = ([EvDetect image_np],
            Returns (Some b, "Crop Error",
                     Some (crop_of 2 image_np b), Some (crop_of 2 image_np b)))
      /\ (Main.is_success "Crop Error" = false
          /\ Main.is_success Main.RECOGNITION_EMPTY = false
          /\ Main.is_success Main.RECOGNITION_FILTERED = false)
      /\ result page = Returns tt
      /\ no_readtext (log page)
      /\ no_slip (log page)
      /\ (size image_np <> 0%Z ->
          log page
          = [ EvDetect image_np;
              EvStImage "Detected Number Plate Area";
              EvStImage "Cropped Plate Sent to EasyOCR" ]
            ++ match st_image_empty E (crop_of 2 image_np b) with
               | Raises e =>
                   [EvSt StError ("🚫 An unexpected error occurred: " ++ e)]
               | Returns _ =>
                   [ EvSt StWarning "⚠️ Status: `Crop Error`";
                     EvSt StInfo
                       "ℹ️ Parking slip cannot be generated due to issues in plate detection or text extraction." ]
               end)).
Proof.
  intros b req service page; split.
  - intros Hzero.
    pose proof (Region.zero_area_empty 4 image_np b Hzero) as H4.
    assert (Hx : App.extract_text reader image_np b
                 = ([], Returns ("Crop Error", crop_of 4 image_np b)))
      by (unfold App.extract_text; cbv zeta; rewrite H4; reflexivity).
    assert (Hp : service
                 = (EvDetect image_np
                    :: log (Spec.finish E image_np b "Crop Error" (crop_of 4 image_np b)),
                    result (Spec.finish E image_np b "Crop Error"
                              (crop_of 4 image_np b)))).
    { unfold service, req.
      rewrite (Service.process_decoded _ _ _ _ _ _ Hname Hdecode), Hbox.
      cbv zeta; fold b; now rewrite H4. }
    split; [exact H4|]; split; [exact Hx|]; split; [|exact Hp].
    rewrite Hp; apply Log.no_readtext_iff; unfold log at 1; cbn [fst existsb].
    apply Log.existsb_filter.
    destruct (Service.finish_facts E image_np b "Crop Error" (crop_of 4 image_np b))
      as (_ & Hr & _).
    unfold Spec.count in Hr; now apply length_zero_iff_nil.
  - intros Hzero.
    pose proof (Region.zero_area_empty 2 image_np b Hzero) as H2.
    assert (Hd : Main.detect_and_ocr image_np (Some yolo_model) (Some reader)
                 = ([EvDetect image_np],
                    Returns (Some b, "Crop Error",
                             Some (crop_of 2 image_np b), Some (crop_of 2 image_np b))))
      by (rewrite Interactive.detect_loaded, Hbox; cbv zeta; fold b; now rewrite H2).
    pose proof (Interactive.results_after_detection _ _ _ _ _ _ _ Hdecode Hd) as Hr.
    fold page in Hr.
    destruct (Page.quiet_after_failure E image_np (Some b) "Crop Error"
                (Some (crop_of 2 image_np b)) (Some (crop_of 2 image_np b))
                Page.crop_error_fails) as (Hs & _ & Hrt).
    split; [exact H2|]; split; [exact Hd|]; split;
      [exact (conj Page.crop_error_fails
                (conj Page.recognition_empty_fails
                   Page.recognition_filtered_fails))|].
    rewrite Hr; unfold result, log; cbn [fst snd].
    split; [reflexivity|]; split; [|split].
    + apply Log.no_readtext_iff, Log.existsb_filter.
      rewrite filter_app; exact Hrt.
    + apply Log.no_slip_iff, Log.existsb_filter.
      rewrite filter_app; exact Hs.
    + intros Himg; apply Z.eqb_neq in Himg.
      unfold Spec.after_detection, b, Main.shown.
      change (size (Boxed image_np (x1, y1) (x2, y2) (0, 255, 0)%Z 3))
        with (size image_np).
      fold b; rewrite Himg, H2; cbn [Z.eqb app].
      rewrite (Page.verdict_of_failure E _ Page.crop_error_fails).
      destruct (st_image_empty E (crop_of 2 image_np b)); reflexivity.
Qed.

End EmptyCrop.

(** The sample installation with a box beside the image. *)
Lemma empty_crop_outcome_witness :
  App.extract_text Demo.ocr_abc Demo.img (700, 200, 800, 260)%Z
    = ([], Returns ("Crop Error", crop_of 4 Demo.img (700, 200, 800, 260)%Z))
  /\ no_slip
       (log (Main.results_column Demo.installation (Some Demo.jpeg)
               (Some Demo.yolo_outside) (Some Demo.ocr_abc))).
Proof.
  destruct (empty_crop_outcome Demo.installation "car.jpg" Demo.jpeg Demo.img
              Demo.yolo_outside Demo.ocr_abc 700 200 800 260 []
              eq_refl eq_refl eq_refl) as [Hservice Hpage].
  destruct Hservice as (_ & Hx & _).
  { cbv; repeat split; try discriminate; right; discriminate. }
  destruct Hpage as (_ & _ & _ & _ & _ & Hnone & _).
  { cbv; repeat split; try discriminate; right; discriminate. }
  split; [exact Hx | exact Hnone].
Defined.

Section SuccessTest.

Context {U : Py.Unicode}.

(** C10, amended. On the page a result counts as a failure exactly when it
    is empty or its lower-cased text contains one of ["error"], ["failed"],
    ["no plate"], ["n/a"], ["crop"], and the receipt is rendered exactly
    when the result is not a failure. So a recognised plate whose reading
    contains ["CROP"] (["CROP12"] for one) gets no receipt. No joined
    reading contains ["n/a"], and a reading with ["NA"] in it, such as
    ["NA123"], passes. *)
Theorem page_success_by_substrings
    (E : world) (file_bytes : string) (image_np : image)
    (yolo_model : image -> outcome (list box))
    (reader : image -> outcome (list span))
    (Hdecode : imdecode E file_bytes = Returns (Some image_np)) :
  let run := Main.results_column E (Some file_bytes) (Some yolo_model) (Some reader) in
  (forall s,
     Main.is_success s = false <->
     s = []
     \/ exists sub,
          In sub ["error"; "failed"; "no plate"; "n/a"; "crop"]
          /\ Py.contains sub (Py.lower s) = true)
  /\ (exists l b plate c p,
        Main.detect_and_ocr image_np (Some yolo_model) (Some reader)
          = (l, Returns (b, plate, c, p))
        /\ (Main.is_success plate = false <-> no_slip (log run))
        /\ (Main.is_success plate = true -> slip_shows (log run) plate))
  /\ (forall raw,
        Spec.surviving raw <> [] ->
        Py.contains "crop" (Py.lower (Main.plate_text raw)) = true ->
        Main.is_success (Main.plate_text raw) = false)
  /\ (Main.plate_text [sp "CROP 12" 0.9] = "CROP12"
      /\ Main.is_success "CROP12" = false)
  /\ (forall raw,
        Spec.surviving raw <> [] ->
        Py.contains "n/a" (Py.lower (Main.plate_text raw)) = false)
  /\ Main.is_success "NA123" = true.
Proof.
  intros run; split; [exact Page.is_success_false_iff|]; split; [|split].
  - destruct (Interactive.detect_quiet image_np (Some yolo_model) (Some reader))
      as (l & [[[b plate] c] p] & Hd & _).
    pose proof (Page.slips_of_run E file_bytes image_np yolo_model reader
                  l b plate c p Hdecode Hd) as Hslips.
    fold run in Hslips.
    exists l, b, plate, c, p; split; [exact Hd|]; split.
    + rewrite Log.no_slip_iff, Log.existsb_filter, Hslips.
      destruct (Main.is_success plate); split; congruence.
    + intros Hok; rewrite Hok in Hslips.
      exists Main.SLIP_FILENAME, (Main.slip_canvas E plate (now E)); split.
      * assert (Hin : In (EvSlip Main.SLIP_FILENAME
                            (Main.slip_canvas E plate (now E)))
                         (filter Spec.is_slip (log run)))
          by (rewrite Hslips; now left).
        now apply filter_In in Hin.
      * rewrite Slip.main_drawn_texts, (Page.display_of_success _ Hok).
        simpl; tauto.
  - intros raw _ Hc; apply Page.is_success_false_iff; right.
    exists "crop"; split; [simpl; tauto | exact Hc].
  - split; [split; [Filter.by_excerpt | Page.by_excerpt]|].
    split; [exact Page.reading_never_contains_n_a | Page.by_excerpt].
Qed.

End SuccessTest.

(** C10, as stated, fails in its example: a reading that contains ["NA"]
    passes the page's test, because the word tested is ["n/a"]; for the
    recognised text ["NA 123"] the reading is ["NA123"] and its receipt is
    rendered. *)
Lemma plate_with_na_gets_receipt :
  Main.plate_text [sp "NA 123" 0.9] = "NA123"
  /\ Py.contains "na" (Py.lower "NA123") = true
  /\ Main.is_success "NA123" = true
  /\ slip_shows
       (log (Main.results_column Demo.installation (Some Demo.jpeg)
               (Some Demo.yolo_plate) (Some Demo.ocr_na)))
       "NA123".
Proof.
  repeat split; try reflexivity.
  exists "generated_parking_slip.png",
         (Main.slip_canvas Demo.installation "NA123" (now Demo.installation)).
  split; vm_compute; tauto.
Qed.

(** The sample installation with a plate that reads ["CROP12"]. *)
Lemma page_success_by_substrings_witness :
  no_slip
    (log (Main.results_column Demo.installation (Some Demo.jpeg)
            (Some Demo.yolo_plate) (Some Demo.ocr_crop))).
Proof.
  destruct (page_success_by_substrings Demo.installation Demo.jpeg Demo.img
              Demo.yolo_plate Demo.ocr_crop eq_refl)
    as (_ & (l & b & plate & c & p & Hd & Hfail & _) & _).
  apply Hfail.
  assert (Hplate : plate = "CROP12")
    by (exact (f_equal (fun r => match r with
                                 | (_, Returns (_, q, _, _)) => q
                                 | _ => plate
                                 end) (eq_sym Hd))).
  rewrite Hplate; reflexivity.
Defined.

(** * Further properties *)

(** ** Cleaning and joining *)

Module Text.
Import Spec.

Lemma ascii_in_table c : Py.isascii_char c = true -> In c ascii_table.
Proof.
  unfold Py.isascii_char, ascii_table; intros H; apply N.ltb_lt in H.
  apply in_map_iff; exists (N.to_nat c); split; [apply N2Nat.id|].
  apply in_seq; lia.
Qed.

(** A fact about every ASCII character, checked character by character. *)
Lemma by_table (P : Py.char -> bool) :
  forallb P ascii_table = true ->
  forall c, Py.isascii_char c = true -> P c = true.
Proof.
  intros H c Hc; rewrite forallb_forall in H; exact (H c (ascii_in_table c Hc)).
Qed.

Lemma upper_char_ascii c :
  Py.isascii_char c = true -> Py.isascii_char (Py.ascii_upper_char c) = true.
Proof. revert c; apply (by_table (fun c => Py.isascii_char (Py.ascii_upper_char c))); reflexivity. Qed.

Lemma lower_char_ascii c :
  Py.isascii_char c = true -> Py.isascii_char (Py.ascii_lower_char c) = true.
Proof. revert c; apply (by_table (fun c => Py.isascii_char (Py.ascii_lower_char c))); reflexivity. Qed.

Lemma upper_char_alnum c :
  Py.isascii_char c = true ->
  Py.ascii_alnum (Py.ascii_upper_char c) = Py.ascii_alnum c.
Proof.
  intros H; apply Bool.eqb_prop; revert c H.
  apply (by_table (fun c => Bool.eqb (Py.ascii_alnum (Py.ascii_upper_char c))
                                     (Py.ascii_alnum c))); reflexivity.
Qed.

Lemma lower_char_alnum c :
  Py.isascii_char c = true ->
  Py.ascii_alnum (Py.ascii_lower_char c) = Py.ascii_alnum c.
Proof.
  intros H; apply Bool.eqb_prop; revert c H.
  apply (by_table (fun c => Bool.eqb (Py.ascii_alnum (Py.ascii_lower_char c))
                                     (Py.ascii_alnum c))); reflexivity.
Qed.

Lemma upper_upper_char c :
  Py.isascii_char c = true ->
  Py.ascii_upper_char (Py.ascii_upper_char c) = Py.ascii_upper_char c.
Proof.
  intros H; apply N.eqb_eq; revert c H.
  apply (by_table (fun c => (Py.ascii_upper_char (Py.ascii_upper_char c)
                             =? Py.ascii_upper_char c)%N)); reflexivity.
Qed.

Lemma upper_lower_char c :
  Py.isascii_char c = true ->
  Py.ascii_upper_char (Py.ascii_lower_char c) = Py.ascii_upper_char c.
Proof.
  intros H; apply N.eqb_eq; revert c H.
  apply (by_table (fun c => (Py.ascii_upper_char (Py.ascii_lower_char c)
                             =? Py.ascii_upper_char c)%N)); reflexivity.
Qed.

(** The ASCII cleaning of a case-mapped text. *)
Lemma ascii_clean_mapped (f : Py.char -> Py.char) s :
  (forall c, Py.isascii_char c = true -> Py.ascii_alnum (f c) = Py.ascii_alnum c) ->
  (forall c, Py.isascii_char c = true ->
             Py.ascii_upper_char (f c) = Py.ascii_upper_char c) ->
  Py.isascii s = true ->
  map Py.ascii_upper_char (filter Py.ascii_alnum (map f s))
  = map Py.ascii_upper_char (filter Py.ascii_alnum s).
Proof.
  intros Ha Hu; unfold Py.isascii; induction s as [|c s IH]; [reflexivity|].
  cbn [forallb map filter]; intros H; apply andb_true_iff in H as [Hc Hs].
  rewrite (Ha c Hc); destruct (Py.ascii_alnum c); cbn [map];
    now rewrite ?(Hu c Hc), (IH Hs).
Qed.

Lemma map_ascii (f : Py.char -> Py.char) s :
  (forall c, Py.isascii_char c = true -> Py.isascii_char (f c) = true) ->
  Py.isascii s = true -> Py.isascii (map f s) = true.
Proof.
  intros Hf; unfold Py.isascii; induction s as [|c s IH]; [reflexivity|].
  cbn [forallb map]; intros H; apply andb_true_iff in H as [Hc Hs].
  now rewrite (Hf c Hc), (IH Hs).
Qed.

Section Database.

Context {U : Py.Unicode}.

(** On ASCII text [upper] is the ASCII case mapping. *)
Lemma upper_ascii s :
  Py.isascii s = true -> Py.upper s = map Py.ascii_upper_char s.
Proof.
  unfold Py.isascii, Py.upper; induction s as [|c s IH]; [reflexivity|].
  cbn [forallb flat_map map]; intros H; apply andb_true_iff in H as [Hc Hs].
  now rewrite (Py.upper_ascii c Hc), (IH Hs).
Qed.


Lemma clean_upper s : Py.isascii s = true -> clean (Py.upper s) = clean s.
Proof.
  intros H; rewrite (upper_ascii s H).
  rewrite (Chars.clean_ascii _ (map_ascii _ s upper_char_ascii H)),
    (Chars.clean_ascii s H).
  apply ascii_clean_mapped; auto using upper_char_alnum, upper_upper_char.
Qed.

Lemma clean_lower s : Py.isascii s = true -> clean (Py.lower s) = clean s.
Proof.
  intros H; rewrite (Py.lower_ascii s H).
  rewrite (Chars.clean_ascii _ (map_ascii _ s lower_char_ascii H)),
    (Chars.clean_ascii s H).
  apply ascii_clean_mapped; auto using lower_char_alnum, upper_lower_char.
Qed.


Lemma surviving_recased f g raw :
  (forall s, In s raw -> clean (f (span_text s)) = clean (span_text s)) ->
  surviving (recased f g raw) = surviving raw.
Proof.
  induction raw as [|s raw IH]; intros Hf; [reflexivity|].
  unfold recased in *; cbn [map]; rewrite !Filter.surviving_cons, IH.
  - change (span_conf (g s, f (span_text s), span_conf s)) with (span_conf s).
    change (span_text (g s, f (span_text s), span_conf s)) with (f (span_text s)).
    now rewrite (Hf s (or_introl eq_refl)).
  - intros s' Hs'; apply Hf; now right.
Qed.

End Database.

Lemma join_app a b :
  a <> [] -> b <> [] ->
  Py.join " " (a ++ b) = Py.join " " a ++ " " ++ Py.join " " b.
Proof.
  intros Ha Hb; induction a as [|x a IH]; [congruence|].
  destruct a as [|y a].
  - destruct b as [|z b]; [congruence|]; reflexivity.
  - change (Py.join " " ((x :: y :: a) ++ b))
      with (x ++ " " ++ Py.join " " ((y :: a) ++ b)).
    rewrite IH by discriminate.
    change (Py.join " " (x :: y :: a))
      with (x ++ " " ++ Py.join " " (y :: a)).
    now rewrite <- !app_assoc.
Qed.

End Text.

Section Cleaning.

Context {U : Py.Unicode}.


(** X2. The reading does not depend on the spans' boxes, nor, for ASCII
    texts, on their letter case, in either variant. *)
Theorem reading_ignores_case_and_boxes
    (g : span -> list (Z * Z)) (raw : list span) :
  App.plate_text (Spec.recased (fun text => text) g raw) = App.plate_text raw
  /\ Main.plate_text (Spec.recased (fun text => text) g raw) = Main.plate_text raw
  /\ (Spec.ascii_spans raw = true ->
      App.plate_text (Spec.recased Py.lower g raw) = App.plate_text raw
      /\ App.plate_text (Spec.recased Py.upper g raw) = App.plate_text raw
      /\ Main.plate_text (Spec.recased Py.lower g raw) = Main.plate_text raw
      /\ Main.plate_text (Spec.recased Py.upper g raw) = Main.plate_text raw).
Proof.
  rewrite !Filter.app_plate_text_cases, !Filter.main_plate_text_cases.
  rewrite (Text.surviving_recased (fun text => text) g raw) by reflexivity.
  split; [reflexivity|]; split; [destruct raw; reflexivity|].
  intros Hascii; unfold Spec.ascii_spans in Hascii.
  rewrite forallb_forall in Hascii.
  rewrite (Text.surviving_recased Py.lower g raw)
    by (intros s Hs; apply Text.clean_lower; auto).
  rewrite (Text.surviving_recased Py.upper g raw)
    by (intros s Hs; apply Text.clean_upper; auto).
  destruct raw; repeat split; reflexivity.
Qed.

(** X3. The two variants give the same reading exactly when some cleaned
    text survives the filter; otherwise each gives its own sentinel. *)
Theorem variants_agree_on_readings (raw : list span) :
  (Spec.surviving raw <> [] <-> App.plate_text raw = Main.plate_text raw)
  /\ (Spec.surviving raw <> [] ->
      App.plate_text raw = Py.join " " (Spec.surviving raw))
  /\ (Spec.surviving raw = [] ->
      App.plate_text raw = "No text detected"
      /\ (Main.plate_text raw = Main.RECOGNITION_EMPTY
          \/ Main.plate_text raw = Main.RECOGNITION_FILTERED)).
Proof.
  rewrite Filter.app_plate_text_cases, Filter.main_plate_text_cases.
  destruct (Spec.surviving raw) as [|x r].
  - repeat split; try congruence.
    + destruct raw; discriminate.
    + destruct raw; auto.
  - repeat split; try discriminate; try congruence.
Qed.

(** X4. Readings compose: when both halves of the recogniser's output have
    a surviving text, the reading of the whole is the two readings joined by
    one space; a half with no surviving text adds nothing to the reading of
    the other half. *)
Theorem reading_of_concatenation (a b : list span)
    (Ha : Spec.surviving a <> []) :
  (Spec.surviving b <> [] ->
   App.plate_text (a ++ b)
     = App.plate_text a ++ " " ++ App.plate_text b
   /\ Main.plate_text (a ++ b)
     = Main.plate_text a ++ " " ++ Main.plate_text b)
  /\ (Spec.surviving b = [] ->
      App.plate_text (a ++ b) = App.plate_text a
      /\ App.plate_text (b ++ a) = App.plate_text a
      /\ Main.plate_text (a ++ b) = Main.plate_text a
      /\ Main.plate_text (b ++ a) = Main.plate_text a).
Proof.
  rewrite !Filter.app_plate_text_cases, !Filter.main_plate_text_cases.
  rewrite !Filter.surviving_app.
  destruct (Spec.surviving a) as [|x r] eqn:Hsa; [congruence|].
  split.
  - intros Hb; destruct (Spec.surviving b) as [|y q] eqn:Hsb; [congruence|].
    rewrite Text.join_app by discriminate.
    cbn [app]; split; reflexivity.
  - intros ->; rewrite app_nil_r; cbn [app]; repeat split; reflexivity.
Qed.

End Cleaning.

(** ["AB"] then ["CD"], and ["AB"] then a span that is filtered away. *)
Lemma reading_of_concatenation_witness :
  App.plate_text ([sp "ab" 0.9] ++ [sp "cd" 0.9]) = "AB CD"
  /\ App.plate_text ([sp "ab" 0.9] ++ [sp "--" 0.9]) = "AB".
Proof.
  destruct (reading_of_concatenation [sp "ab" 0.9] [sp "cd" 0.9]) as [H1 _];
    [discriminate|].
  destruct (reading_of_concatenation [sp "ab" 0.9] [sp "--" 0.9]) as [_ H2];
    [discriminate|].
  destruct (H1 ltac:(discriminate)) as [H1a _].
  destruct (H2 eq_refl) as [H2a _].
  split; [exact H1a | exact H2a].
Defined.

(** ** File names *)

Module Naming.
Import Spec.

Lemma replace_space_no_space s : no_space (Py.replace_space s) = true.
Proof.
  unfold no_space, Py.replace_space, is_space; induction s as [|c s IH];
    [reflexivity|].
  cbn [map forallb]; rewrite IH, andb_true_r.
  destruct (c =? 32)%N eqn:Hc; [reflexivity | now rewrite Hc].
Qed.

Lemma no_space_app s t : no_space (s ++ t) = no_space s && no_space t.
Proof. apply forallb_app. Qed.

Lemma digits_no_space d : no_space (Time.digits d) = true.
Proof.
  induction d; cbn [Time.digits]; try reflexivity;
    rewrite no_space_app, IHd; reflexivity.
Qed.

Lemma decimal_no_space n : no_space (Time.decimal n) = true.
Proof.
  unfold Time.decimal.
  destruct (Nat.to_uint n) eqn:Hn; try reflexivity;
    rewrite <- Hn; apply digits_no_space.
Qed.

Lemma pad2_no_space n : no_space (Time.pad2 n) = true.
Proof.
  unfold Time.pad2; destruct (Nat.ltb n 10).
  - rewrite no_space_app, decimal_no_space; reflexivity.
  - apply decimal_no_space.
Qed.

Lemma month_abbr_no_space m : no_space (Time.month_abbr m) = true.
Proof.
  unfold Time.month_abbr; generalize (m - 1)%nat as n; intros n.
  do 12 (destruct n as [|n]; [reflexivity|]).
  destruct n; reflexivity.
Qed.

Lemma directive_no_space d t :
  Ascii.eqb d " " = false -> no_space (Time.directive d t) = true.
Proof.
  destruct d as [[] [] [] [] [] [] [] []]; intros Hd; try discriminate Hd;
    cbn [Time.directive];
    first [ apply pad2_no_space | apply decimal_no_space
          | apply month_abbr_no_space | reflexivity ].
Qed.

Lemma char_no_space c :
  Ascii.eqb c " " = false -> negb (is_space (N_of_ascii c)) = true.
Proof.
  destruct c as [[] [] [] [] [] [] [] []]; intros H; try reflexivity;
    discriminate H.
Qed.

(** A format without spaces gives a time stamp without spaces. *)
Lemma strftime_no_space t fmt :
  plain_format fmt = true -> no_space (Time.strftime fmt t) = true.
Proof.
  assert (H : (plain_format fmt = true -> no_space (Time.strftime fmt t) = true)
              /\ forall c, plain_format (String c fmt) = true ->
                           no_space (Time.strftime (String c fmt) t) = true).
  { induction fmt as [|a fmt [IH1 IH2]].
    - split; [reflexivity|].
      intros c Hc; unfold plain_format in Hc; cbn [list_ascii_of_string forallb] in Hc.
      apply andb_true_iff in Hc as [Hc _]; apply negb_true_iff in Hc.
      assert (Hone : no_space [N_of_ascii c] = true)
        by (unfold no_space; cbn [forallb]; now rewrite (char_no_space c Hc)).
      destruct c as [[] [] [] [] [] [] [] []]; exact Hone.
    - split; [apply IH2|].
      intros c Hc.
      unfold plain_format in Hc; cbn [list_ascii_of_string forallb] in Hc.
      apply andb_true_iff in Hc as [Hc Hrest].
      apply negb_true_iff in Hc.
      pose proof Hrest as Hrest'.
      apply andb_true_iff in Hrest' as [Ha Hfmt].
      apply negb_true_iff in Ha.
      assert (Hplain : no_space (N_of_ascii c :: Time.strftime (String a fmt) t)
                       = true).
      { unfold no_space; cbn [forallb]; rewrite (char_no_space c Hc).
        apply (IH2 a); exact Hrest. }
      destruct c as [[] [] [] [] [] [] [] []]; try exact Hplain.
      cbn [Time.strftime]; rewrite no_space_app.
      rewrite (directive_no_space a t Ha).
      apply IH1; exact Hfmt. }
  exact (proj1 H).
Qed.

Lemma slip_file_name_no_space plate t : no_space (slip_file_name plate t) = true.
Proof.
  unfold slip_file_name; rewrite !no_space_app.
  rewrite replace_space_no_space.
  rewrite (strftime_no_space t "%Y%m%d_%H%M%S" eq_refl).
  reflexivity.
Qed.

(** The name under which the page offers the receipt. *)
Lemma download_name_no_space plate t : no_space (download_name plate t) = true.
Proof.
  unfold download_name; rewrite !no_space_app.
  rewrite replace_space_no_space.
  rewrite (strftime_no_space t "%Y%m%d_%H%M" eq_refl).
  reflexivity.
Qed.

End Naming.

Section Names.

Context {U : Py.Unicode}.

(** X5. Whatever the reading, the service saves its receipt under
    [static/slips/slip_<reading>_<timestamp>.png] with every space of the
    reading replaced by an underscore, so the file name holds no space; the
    name it returns is the one it saved under, and it returns none when the
    save raises. *)
Theorem slip_file_name_has_no_space (E : world) (plate : Py.str) (t : datetime) :
  let f := Spec.slip_file_name plate t in
  log (App.generate_slip E plate t)
    = [EvSlip ("static/slips/" ++ f) (App.slip_canvas E plate t)]
  /\ Spec.no_space f = true
  /\ result (App.generate_slip E plate t)
     = match save E ("static/slips/" ++ f) (App.slip_canvas E plate t) with
       | Returns _ => Returns f
       | Raises e => Raises e
       end.
Proof.
  intros f; unfold App.generate_slip, call, bind, ret, log, result.
  change (App.SLIPS_DIR ++ "/" ++ "slip_" ++ Py.replace_space plate ++ "_"
          ++ Time.strftime "%Y%m%d_%H%M%S" t ++ ".png")
    with ("static/slips/" ++ f).
  repeat split.
  - destruct (save E _ _); reflexivity.
  - apply Naming.slip_file_name_no_space.
  - destruct (save E _ _); reflexivity.
Qed.

(** X6. The page never prints a failure message as a plate: what
    [create_parking_slip] shows in the Vehicle Plate row is never empty and
    never contains "failed" or "error", being the plate itself or "N/A";
    and for a plate that passes the page's success test it is the plate. *)
Theorem displayed_plate_is_clean (s : Py.str) :
  (Main.display_plate_text s = s \/ Main.display_plate_text s = "N/A")
  /\ Py.truthy (Main.display_plate_text s) = true
  /\ Py.contains "failed" (Py.lower (Main.display_plate_text s)) = false
  /\ Py.contains "error" (Py.lower (Main.display_plate_text s)) = false
  /\ (Main.is_success s = true -> Main.display_plate_text s = s)
  /\ (Main.display_plate_text s = "N/A" -> Main.is_success s = false).
Proof.
  assert (Hna : Main.is_success "N/A" = false) by Page.by_excerpt.
  assert (Hlow : Py.lower "N/A" = "n/a") by (now rewrite Py.lower_ascii).
  unfold Main.display_plate_text.
  destruct (Py.truthy s) eqn:Ht,
           (Py.contains "failed" (Py.lower s)) eqn:Hf,
           (Py.contains "error" (Py.lower s)) eqn:He;
    cbn [andb negb]; rewrite ?Hlow; repeat split; auto;
    try (intros H; apply Page.display_of_success in H;
         unfold Main.display_plate_text in H;
         rewrite Ht, ?Hf, ?He in H; cbn [andb negb] in H; congruence);
    try (intros _; unfold Main.is_success, Py.any; cbn [existsb];
         rewrite ?Ht, ?Hf, ?He, ?orb_true_r, ?andb_false_r; reflexivity).
  intros ->; exact Hna.
Qed.

End Names.

(** ** Boxes in and around the image *)

(** X7. For a box that lies in a non-empty image and a positive padding
    (sizes below 2^62), the crop is the box grown by at most the padding on
    each side and cut at the image's edges: it covers the box, it has at
    least one row and one column, and its size is not zero. *)
Theorem crop_of_box_in_image
    (pad : Z) (image_np : image) (x1 y1 x2 y2 : Z)
    (Hbox : Spec.box_in_image image_np (x1, y1, x2, y2))
    (Hpad : (0 < pad < 2 ^ 62)%Z)
    (Hheight : (0 < fst (shape image_np) < 2 ^ 62)%Z)
    (Hwidth : (0 < snd (shape image_np) < 2 ^ 62)%Z) :
  let height := fst (shape image_np) in
  let width := snd (shape image_np) in
  let y1_pad := Z.max 0 (y1 - pad) in
  let y2_pad := Z.min height (y2 + pad) in
  let x1_pad := Z.max 0 (x1 - pad) in
  let x2_pad := Z.min width (x2 + pad) in
  crop_of pad image_np (x1, y1, x2, y2)
    = Crop image_np y1_pad y2_pad x1_pad x2_pad
  /\ shape (crop_of pad image_np (x1, y1, x2, y2))
     = (y2_pad - y1_pad, x2_pad - x1_pad)%Z
  /\ (y1_pad <= y1 /\ y2 <= y2_pad /\ x1_pad <= x1 /\ x2 <= x2_pad)%Z
  /\ (y1 - y1_pad <= pad /\ y2_pad - y2 <= pad
      /\ x1 - x1_pad <= pad /\ x2_pad - x2 <= pad)%Z
  /\ (0 < y2_pad - y1_pad /\ 0 < x2_pad - x1_pad)%Z
  /\ (0 < size (crop_of pad image_np (x1, y1, x2, y2)))%Z.
Proof.
  intros height width y1_pad y2_pad x1_pad x2_pad.
  unfold Spec.box_in_image in Hbox; fold height width in Hbox, Hheight, Hwidth.
  destruct Hbox as (Hx & Hx2 & Hy & Hy2).
  assert (Hrect : padded_rect pad image_np (x1, y1, x2, y2)
                  = (y1_pad, y2_pad, x1_pad, x2_pad))
    by (apply Region.padded_rect_plain; unfold Spec.in_range; lia).
  assert (Hcrop : crop_of pad image_np (x1, y1, x2, y2)
                  = Crop image_np y1_pad y2_pad x1_pad x2_pad)
    by (unfold crop_of; now rewrite Hrect).
  assert (Hshape : shape (crop_of pad image_np (x1, y1, x2, y2))
                   = (y2_pad - y1_pad, x2_pad - x1_pad)%Z).
  { rewrite Hcrop; cbn [shape]; fold height width.
    unfold Np.slice_len, Np.slice.
    rewrite !Region.adjust_plain by lia.
    f_equal; lia. }
  split; [exact Hcrop|]; split; [exact Hshape|].
  split; [lia|]; split; [lia|]; split; [lia|].
  unfold size; rewrite Hshape; cbn [fst snd].
  assert (0 < (y2_pad - y1_pad) * (x2_pad - x1_pad))%Z
    by (apply Z.mul_pos_pos; lia).
  lia.
Qed.

(** A plate in the bottom-right corner of a 480 x 640 image, padded by 4. *)
Lemma crop_of_box_in_image_witness :
  shape (crop_of 4 Demo.img (600, 460, 640, 480)%Z) = (24, 44)%Z.
Proof.
  destruct (crop_of_box_in_image 4 Demo.img 600 460 640 480) as (_ & H & _).
  - cbv; repeat split; discriminate.
  - cbv; split; reflexivity.
  - cbv; split; reflexivity.
  - cbv; split; reflexivity.
  - exact H.
Defined.

(** X8. A stray box is not always caught by the empty-crop test: for a box
    above the image, with [y2 + pad] negative but not below [-height],
    NumPy counts the stop bound from the bottom edge, so the crop has
    [height + y2 + pad] rows starting at row 0. With the columns in the
    image that crop is not empty, so the test [crop.size == 0] does not
    catch the box. *)
Theorem box_above_image_wraps_around
    (pad : Z) (image_np : image) (x1 y1 x2 y2 : Z)
    (Hpad : (0 < pad < 2 ^ 62)%Z)
    (Hheight : (0 < fst (shape image_np) < 2 ^ 62)%Z)
    (Hwidth : (0 < snd (shape image_np) < 2 ^ 62)%Z)
    (Hcols : (0 <= x1 <= x2 /\ x2 <= snd (shape image_np))%Z)
    (Hrows : (- 2 ^ 62 <= y1 <= y2)%Z)
    (Habove : (- fst (shape image_np) < y2 + pad < 0)%Z) :
  let height := fst (shape image_np) in
  Np.slice height (Z.max 0 (y1 - pad)) (Z.min height (y2 + pad))
    = (0, height + (y2 + pad))%Z
  /\ fst (shape (crop_of pad image_np (x1, y1, x2, y2))) = (height + (y2 + pad))%Z
  /\ (0 < size (crop_of pad image_np (x1, y1, x2, y2)))%Z.
Proof.
  intros height; fold height in Hheight, Habove.
  set (width := snd (shape image_np)) in *.
  assert (Hrect : padded_rect pad image_np (x1, y1, x2, y2)
                  = (Z.max 0 (y1 - pad), Z.min height (y2 + pad),
                     Z.max 0 (x1 - pad), Z.min width (x2 + pad)))
    by (apply Region.padded_rect_plain; unfold Spec.in_range; lia).
  assert (Hy1 : Z.max 0 (y1 - pad) = 0%Z) by lia.
  assert (Hy2 : Z.min height (y2 + pad) = (y2 + pad)%Z) by lia.
  assert (Hslice : Np.slice height (Z.max 0 (y1 - pad)) (Z.min height (y2 + pad))
                   = (0, height + (y2 + pad))%Z).
  { unfold Np.slice; rewrite Hy1, Hy2.
    rewrite Region.adjust_plain by lia.
    rewrite Region.adjust_negative by lia; reflexivity. }
  assert (Hshape : shape (crop_of pad image_np (x1, y1, x2, y2))
                   = (height + (y2 + pad),
                      Z.min width (x2 + pad) - Z.max 0 (x1 - pad))%Z).
  { unfold crop_of; rewrite Hrect; cbn [shape]; fold height width.
    unfold Np.slice_len at 1; rewrite Hslice.
    unfold Np.slice_len, Np.slice.
    rewrite !Region.adjust_plain by lia.
    f_equal; lia. }
  split; [exact Hslice|]; split; [now rewrite Hshape|].
  unfold size; rewrite Hshape; cbn [fst snd].
  assert (0 < (height + (y2 + pad)) * (Z.min width (x2 + pad) - Z.max 0 (x1 - pad)))%Z
    by (apply Z.mul_pos_pos; lia).
  lia.
Qed.

(** A box wholly above a 480 x 640 image: the crop has 474 rows. *)
Lemma box_above_image_wraps_around_witness :
  shape (crop_of 4 Demo.img (100, -60, 300, -10)%Z) = (474, 208)%Z
  /\ (0 < size (crop_of 4 Demo.img (100, -60, 300, -10)%Z))%Z.
Proof.
  destruct (box_above_image_wraps_around 4 Demo.img 100 (-60) 300 (-10))
    as (_ & _ & H).
  - cbv; split; reflexivity.
  - cbv; split; reflexivity.
  - cbv; split; reflexivity.
  - cbv; repeat split; discriminate.
  - cbv; split; discriminate.
  - cbv; split; reflexivity.
  - split; [reflexivity | exact H].
Defined.

(** ** The service, request by request *)

Module Counting.
Import Spec.

Lemma count_cons p e l :
  count p (e :: l) = ((if p e then 1 else 0) + count p l)%nat.
Proof. unfold count; cbn [filter]; now destruct (p e). Qed.

Lemma count_nil p : count p [] = 0%nat.
Proof. reflexivity. Qed.

Lemma count_app p a b : count p (a ++ b) = (count p a + count p b)%nat.
Proof. unfold count; now rewrite filter_app, length_app. Qed.

End Counting.

Section Requests.

Context {U : Py.Unicode}.

(** X9. An upload that is missing, unnamed, or for whose bytes the decoder
    returns no image, is answered with status 400 and its own message before
    any model or file is touched; and status 400 is given for nothing else.
    When the decoder raises instead, as on a buffer without bytes, the
    request ends with that exception and no answer. *)
Theorem bad_upload_is_rejected
    (E : world) (yolo_model : image -> outcome (list box))
    (reader : image -> outcome (list span)) (req : App.request) :
  let r := App.process E yolo_model reader req in
  (App.files_image req = None ->
   r = ([], Returns ([("error", "No image uploaded")], 400%Z)))
  /\ (forall f, App.files_image req = Some f -> App.filename f = "" ->
      r = ([], Returns ([("error", "Empty filename")], 400%Z)))
  /\ (forall f, App.files_image req = Some f -> App.filename f <> "" ->
      imdecode E (App.content f) = Returns None ->
      r = ([], Returns ([("error", "Could not decode image")], 400%Z)))
  /\ (forall f e, App.files_image req = Some f -> App.filename f <> "" ->
      imdecode E (App.content f) = Raises e ->
      r = ([], Raises e))
  /\ (forall body, result r = Returns (body, 400%Z) ->
      log r = []
      /\ (App.files_image req = None
          \/ exists f, App.files_image req = Some f
                       /\ (App.filename f = ""
                           \/ imdecode E (App.content f) = Returns None))).
Proof.
  intros r; subst r.
  destruct req as [[[name file_bytes]|]]; cbn [App.files_image].
  2:{ repeat split; try discriminate; auto. }
  destruct (Py.eqb name "") eqn:Hname.
  - apply Chars.eqb_eq in Hname; subst name.
    repeat split; try discriminate; try reflexivity.
    + intros f Hf Hne; injection Hf as <-; cbn in Hne; congruence.
    + intros f e Hf Hne; injection Hf as <-; cbn in Hne; congruence.
    + right; eexists; split; [reflexivity | left; reflexivity].
  - assert (Hne : name <> "") by (now apply Chars.eqb_neq).
    rewrite (Service.process_undecoded E yolo_model reader name file_bytes Hname).
    destruct (imdecode E file_bytes) as [[image_np|]|e] eqn:Hdecode.
    + rewrite (Service.process_decoded E yolo_model reader name file_bytes
                 image_np Hname Hdecode).
      split; [discriminate|].
      split; [intros f Hf Hfn; injection Hf as <-; cbn in Hfn; congruence|].
      split; [intros f Hf _ Hd; injection Hf as <-; cbn in Hd; congruence|].
      split; [intros f e Hf _ Hd; injection Hf as <-; cbn in Hd; congruence|].
      intros body Hbody; exfalso; revert Hbody.
      destruct (yolo_model image_np) as [[|b rest]|e]; cbv zeta;
        try discriminate.
      destruct (size (crop_of 4 image_np b) =? 0)%Z.
      * unfold result at 1; cbn [snd]; intros H.
        apply (Service.finish_facts E image_np b "Crop Error") in H.
        destruct H as [H _]; discriminate H.
      * destruct (reader (crop_of 4 image_np b)) as [raw|e]; try discriminate.
        unfold result at 1; cbn [snd]; intros H.
        apply (Service.finish_facts E image_np b (App.plate_text raw)) in H.
        destruct H as [H _]; discriminate H.
    + repeat split; try discriminate; try reflexivity.
      * intros f Hf Hfn; injection Hf as <-; cbn in Hfn; congruence.
      * intros f e Hf _ Hd; injection Hf as <-; cbn in Hd; congruence.
      * right; eexists; split; [reflexivity | right; exact Hdecode].
    + repeat split; try discriminate.
      * intros f Hf Hfn; injection Hf as <-; cbn in Hfn; congruence.
      * intros f Hf _ Hd; injection Hf as <-; cbn in Hd; congruence.
      * intros f e' Hf _ Hd; injection Hf as <-; cbn in Hd; congruence.
Qed.

(** X10. Within one request the service runs the detector at most once and
    the recogniser at most once, writes at most two images and draws at most
    one receipt; the recogniser is never run without the detector, and a
    receipt is drawn only in a request that wrote both images. It answers with
    status 200 or 400 only, and a 200 either says that no plate was detected
    or carries the plate that the saved receipt shows. *)
Theorem service_call_discipline
    (E : world) (yolo_model : image -> outcome (list box))
    (reader : image -> outcome (list span)) (req : App.request) :
  let r := App.process E yolo_model reader req in
  ((Spec.count Spec.is_detect (log r) <= 1)%nat
   /\ (Spec.count Spec.is_readtext (log r) <= 1)%nat
   /\ (Spec.count Spec.is_imwrite (log r) <= 2)%nat
   /\ (Spec.count Spec.is_slip (log r) <= 1)%nat)
  /\ (Spec.count Spec.is_readtext (log r) = 1%nat ->
      Spec.count Spec.is_detect (log r) = 1%nat)
  /\ (Spec.count Spec.is_slip (log r) = 1%nat ->
      Spec.count Spec.is_imwrite (log r) = 2%nat
      /\ Spec.count Spec.is_detect (log r) = 1%nat)
  /\ (forall body st, result r = Returns (body, st) ->
      st = 200%Z \/ st = 400%Z)
  /\ (forall body, result r = Returns (body, 200%Z) ->
      body = [("error", "No number plate detected in image")]
      \/ exists plate,
           In ("plate", plate) body /\ slip_shows (log r) plate).
Proof.
  intros r; subst r.
  assert (Hquiet : forall res,
            (forall body st, res = Returns (body, st) -> st = 400%Z) ->
            let r : M App.response := ([], res) in
            ((Spec.count Spec.is_detect (log r) <= 1)%nat
             /\ (Spec.count Spec.is_readtext (log r) <= 1)%nat
             /\ (Spec.count Spec.is_imwrite (log r) <= 2)%nat
             /\ (Spec.count Spec.is_slip (log r) <= 1)%nat)
            /\ (Spec.count Spec.is_readtext (log r) = 1%nat ->
                Spec.count Spec.is_detect (log r) = 1%nat)
            /\ (Spec.count Spec.is_slip (log r) = 1%nat ->
                Spec.count Spec.is_imwrite (log r) = 2%nat
                /\ Spec.count Spec.is_detect (log r) = 1%nat)
            /\ (forall body st, result r = Returns (body, st) ->
                st = 200%Z \/ st = 400%Z)
            /\ (forall body, result r = Returns (body, 200%Z) ->
                body = [("error", "No number plate detected in image")]
                \/ exists plate,
                     In ("plate", plate) body /\ slip_shows (log r) plate)).
  { intros res Hres r; subst r; unfold log, result; cbn [fst snd].
    cbn; repeat split; try lia; try discriminate.
    - intros body st H; right; exact (Hres _ _ H).
    - intros body H; apply Hres in H; discriminate H. }
  destruct req as [[[name file_bytes]|]].
  2:{ apply Hquiet; intros body st H; now injection H as _ <-. }
  destruct (Py.eqb name "") eqn:Hname.
  { assert (Hp : App.process E yolo_model reader
                   {| App.files_image :=
                        Some {| App.filename := name; App.content := file_bytes |} |}
                 = ([], Returns ([("error", "Empty filename")], 400%Z)))
      by (unfold App.process; cbn [App.files_image App.filename]; now rewrite Hname).
    rewrite Hp; apply Hquiet; intros body st H; now injection H as _ <-. }
  rewrite (Service.process_undecoded E yolo_model reader name file_bytes Hname).
  destruct (imdecode E file_bytes) as [[image_np|]|e] eqn:Hdecode.
  2:{ apply Hquiet; intros body st H; now injection H as _ <-. }
  2:{ apply Hquiet; intros body st H; discriminate H. }
  clear Hquiet.
  rewrite (Service.process_decoded E yolo_model reader name file_bytes
             image_np Hname Hdecode).
  destruct (yolo_model image_np) as [[|b rest]|e]; cbv zeta.
  - unfold log, result; cbn; repeat split; try lia; try discriminate.
    + intros body st H; injection H as _ <-; now left.
    + intros body H; injection H as <-; now left.
  - destruct (size (crop_of 4 image_np b) =? 0)%Z.
    + destruct (Service.finish_facts E image_np b "Crop Error" (crop_of 4 image_np b))
        as (Hd & Hr & Hi & Hs & Hsi & Hres).
      unfold log, result in *; cbn [fst snd].
      rewrite !Counting.count_cons; cbn [Spec.is_detect Spec.is_readtext
        Spec.is_imwrite Spec.is_slip].
      split; [repeat split; lia|]; split; [lia|]; split; [|split].
      * intros H; split; [apply Hsi|]; lia.
      * intros body st H; destruct (Hres _ _ H) as [-> _]; now left.
      * intros body H; destruct (Hres _ _ H) as (_ & -> & _ & Hshow).
        right; exists "Crop Error"; split; [left; reflexivity|].
        destruct Hshow as (path & c & Hin & Htxt).
        exists path, c; split; [right; exact Hin | exact Htxt].
    + destruct (reader (crop_of 4 image_np b)) as [raw|e].
      * destruct (Service.finish_facts E image_np b (App.plate_text raw)
                    (crop_of 4 image_np b))
          as (Hd & Hr & Hi & Hs & Hsi & Hres).
        unfold log, result in *; cbn [fst snd].
        rewrite !Counting.count_cons; cbn [Spec.is_detect Spec.is_readtext
          Spec.is_imwrite Spec.is_slip].
        split; [repeat split; lia|]; split; [lia|]; split; [|split].
        -- intros H; split; [apply Hsi|]; lia.
        -- intros body st H; destruct (Hres _ _ H) as [-> _]; now left.
        -- intros body H; destruct (Hres _ _ H) as (_ & -> & _ & Hshow).
           right; exists (App.plate_text raw); split; [left; reflexivity|].
           destruct Hshow as (path & c & Hin & Htxt).
           exists path, c; split; [right; right; exact Hin | exact Htxt].
      * unfold log, result; cbn; repeat split; try lia; discriminate.
  - unfold log, result; cbn; repeat split; try lia; discriminate.
Qed.

(** X11. The service has no handler of its own: when the decoder, the
    detector or the recogniser raises, the request ends with that exception
    and nothing has been written; and every exception a request ends with
    was raised by the decoder, the detector, the recogniser, an image write
    or the save of the receipt. *)
Theorem service_propagates_collaborator_errors
    (E : world) (yolo_model : image -> outcome (list box))
    (reader : image -> outcome (list span))
    (name : Py.str) (file_bytes : string)
    (Hname : Py.eqb name "" = false) :
  let r := App.process E yolo_model reader
             {| App.files_image :=
                  Some {| App.filename := name; App.content := file_bytes |} |} in
  (forall e, imdecode E file_bytes = Raises e -> r = ([], Raises e))
  /\ (forall image_np e,
        imdecode E file_bytes = Returns (Some image_np) ->
        yolo_model image_np = Raises e ->
        r = ([EvDetect image_np], Raises e))
  /\ (forall image_np b rest e,
        imdecode E file_bytes = Returns (Some image_np) ->
        yolo_model image_np = Returns (b :: rest) ->
        size (crop_of 4 image_np b) <> 0%Z ->
        reader (crop_of 4 image_np b) = Raises e ->
        r = ([EvDetect image_np; EvReadtext (crop_of 4 image_np b)], Raises e))
  /\ (forall e, result r = Raises e ->
        imdecode E file_bytes = Raises e
        \/ exists image_np,
             imdecode E file_bytes = Returns (Some image_np)
             /\ (yolo_model image_np = Raises e
                 \/ (exists b rest, yolo_model image_np = Returns (b :: rest)
                                    /\ reader (crop_of 4 image_np b) = Raises e)
                 \/ (exists path img, In (EvImwrite path img) (log r)
                                      /\ imwrite E path img = Raises e)
                 \/ (exists path c, In (EvSlip path c) (log r)
                                    /\ save E path c = Raises e))).
Proof.
  intros r; subst r.
  assert (Hfin : forall image_np b plate crop e,
            result (Spec.finish E image_np b plate crop) = Raises e ->
            (exists path img,
                In (EvImwrite path img) (log (Spec.finish E image_np b plate crop))
                /\ imwrite E path img = Raises e)
            \/ (exists path c,
                   In (EvSlip path c) (log (Spec.finish E image_np b plate crop))
                   /\ save E path c = Raises e)).
  { intros image_np [[[x1 y1] x2] y2] plate crop e; unfold Spec.finish.
    destruct (imwrite E Spec.anno_path _) eqn:H1;
      [destruct (imwrite E Spec.crop_path _) eqn:H2;
        [destruct (save E _ _) eqn:H3|]|];
      cbv zeta; unfold log, result; cbn [fst snd]; intros H;
      try discriminate H; injection H as ->.
    - right; do 2 eexists; split; [right; right; left; reflexivity | exact H3].
    - left; do 2 eexists; split; [right; left; reflexivity | exact H2].
    - left; do 2 eexists; split; [left; reflexivity | exact H1]. }
  split; [|split; [|split]].
  - intros e Hd.
    rewrite (Service.process_undecoded E yolo_model reader name file_bytes Hname).
    now rewrite Hd.
  - intros image_np e Hd Hy.
    rewrite (Service.process_decoded E yolo_model reader name file_bytes
               image_np Hname Hd).
    now rewrite Hy.
  - intros image_np b rest e Hd Hy Hsize Hr.
    rewrite (Service.process_decoded E yolo_model reader name file_bytes
               image_np Hname Hd).
    apply Z.eqb_neq in Hsize; rewrite Hy; cbv zeta; now rewrite Hsize, Hr.
  - intros e.
    rewrite (Service.process_undecoded E yolo_model reader name file_bytes Hname).
    destruct (imdecode E file_bytes) as [[image_np|]|e0] eqn:Hdecode.
    2:{ discriminate. }
    2:{ intros H; injection H as ->; now left. }
    rewrite (Service.process_decoded E yolo_model reader name file_bytes
               image_np Hname Hdecode).
    intros H; right; exists image_np; split; [reflexivity|]; revert H.
    destruct (yolo_model image_np) as [[|b rest]|e']; cbv zeta.
    + discriminate.
    + destruct (size (crop_of 4 image_np b) =? 0)%Z.
      * unfold result at 1, log at 1 2; cbn [fst snd]; intros H.
        destruct (Hfin _ _ _ _ _ H) as [(p & i & Hin & Hr)|(p & c & Hin & Hr)].
        -- right; right; left; exists p, i; split; [right; exact Hin | exact Hr].
        -- right; right; right; exists p, c; split; [right; exact Hin | exact Hr].
      * destruct (reader (crop_of 4 image_np b)) as [raw|e''] eqn:Hrd.
        -- unfold result at 1, log at 1 2; cbn [fst snd]; intros H.
           destruct (Hfin _ _ _ _ _ H) as [(p & i & Hin & Hr)|(p & c & Hin & Hr)].
           ++ right; right; left; exists p, i; split;
                [right; right; exact Hin | exact Hr].
           ++ right; right; right; exists p, c; split;
                [right; right; exact Hin | exact Hr].
        -- intros H; injection H as ->.
           right; left; exists b, rest; split; [reflexivity | exact Hrd].
    + intros H; injection H as ->; now left.
Qed.

(** X12. When a box is found, its crop is not empty and every collaborator
    returns, the service answers 200 with the reading, the entry time, the
    fee and the three URLs, after running the detector and the recogniser
    once each, writing the annotated image and the crop, and saving a
    receipt that shows the reading of the answer. This holds for every
    recogniser output: when nothing survives the filter the receipt and the
    answer read "No text detected". *)
Theorem service_success_response
    (E : world) (yolo_model : image -> outcome (list box))
    (reader : image -> outcome (list span))
    (name : Py.str) (file_bytes : string) (image_np : image)
    (x1 y1 x2 y2 : Z) (rest : list box) (raw : list span) (w1 w2 : bool)
    (Hname : Py.eqb name "" = false)
    (Hdecode : imdecode E file_bytes = Returns (Some image_np))
    (Hbox : yolo_model image_np = Returns ((x1, y1, x2, y2) :: rest))
    (Hsize : size (crop_of 4 image_np (x1, y1, x2, y2)) <> 0%Z)
    (Hread : reader (crop_of 4 image_np (x1, y1, x2, y2)) = Returns raw)
    (Hw1 : imwrite E "static/slips/annotated_latest.jpg"
             (Boxed image_np (x1, y1) (x2, y2) (124, 58, 237)%Z 3) = Returns w1)
    (Hw2 : imwrite E "static/slips/crop_latest.jpg"
             (crop_of 4 image_np (x1, y1, x2, y2)) = Returns w2)
    (Hsave : save E ("static/slips/"
                     ++ Spec.slip_file_name (App.plate_text raw) (now E))
                    (App.slip_canvas E (App.plate_text raw) (now E)) = Returns tt) :
  let crop := crop_of 4 image_np (x1, y1, x2, y2) in
  let plate := App.plate_text raw in
  let r := App.process E yolo_model reader
             {| App.files_image :=
                  Some {| App.filename := name; App.content := file_bytes |} |} in
  r = ([ EvDetect image_np;
         EvReadtext crop;
         EvImwrite "static/slips/annotated_latest.jpg"
           (Boxed image_np (x1, y1) (x2, y2) (124, 58, 237)%Z 3);
         EvImwrite "static/slips/crop_latest.jpg" crop;
         EvSlip ("static/slips/" ++ Spec.slip_file_name plate (now E))
           (App.slip_canvas E plate (now E)) ],
       Returns
         ([ ("plate", plate);
            ("entry_time", Time.strftime "%d %b %Y, %H:%M:%S" (now E));
            ("fee", "Rs. 30.00");
            ("slip_url", "/static/slips/" ++ Spec.slip_file_name plate (now E));
            ("anno_url", "/static/slips/annotated_latest.jpg");
            ("crop_url", "/static/slips/crop_latest.jpg") ], 200%Z))
  /\ slip_shows (log r) plate
  /\ (Spec.surviving raw = [] -> plate = "No text detected").
Proof.
  intros crop plate r; subst r.
  rewrite (Service.process_decoded E yolo_model reader name file_bytes
             image_np Hname Hdecode), Hbox.
  cbv zeta; fold crop.
  apply Z.eqb_neq in Hsize; fold crop in Hsize, Hread, Hw2; rewrite Hsize, Hread.
  fold plate; fold plate in Hsave.
  unfold Spec.finish, Spec.anno_path, Spec.crop_path.
  rewrite Hw1, Hw2, Hsave; unfold log, result; cbn [fst snd].
  split; [reflexivity|]; split.
  - do 2 eexists; split; [do 4 right; left; reflexivity|].
    rewrite Slip.app_drawn_texts; simpl; tauto.
  - intros Hs; unfold plate; rewrite Filter.app_plate_text_cases, Hs; reflexivity.
Qed.

(** X20. On a crop without pixels the service skips the recogniser and
    goes on to its writes with the reading "Crop Error": when the write of
    the annotated image returns and the write of the crop raises, as
    OpenCV's does on an image without pixels, the request ends with that
    exception after the two writes, with no receipt drawn and no answer. *)
Theorem service_raises_on_empty_crop
    (E : world) (yolo_model : image -> outcome (list box))
    (reader : image -> outcome (list span))
    (name : Py.str) (file_bytes : string) (image_np : image)
    (x1 y1 x2 y2 : Z) (rest : list box) (w1 : bool) (e : Py.str)
    (Hname : Py.eqb name "" = false)
    (Hdecode : imdecode E file_bytes = Returns (Some image_np))
    (Hbox : yolo_model image_np = Returns ((x1, y1, x2, y2) :: rest))
    (Hsize : size (crop_of 4 image_np (x1, y1, x2, y2)) = 0%Z)
    (Hw1 : imwrite E "static/slips/annotated_latest.jpg"
             (Boxed image_np (x1, y1) (x2, y2) (124, 58, 237)%Z 3) = Returns w1)
    (Hw2 : imwrite E "static/slips/crop_latest.jpg"
             (crop_of 4 image_np (x1, y1, x2, y2)) = Raises e) :
  let crop := crop_of 4 image_np (x1, y1, x2, y2) in
  let r := App.process E yolo_model reader
             {| App.files_image :=
                  Some {| App.filename := name; App.content := file_bytes |} |} in
  r = ([ EvDetect image_np;
         EvImwrite "static/slips/annotated_latest.jpg"
           (Boxed image_np (x1, y1) (x2, y2) (124, 58, 237)%Z 3);
         EvImwrite "static/slips/crop_latest.jpg" crop ],
       Raises e)
  /\ no_readtext (log r)
  /\ no_slip (log r).
Proof.
  intros crop r; subst r.
  rewrite (Service.process_decoded E yolo_model reader name file_bytes
             image_np Hname Hdecode), Hbox.
  cbv zeta; fold crop.
  apply Z.eqb_eq in Hsize; fold crop in Hsize, Hw2; rewrite Hsize.
  unfold Spec.finish, Spec.anno_path, Spec.crop_path.
  rewrite Hw1, Hw2; unfold log, result; cbn [fst snd].
  split; [reflexivity|]; split.
  - apply Log.no_readtext_iff; reflexivity.
  - apply Log.no_slip_iff; reflexivity.
Qed.

End Requests.

(** A detector that runs out of memory, and an upload without bytes. *)
Lemma service_propagates_collaborator_errors_witness :
  App.process Demo.installation Sample.yolo_broken Demo.ocr_abc Demo.request
  = ([EvDetect Demo.img], Raises "CUDA out of memory")
  /\ App.process Demo.installation Demo.yolo_plate Demo.ocr_abc
       {| App.files_image :=
            Some {| App.filename := "car.jpg"; App.content := EmptyString |} |}
     = ([], Raises "the buffer is empty").
Proof.
  destruct (service_propagates_collaborator_errors Demo.installation
              Sample.yolo_broken Demo.ocr_abc "car.jpg" Demo.jpeg
              eq_refl) as (_ & H & _).
  destruct (service_propagates_collaborator_errors Demo.installation
              Demo.yolo_plate Demo.ocr_abc "car.jpg" EmptyString
              eq_refl) as (H' & _).
  split; [exact (H _ _ eq_refl eq_refl) | exact (H' _ eq_refl)].
Defined.

(** The sample installation with a plate that reads ["ABC123"]. *)
Lemma service_success_response_witness :
  result (App.process Demo.installation Demo.yolo_plate Demo.ocr_abc Demo.request)
  = Returns
      ([ ("plate", "ABC123");
         ("entry_time", "07 Mar 2024, 09:05:00");
         ("fee", "Rs. 30.00");
         ("slip_url", "/static/slips/slip_ABC123_20240307_090500.png");
         ("anno_url", "/static/slips/annotated_latest.jpg");
         ("crop_url", "/static/slips/crop_latest.jpg") ], 200%Z).
Proof.
  destruct (service_success_response Demo.installation Demo.yolo_plate
              Demo.ocr_abc "car.jpg" Demo.jpeg Demo.img 100 200 300 260 []
              [sp "ABC 123" 0.9] true true
              eq_refl eq_refl eq_refl ltac:(vm_compute; discriminate) eq_refl
              ltac:(vm_compute; reflexivity) ltac:(vm_compute; reflexivity)
              ltac:(vm_compute; reflexivity)) as [H _].
  exact (f_equal snd H).
Defined.

(** A box beside the image in the sample installation, whose image write
    refuses an image without pixels. *)
Lemma service_raises_on_empty_crop_witness :
  App.process Demo.installation Demo.yolo_outside Demo.ocr_abc Demo.request
  = ([ EvDetect Demo.img;
       EvImwrite "static/slips/annotated_latest.jpg"
         (Boxed Demo.img (700, 200)%Z (800, 260)%Z (124, 58, 237)%Z 3);
       EvImwrite "static/slips/crop_latest.jpg"
         (crop_of 4 Demo.img (700, 200, 800, 260)%Z) ],
     Raises Demo.no_pixels).
Proof.
  destruct (service_raises_on_empty_crop Demo.installation Demo.yolo_outside
              Demo.ocr_abc "car.jpg" Demo.jpeg Demo.img 700 200 800 260 []
              true Demo.no_pixels
              eq_refl eq_refl eq_refl eq_refl eq_refl eq_refl) as [H _].
  exact H.
Defined.

(** ** The page, run by run *)

Module CropError.
Import Spec.

Section Database.

Context {U : Py.Unicode}.

Lemma app_reading_is_not_crop_error raw : App.plate_text raw <> "Crop Error".
Proof.
  rewrite Filter.app_plate_text_cases.
  destruct (surviving raw) eqn:Hs; [discriminate|].
  rewrite <- Hs; apply Filter.join_not_sentinel; reflexivity.
Qed.

Lemma main_reading_is_not_crop_error raw : Main.plate_text raw <> "Crop Error".
Proof.
  rewrite Filter.main_plate_text_cases.
  destruct (surviving raw) eqn:Hs; [destruct raw; discriminate|].
  rewrite <- Hs; apply Filter.join_not_sentinel; reflexivity.
Qed.

End Database.

End CropError.

Module Runs.
Import Spec.

Section Database.

Context {U : Py.Unicode}.

(** A reading that passes the success test was joined from surviving
    texts. *)
Lemma reading_of_success raw :
  Main.is_success (Main.plate_text raw) = true ->
  surviving raw <> [] /\ Main.plate_text raw = Py.join " " (surviving raw).
Proof.
  rewrite Filter.main_plate_text_cases.
  pose proof Page.recognition_empty_fails; pose proof Page.recognition_filtered_fails.
  destruct (surviving raw) as [|x r]; [destruct raw; congruence|].
  intros _; split; [discriminate | reflexivity].
Qed.

(** The results column never raises. *)
Lemma results_column_returns E uploaded ym er :
  result (Main.results_column E uploaded ym er) = Returns tt.
Proof.
  destruct uploaded as [file_bytes|]; [|reflexivity].
  destruct ym as [yolo|]; [|reflexivity].
  destruct er as [rd|]; [|reflexivity].
  rewrite Interactive.results_undecoded.
  destruct (imdecode E file_bytes) as [[image_np|]|e] eqn:Hdecode;
    [|reflexivity|reflexivity].
  destruct (Interactive.detect_quiet image_np (Some yolo) (Some rd))
    as (l & d & Hd & _).
  now rewrite (Interactive.results_after_detection _ _ _ _ _ _ _ Hdecode Hd).
Qed.

(** What [detect_and_ocr] returned when its plate passes the success
    test. *)
Lemma detection_of_success image_np yolo rd l b plate c p :
  Main.detect_and_ocr image_np (Some yolo) (Some rd)
    = (l, Returns (b, plate, c, p)) ->
  Main.is_success plate = true ->
  exists b0 rest raw,
    yolo image_np = Returns (b0 :: rest)
    /\ size (crop_of 2 image_np b0) <> 0%Z
    /\ rd (crop_of 2 image_np b0) = Returns raw
    /\ plate = Main.plate_text raw.
Proof.
  rewrite Interactive.detect_loaded.
  pose proof Page.crop_error_fails; pose proof Page.processing_error_fails;
    pose proof Page.no_plate_fails.
  destruct (yolo image_np) as [[|b0 rest]|e]; cbv zeta.
  - intros Hd; injection Hd as _ _ <- _ _; congruence.
  - destruct (size (crop_of 2 image_np b0) =? 0)%Z eqn:Hsize.
    + intros Hd; injection Hd as _ _ <- _ _; congruence.
    + apply Z.eqb_neq in Hsize.
      destruct (rd (crop_of 2 image_np b0)) as [raw|e] eqn:Hr;
        intros Hd; injection Hd as _ _ <- _ _; [|congruence].
      intros _; exists b0, rest, raw; auto.
  - intros Hd; injection Hd as _ _ <- _ _; congruence.
Qed.

End Database.

End Runs.

Section Page.

Context {U : Py.Unicode}.

(** X13. Only the first box of the detector's output is used: the service's
    answer and the page's result are the same whatever boxes follow it. *)
Theorem only_first_box_is_used
    (E : world) (reader : image -> outcome (list span))
    (yolo_model yolo_model' : image -> outcome (list box))
    (name : Py.str) (file_bytes : string) (image_np : image)
    (b : box) (rest rest' : list box)
    (Hdecode : imdecode E file_bytes = Returns (Some image_np))
    (Hboxes : yolo_model image_np = Returns (b :: rest))
    (Hboxes' : yolo_model' image_np = Returns (b :: rest')) :
  let req := {| App.files_image :=
                  Some {| App.filename := name; App.content := file_bytes |} |} in
  App.detect_plate yolo_model image_np = ([EvDetect image_np], Returns (Some b))
  /\ App.process E yolo_model reader req = App.process E yolo_model' reader req
  /\ Main.detect_and_ocr image_np (Some yolo_model) (Some reader)
     = Main.detect_and_ocr image_np (Some yolo_model') (Some reader)
  /\ Main.results_column E (Some file_bytes) (Some yolo_model) (Some reader)
     = Main.results_column E (Some file_bytes) (Some yolo_model') (Some reader).
Proof.
  intros req.
  assert (Hd : Main.detect_and_ocr image_np (Some yolo_model) (Some reader)
               = Main.detect_and_ocr image_np (Some yolo_model') (Some reader))
    by (rewrite !Interactive.detect_loaded, Hboxes, Hboxes'; reflexivity).
  split; [|split; [|split; [exact Hd|]]].
  - unfold App.detect_plate, call, bind; rewrite Hboxes; reflexivity.
  - unfold req; destruct (Py.eqb name "") eqn:Hname.
    + unfold App.process; cbn [App.files_image App.filename App.content].
      now rewrite Hname.
    + rewrite !(Service.process_decoded E _ reader name file_bytes image_np
                  Hname Hdecode).
      now rewrite Hboxes, Hboxes'.
  - destruct (Interactive.detect_quiet image_np (Some yolo_model) (Some reader))
      as (l & d & Hq & _).
    rewrite (Interactive.results_after_detection _ _ _ _ _ _ _ Hdecode Hq).
    rewrite Hd in Hq.
    now rewrite (Interactive.results_after_detection _ _ _ _ _ _ _ Hdecode Hq).
Qed.

(** X14. "Crop Error" is reported exactly when the crop of the first box is
    empty, and the recogniser is run exactly when it is not: in the service
    for the crop padded by 4, on the page for the crop padded by 2. *)
Theorem crop_error_iff_empty_crop
    (reader : image -> outcome (list span))
    (yolo_model : image -> outcome (list box))
    (image_np : image) (b : box) (rest : list box)
    (Hbox : yolo_model image_np = Returns (b :: rest)) :
  let service := App.extract_text reader image_np b in
  let page := Main.detect_and_ocr image_np (Some yolo_model) (Some reader) in
  (size (crop_of 4 image_np b) = 0%Z
   <-> service = ([], Returns ("Crop Error", crop_of 4 image_np b)))
  /\ (size (crop_of 4 image_np b) <> 0%Z
      <-> log service = [EvReadtext (crop_of 4 image_np b)])
  /\ (forall plate crop, result service = Returns (plate, crop) ->
      (plate = "Crop Error" <-> size (crop_of 4 image_np b) = 0%Z))
  /\ (size (crop_of 2 image_np b) = 0%Z
      <-> page = ([EvDetect image_np],
                  Returns (Some b, "Crop Error",
                           Some (crop_of 2 image_np b), Some (crop_of 2 image_np b))))
  /\ (size (crop_of 2 image_np b) <> 0%Z
      <-> In (EvReadtext (crop_of 2 image_np b)) (log page))
  /\ (forall box plate c p, result page = Returns (box, plate, c, p) ->
      (plate = "Crop Error" <-> size (crop_of 2 image_np b) = 0%Z)).
Proof.
  intros service page; subst service page; split; [|split; [|split]].
  - unfold App.extract_text, call, bind, ret; cbv zeta.
    destruct (size (crop_of 4 image_np b) =? 0)%Z eqn:H4;
      [apply Z.eqb_eq in H4 | apply Z.eqb_neq in H4].
    + split; [reflexivity | intros _; exact H4].
    + split; [contradiction|].
      destruct (reader (crop_of 4 image_np b)); intros H; discriminate H.
  - unfold App.extract_text, call, bind, ret; cbv zeta.
    destruct (size (crop_of 4 image_np b) =? 0)%Z eqn:H4;
      [apply Z.eqb_eq in H4 | apply Z.eqb_neq in H4].
    + split; [contradiction | intros H; discriminate H].
    + split; [|intros _; exact H4].
      destruct (reader (crop_of 4 image_np b)); reflexivity.
  - unfold App.extract_text, call, bind, ret; cbv zeta.
    destruct (size (crop_of 4 image_np b) =? 0)%Z eqn:H4;
      [apply Z.eqb_eq in H4 | apply Z.eqb_neq in H4].
    + intros plate crop H; injection H as <- <-.
      split; [intros _; exact H4 | reflexivity].
    + destruct (reader (crop_of 4 image_np b)) as [raw|e];
        intros plate crop H; [injection H as <- <- | discriminate H].
      split; [|contradiction].
      intros H; exfalso; exact (CropError.app_reading_is_not_crop_error _ H).
  - rewrite Interactive.detect_loaded, Hbox; cbv zeta.
    destruct (size (crop_of 2 image_np b) =? 0)%Z eqn:H2;
      [apply Z.eqb_eq in H2 | apply Z.eqb_neq in H2].
    + split; [split; [reflexivity | intros _; exact H2]|].
      split; [split; [contradiction|]|].
      * unfold log; cbn [fst]; intros [H|[]]; discriminate H.
      * intros box plate c p H; injection H as <- <- <- <-.
        split; [intros _; exact H2 | reflexivity].
    + split; [split; [contradiction|]|].
      { destruct (reader (crop_of 2 image_np b)); intros H; discriminate H. }
      split; [split; [|intros _; exact H2]|].
      * destruct (reader (crop_of 2 image_np b)); intros _;
          unfold log; cbn [fst]; right; left; reflexivity.
      * destruct (reader (crop_of 2 image_np b)) as [raw|e];
          intros box plate c p H; injection H as <- <- <- <-;
          (split; [|contradiction]); intros H; [|discriminate H].
        exfalso; exact (CropError.main_reading_is_not_crop_error _ H).
Qed.

(** X15. [detect_and_ocr] never raises: whatever the two models do it
    returns its four values, without writing or saving anything. Without a
    reader it returns "OCR Error (Reader not loaded)" and does not run the
    detector; when the detector raises it returns "Processing Error" with no
    box; when the recogniser raises it returns "Processing Error" with the
    box and the crop; in both it shows the exception's message. *)
Theorem detect_and_ocr_never_raises
    (image_np : image)
    (yolo_model : option (image -> outcome (list box)))
    (easyocr_reader : option (image -> outcome (list span))) :
  let r := Main.detect_and_ocr image_np yolo_model easyocr_reader in
  (exists d, result r = Returns d)
  /\ no_slip (log r)
  /\ Spec.count Spec.is_imwrite (log r) = 0%nat
  /\ (easyocr_reader = None ->
      r = ([], Returns (None, "OCR Error (Reader not loaded)", None, None)))
  /\ (forall yolo rd e,
        yolo_model = Some yolo -> easyocr_reader = Some rd ->
        yolo image_np = Raises e ->
        r = ([ EvDetect image_np;
               EvSt StError
                 ("⚠️ An error occurred during detection or EasyOCR processing: " ++ e) ],
             Returns (None, "Processing Error", None, None)))
  /\ (forall yolo rd b rest e,
        yolo_model = Some yolo -> easyocr_reader = Some rd ->
        yolo image_np = Returns (b :: rest) ->
        size (crop_of 2 image_np b) <> 0%Z ->
        rd (crop_of 2 image_np b) = Raises e ->
        r = ([ EvDetect image_np;
               EvReadtext (crop_of 2 image_np b);
               EvSt StError
                 ("⚠️ An error occurred during detection or EasyOCR processing: " ++ e) ],
             Returns (Some b, "Processing Error",
                      Some (crop_of 2 image_np b), Some (crop_of 2 image_np b)))).
Proof.
  intros r; subst r.
  destruct (Interactive.detect_quiet image_np yolo_model easyocr_reader)
    as (l & d & Hd & Hs & _ & Hi).
  split; [exists d; now rewrite Hd|].
  split; [rewrite Hd; apply Log.no_slip_iff, Log.existsb_filter; exact Hs|].
  split; [rewrite Hd; unfold Spec.count, log; cbn [fst]; now rewrite Hi|].
  split; [intros ->; reflexivity|]; split.
  - intros yolo rd e -> -> He.
    rewrite Interactive.detect_loaded, He; reflexivity.
  - intros yolo rd b rest e -> -> Hb Hsize He.
    apply Z.eqb_neq in Hsize.
    rewrite Interactive.detect_loaded, Hb; cbv zeta; rewrite Hsize, He.
    reflexivity.
Qed.

(** X16. On the page a receipt is only ever drawn for a genuine reading: if
    a receipt is saved in a run, then a file was uploaded and decoded, both
    models were loaded, the detector found a box, the recogniser returned
    spans of which some text survived the filter, and the receipt is the one
    of the joined reading, saved under the fixed name
    [generated_parking_slip.png] and showing that reading. *)
Theorem page_receipt_implies_reading
    (E : world) (uploaded_file : option string)
    (yolo_model : option (image -> outcome (list box)))
    (easy_ocr_reader : option (image -> outcome (list span)))
    (path : Py.str) (c : canvas)
    (Hslip : In (EvSlip path c)
               (log (Main.results_column E uploaded_file yolo_model easy_ocr_reader))) :
  exists file_bytes yolo rd image_np b rest raw,
    uploaded_file = Some file_bytes
    /\ yolo_model = Some yolo /\ easy_ocr_reader = Some rd
    /\ imdecode E file_bytes = Returns (Some image_np)
    /\ yolo image_np = Returns (b :: rest)
    /\ size (crop_of 2 image_np b) <> 0%Z
    /\ rd (crop_of 2 image_np b) = Returns raw
    /\ Spec.surviving raw <> []
    /\ path = "generated_parking_slip.png"
    /\ c = Main.slip_canvas E (Py.join " " (Spec.surviving raw)) (now E)
    /\ In (Py.join " " (Spec.surviving raw)) (drawn_texts (canvas_ops c)).
Proof.
  destruct uploaded_file as [file_bytes|];
    [|destruct Hslip as [H|[]]; discriminate H].
  destruct yolo_model as [yolo|];
    [|destruct Hslip as [H|[]]; discriminate H].
  destruct easy_ocr_reader as [rd|];
    [|destruct Hslip as [H|[]]; discriminate H].
  rewrite Interactive.results_undecoded in Hslip.
  destruct (imdecode E file_bytes) as [[image_np|]|e] eqn:Hdecode;
    [| destruct Hslip as [H|[]]; discriminate H
     | destruct Hslip as [H|[]]; discriminate H ].
  destruct (Interactive.detect_quiet image_np (Some yolo) (Some rd))
    as (l & [[[b plate] c0] p] & Hd & _).
  pose proof (Page.slips_of_run E file_bytes image_np yolo rd
                l b plate c0 p Hdecode Hd) as Hslips.
  assert (Hin : In (EvSlip path c)
                  (filter Spec.is_slip
                     (log (Main.results_column E (Some file_bytes) (Some yolo)
                             (Some rd)))))
    by (apply filter_In; split; [exact Hslip | reflexivity]).
  rewrite Hslips in Hin.
  destruct (Main.is_success plate) eqn:Hok; [|destruct Hin].
  destruct Hin as [Heq|[]]; injection Heq as <- <-.
  destruct (Runs.detection_of_success _ _ _ _ _ _ _ _ Hd Hok)
    as (b0 & rest & raw & Hy & Hsize & Hr & ->).
  destruct (Runs.reading_of_success raw Hok) as [Hne Hjoin].
  exists file_bytes, yolo, rd, image_np, b0, rest, raw.
  rewrite <- Hjoin.
  repeat (split; [solve [reflexivity | assumption]|]).
  rewrite Slip.main_drawn_texts, (Page.display_of_success _ Hok).
  simpl; tauto.
Qed.

(** X17. The page offers the receipt for download exactly when the result
    passes the success test, the save of the receipt returns and the saved
    file exists; the offered name holds the plate with spaces replaced and
    no space at all. When the save raises, the page shows the exception
    and offers nothing. *)
Theorem download_offered_only_when_saved
    (E : world) (file_bytes : string) (image_np : image)
    (yolo_model : image -> outcome (list box))
    (reader : image -> outcome (list span))
    (Hdecode : imdecode E file_bytes = Returns (Some image_np)) :
  let run := Main.results_column E (Some file_bytes) (Some yolo_model) (Some reader) in
  exists l b plate c p,
    Main.detect_and_ocr image_np (Some yolo_model) (Some reader)
      = (l, Returns (b, plate, c, p))
    /\ existsb Spec.is_download (log run)
       = Main.is_success plate
         && Spec.returned (save E "generated_parking_slip.png"
                             (Main.slip_canvas E plate (now E)))
         && path_exists E "generated_parking_slip.png"
    /\ (forall name, In (EvStDownload name) (log run) ->
        name = "Parking_Slip_" ++ Py.replace_space plate ++ "_"
               ++ Time.strftime "%Y%m%d_%H%M" (now E) ++ ".png"
        /\ Spec.no_space name = true)
    /\ (forall e,
        Main.is_success plate = true ->
        save E "generated_parking_slip.png" (Main.slip_canvas E plate (now E))
          = Raises e ->
        In (EvSt StError ("❌ Failed to save the parking slip image: " ++ e)) (log run)
        /\ In (EvSt StError "❌ Failed to generate or save the parking slip.") (log run)).
Proof.
  intros run; subst run.
  destruct (Interactive.detect_quiet image_np (Some yolo_model) (Some reader))
    as (l & [[[b plate] c] p] & Hd & _).
  exists l, b, plate, c, p; split; [exact Hd|].
  pose proof (Page.downloads_of_run E file_bytes image_np yolo_model reader
                l b plate c p Hdecode Hd) as Hdown.
  change Main.SLIP_FILENAME with ("generated_parking_slip.png" : Py.str) in Hdown.
  split; [|split].
  - destruct (Main.is_success plate && _ && _).
    + destruct (existsb Spec.is_download _) eqn:Hex; [reflexivity|].
      apply Log.existsb_filter in Hex; rewrite Hex in Hdown; discriminate Hdown.
    + now apply Log.existsb_filter.
  - intros name Hin.
    assert (Hf : In (EvStDownload name)
                   (filter Spec.is_download
                      (log (Main.results_column E (Some file_bytes)
                              (Some yolo_model) (Some reader)))))
      by (apply filter_In; auto).
    rewrite Hdown in Hf.
    destruct (Main.is_success plate && _ && _); [|destruct Hf].
    destruct Hf as [Heq|[]]; injection Heq as <-.
    split; [reflexivity | exact (Naming.download_name_no_space plate (now E))].
  - intros e Hok Hsave.
    rewrite (Interactive.results_after_detection _ _ _ _ _ _ _ Hdecode Hd).
    rewrite (Page.after_success _ _ _ _ _ _ _ _ _ Hd Hok).
    unfold Spec.verdict.
    change Main.SLIP_FILENAME with ("generated_parking_slip.png" : Py.str).
    rewrite Hok, Hsave; unfold log; cbn [fst].
    split; apply in_or_app; right; right; right; right; apply in_or_app; right;
      right; simpl; tauto.
Qed.

(** X21. The results column never raises: its handler turns an exception
    of the decoder or of a display into the message "An unexpected error
    occurred". When the decoder raises, as on an upload without bytes, or
    returns no image, the one message is all the column shows, and no model
    is run. *)
Theorem results_column_never_raises
    (E : world) (uploaded_file : option string)
    (yolo_model : option (image -> outcome (list box)))
    (easy_ocr_reader : option (image -> outcome (list span))) :
  let run := Main.results_column E uploaded_file yolo_model easy_ocr_reader in
  result run = Returns tt
  /\ (forall file_bytes yolo rd e,
        uploaded_file = Some file_bytes ->
        yolo_model = Some yolo -> easy_ocr_reader = Some rd ->
        imdecode E file_bytes = Raises e ->
        run = ([EvSt StError ("🚫 An unexpected error occurred: " ++ e)],
               Returns tt))
  /\ (forall file_bytes yolo rd,
        uploaded_file = Some file_bytes ->
        yolo_model = Some yolo -> easy_ocr_reader = Some rd ->
        imdecode E file_bytes = Returns None ->
        run = ([EvSt StError "❌ Failed to decode image. Please try another file."],
               Returns tt))
  /\ (forall file_bytes yolo rd image_np x1 y1 x2 y2 rest e,
        uploaded_file = Some file_bytes ->
        yolo_model = Some yolo -> easy_ocr_reader = Some rd ->
        imdecode E file_bytes = Returns (Some image_np) ->
        size image_np <> 0%Z ->
        yolo image_np = Returns ((x1, y1, x2, y2) :: rest) ->
        size (crop_of 2 image_np (x1, y1, x2, y2)) = 0%Z ->
        st_image_empty E (crop_of 2 image_np (x1, y1, x2, y2)) = Raises e ->
        run = ([ EvDetect image_np;
                 EvStImage "Detected Number Plate Area";
                 EvStImage "Cropped Plate Sent to EasyOCR";
                 EvSt StError ("🚫 An unexpected error occurred: " ++ e) ],
               Returns tt)).
Proof.
  intros run; subst run.
  split; [apply Runs.results_column_returns|]; split; [|split].
  - intros file_bytes yolo rd e -> -> -> Hd.
    rewrite Interactive.results_undecoded; now rewrite Hd.
  - intros file_bytes yolo rd -> -> -> Hd.
    rewrite Interactive.results_undecoded; now rewrite Hd.
  - intros file_bytes yolo rd image_np x1 y1 x2 y2 rest e -> -> -> Hd Himg Hy Hsize He.
    pose proof (Interactive.detect_loaded image_np yolo rd) as Hrun.
    rewrite Hy in Hrun; cbv zeta in Hrun.
    apply Z.eqb_eq in Hsize; rewrite Hsize in Hrun.
    rewrite (Interactive.results_after_detection _ _ _ _ _ _ _ Hd Hrun).
    unfold Spec.after_detection, Main.shown.
    change (size (Boxed image_np (x1, y1) (x2, y2) (0, 255, 0)%Z 3))
      with (size image_np).
    apply Z.eqb_neq in Himg; rewrite Himg, Hsize, He.
    reflexivity.
Qed.

End Page.

(** Two detectors that agree on the first box only. *)
Lemma only_first_box_is_used_witness :
  App.process Demo.installation Sample.yolo_two Demo.ocr_abc Demo.request
  = App.process Demo.installation Sample.yolo_two' Demo.ocr_abc Demo.request.
Proof.
  destruct (only_first_box_is_used Demo.installation Demo.ocr_abc
              Sample.yolo_two Sample.yolo_two' "car.jpg" Demo.jpeg Demo.img
              (100, 200, 300, 260)%Z [(10, 10, 50, 30)%Z]
              [(400, 400, 450, 420)%Z] eq_refl eq_refl eq_refl)
    as (_ & H & _).
  exact H.
Defined.

(** A box beside the image, as the sample detector finds it. *)
Lemma crop_error_iff_empty_crop_witness :
  App.extract_text Demo.ocr_abc Demo.img (700, 200, 800, 260)%Z
  = ([], Returns ("Crop Error", crop_of 4 Demo.img (700, 200, 800, 260)%Z)).
Proof.
  destruct (crop_error_iff_empty_crop Demo.ocr_abc Demo.yolo_outside Demo.img
              (700, 200, 800, 260)%Z [] eq_refl) as [[H _] _].
  exact (H eq_refl).
Defined.

(** The sample run whose plate reads ["ABC123"]. *)
Lemma page_receipt_implies_reading_witness :
  exists raw,
    Demo.ocr_abc (crop_of 2 Demo.img (100, 200, 300, 260)%Z) = Returns raw
    /\ Py.join " " (Spec.surviving raw) = "ABC123".
Proof.
  destruct (page_receipt_implies_reading Demo.installation (Some Demo.jpeg)
              (Some Demo.yolo_plate) (Some Demo.ocr_abc)
              "generated_parking_slip.png"
              (Main.slip_canvas Demo.installation "ABC123" (now Demo.installation)))
    as (fb & yolo & rd & im & b & rest & raw & H1 & H2 & H3 & H4 & H5 & _ & H7 & _).
  - vm_compute; tauto.
  - injection H2 as <-; injection H3 as <-.
    exists raw; split; [exact H7|].
    injection H7 as <-; reflexivity.
Defined.

(** A full disk: the receipt of ["ABC123"] cannot be saved. *)
Lemma download_offered_only_when_saved_witness :
  existsb Spec.is_download
    (log (Main.results_column Sample.disk_full (Some Demo.jpeg)
            (Some Demo.yolo_plate) (Some Demo.ocr_abc))) = false.
Proof.
  destruct (download_offered_only_when_saved Sample.disk_full Demo.jpeg Demo.img
              Demo.yolo_plate Demo.ocr_abc eq_refl)
    as (l & b & plate & c & p & _ & Hdown & _).
  rewrite Hdown; destruct (Main.is_success plate); reflexivity.
Defined.

(** ** Loading the models *)

Module Loaders.
Import Spec.

Section Database.

Context {U : Py.Unicode}.

(** [load_yolo_model] returns, with or without a model. *)
Lemma yolo_loaded E L :
  exists note ym,
    Startup.load_yolo_model E L "best.pt" = (note, Returns ym)
    /\ existsb is_work note = false
    /\ ((path_exists E "best.pt" = false
         \/ exists e, Startup.YOLO L "best.pt" = Raises e) -> ym = None)
    /\ (forall model,
          path_exists E "best.pt" = true ->
          Startup.YOLO L "best.pt" = Returns model -> ym = Some model).
Proof.
  unfold Startup.load_yolo_model, bind, emit, ret.
  destruct (path_exists E "best.pt"); cbn [negb].
  - destruct (Startup.YOLO L "best.pt") as [model|e]; cbv beta iota zeta;
      do 2 eexists; (split; [reflexivity|]); (split; [reflexivity|]); split.
    + intros [H|[e H]]; discriminate H.
    + intros model' _ H; now injection H as <-.
    + reflexivity.
    + intros model' _ H; discriminate H.
  - cbv beta iota zeta.
    do 2 eexists; (split; [reflexivity|]); (split; [reflexivity|]); split.
    + reflexivity.
    + intros model' H; discriminate H.
Qed.

(** [load_easyocr_reader] returns, with or without a reader. *)
Lemma reader_loaded L :
  exists note rd,
    Startup.load_easyocr_reader L ["en"] true = (note, Returns rd)
    /\ existsb is_work note = false
    /\ (((exists e, Startup.Reader L ["en"] true = Startup.ModuleNotFound e)
          \/ exists e, Startup.Reader L ["en"] true = Startup.Failed e) ->
        rd = None)
    /\ (forall x, Startup.Reader L ["en"] true = Startup.Built x -> rd = Some x).
Proof.
  unfold Startup.load_easyocr_reader, bind, emit, ret.
  destruct (Startup.Reader L ["en"] true) as [x|e|e]; cbv beta iota zeta.
  - cbn [andb]; destruct (negb (Py.eqb (Startup.device x) "cuda"));
      cbv beta iota zeta;
      do 2 eexists; (split; [reflexivity|]); (split; [reflexivity|]); split;
      solve [ intros [[e H]|[e H]]; discriminate H
            | intros y H; now injection H as <- ].
  - do 2 eexists; (split; [reflexivity|]); (split; [reflexivity|]); split;
      [reflexivity | intros y H; discriminate H].
  - do 2 eexists; (split; [reflexivity|]); (split; [reflexivity|]); split;
      [reflexivity | intros y H; discriminate H].
Qed.

End Database.

End Loaders.

Section Startup.

Context {U : Py.Unicode}.

(** X18. The loaders never raise. [load_yolo_model] returns no model exactly
    when the model file is missing or the constructor raises, and
    [load_easyocr_reader] returns no reader exactly when its constructor
    raises; each shows an error exactly in those cases (two for a missing
    module), and the reader's only other message is the note that it runs
    on the CPU although the GPU was asked for. *)
Theorem loaders_report_failure
    (E : world) (L : Startup.libraries)
    (model_path : Py.str) (languages : list Py.str) (gpu : bool) :
  let m := Startup.load_yolo_model E L model_path in
  let r := Startup.load_easyocr_reader L languages gpu in
  (exists ym, result m = Returns ym
     /\ (ym = None <->
         path_exists E model_path = false
         \/ exists e, Startup.YOLO L model_path = Raises e)
     /\ (ym = None -> exists msg, log m = [EvSt StError msg])
     /\ (ym <> None -> log m = []))
  /\ (exists rd, result r = Returns rd
        /\ (rd = None <->
            (exists e, Startup.Reader L languages gpu = Startup.ModuleNotFound e)
            \/ exists e, Startup.Reader L languages gpu = Startup.Failed e)
        /\ (forall x, rd = Some x ->
            Startup.Reader L languages gpu = Startup.Built x
            /\ log r
               = if gpu && negb (Py.eqb (Startup.device x) "cuda")
                 then [EvSt StInfo
                   "ℹ️ EasyOCR is running on CPU. For faster processing, ensure PyTorch with CUDA support is installed and a GPU is available."]
                 else [])
        /\ (rd = None ->
            exists msg rest, log r = EvSt StError msg :: rest
                             /\ (List.length rest <= 1)%nat)).
Proof.
  intros m r; subst m r; split.
  - unfold Startup.load_yolo_model, bind, emit, ret.
    destruct (path_exists E model_path); cbn [negb].
    + destruct (Startup.YOLO L model_path) as [model|e];
        unfold log, result; cbn [fst snd app]; eexists; (split; [reflexivity|]).
      * split; [split; [discriminate | intros [H|[e H]]; discriminate H]|].
        split; [discriminate | reflexivity].
      * split; [split; [intros _; right; now exists e | reflexivity]|].
        split; [intros _; eexists; reflexivity | congruence].
    + unfold log, result; cbn [fst snd app]; eexists; (split; [reflexivity|]).
      split; [split; [intros _; now left | reflexivity]|].
      split; [intros _; eexists; reflexivity | congruence].
  - unfold Startup.load_easyocr_reader, bind, emit, ret.
    destruct (Startup.Reader L languages gpu) as [x|e|e].
    + destruct (gpu && negb (Py.eqb (Startup.device x) "cuda")) eqn:Hc;
        unfold log, result; cbn [fst snd app]; eexists; (split; [reflexivity|]);
        (split; [split; [discriminate | intros [[e H]|[e H]]; discriminate H]|]);
        (split; [intros y H; injection H as <-; rewrite Hc; split; reflexivity
                | discriminate]).
    + unfold log, result; cbn [fst snd app]; eexists; (split; [reflexivity|]).
      split; [split; [intros _; left; now exists e | reflexivity]|].
      split; [discriminate|].
      intros _; do 2 eexists; split; [reflexivity | cbn; lia].
    + unfold log, result; cbn [fst snd app]; eexists; (split; [reflexivity|]).
      split; [split; [intros _; right; now exists e | reflexivity]|].
      split; [discriminate|].
      intros _; do 2 eexists; split; [reflexivity | cbn; lia].
Qed.

(** X19. A run of the page raises only when the display of the uploaded
    file raises, which stands outside every handler; with no upload, or
    when that display returns, the run returns. When the model file is
    missing, or a constructor raises, the run runs no model, writes no image
    and saves no receipt; once the uploaded file is shown it says that the
    models failed to load, and with no upload it only asks for one. With
    both models loaded, the run is the loaders' notes, the display of the
    upload and the results column run with the two models. *)
Theorem page_without_models_does_nothing
    (E : world) (L : Startup.libraries) (uploaded_file : option string) :
  let run := Startup.page E L uploaded_file in
  (forall e, result run = Raises e ->
     exists file_bytes,
       uploaded_file = Some file_bytes /\ st_image_upload E file_bytes = Raises e)
  /\ (forall file_bytes e,
        uploaded_file = Some file_bytes ->
        st_image_upload E file_bytes = Raises e ->
        result run = Raises e
        /\ exists note,
             log run = note ++ [EvStImage "Uploaded Vehicle Image"]
             /\ existsb Spec.is_work note = false)
  /\ ((path_exists E "best.pt" = false
       \/ (exists e, Startup.YOLO L "best.pt" = Raises e)
       \/ (exists e, Startup.Reader L ["en"] true = Startup.ModuleNotFound e)
       \/ (exists e, Startup.Reader L ["en"] true = Startup.Failed e)) ->
      existsb Spec.is_work (log run) = false
      /\ (forall file_bytes, uploaded_file = Some file_bytes ->
          st_image_upload E file_bytes = Returns tt ->
          In (EvSt StError "⚠️ Models failed to load. Cannot process.") (log run))
      /\ (uploaded_file = None ->
          In (EvSt StInfo "☝️ Upload an image to begin.") (log run)))
  /\ (forall model rd,
        path_exists E "best.pt" = true ->
        Startup.YOLO L "best.pt" = Returns model ->
        Startup.Reader L ["en"] true = Startup.Built rd ->
        result (Startup.upload_column E uploaded_file) = Returns tt ->
        exists note,
          log run
          = note ++ log (Startup.upload_column E uploaded_file)
            ++ log (Main.results_column E uploaded_file (Some model)
                      (Some (Startup.readtext rd)))
          /\ existsb Spec.is_work note = false).
Proof.
  intros run; subst run.
  destruct (Loaders.yolo_loaded E L) as (n1 & ym & Hym & Hn1 & Hm1 & Hl1).
  destruct (Loaders.reader_loaded L) as (n2 & rd0 & Hrd & Hn2 & Hm2 & Hl2).
  assert (Hshape : exists note er,
            existsb Spec.is_work note = false
            /\ Startup.page E L uploaded_file
               = (let '(lu, ru) := Startup.upload_column E uploaded_file in
                  match ru with
                  | Returns _ =>
                      (note ++ lu ++ log (Main.results_column E uploaded_file ym er),
                       result (Main.results_column E uploaded_file ym er))
                  | Raises e => (note ++ lu, Raises e)
                  end)
            /\ er = option_map Startup.readtext rd0).
  { exists (n1 ++ n2), (option_map Startup.readtext rd0).
    split; [now rewrite existsb_app, Hn1, Hn2|]; split; [|reflexivity].
    unfold Startup.page.
    change Startup.YOLO_MODEL_PATH with ("best.pt" : Py.str).
    change Startup.OCR_LANGUAGES with (["en"] : list Py.str).
    rewrite Hym, Hrd; unfold bind.
    destruct (Startup.upload_column E uploaded_file) as [lu [[]|eu]].
    - destruct (Main.results_column E uploaded_file ym
                  (option_map Startup.readtext rd0)) as [lr rr].
      unfold log, result; cbn [fst snd]; now rewrite <- !app_assoc.
    - now rewrite <- !app_assoc. }
  destruct Hshape as (note & er & Hnote & Hpage & Her).
  assert (Hmissing :
            (path_exists E "best.pt" = false
             \/ (exists e, Startup.YOLO L "best.pt" = Raises e)
             \/ (exists e, Startup.Reader L ["en"] true = Startup.ModuleNotFound e)
             \/ (exists e, Startup.Reader L ["en"] true = Startup.Failed e)) ->
            ym = None \/ er = None).
  { intros [H|[H|H]]; [left; apply Hm1; now left | left; apply Hm1; now right|].
    right; rewrite Her, (Hm2 H); reflexivity. }
  assert (Hloaded : forall model rd,
            path_exists E "best.pt" = true ->
            Startup.YOLO L "best.pt" = Returns model ->
            Startup.Reader L ["en"] true = Startup.Built rd ->
            ym = Some model /\ er = Some (Startup.readtext rd)).
  { intros model rd Hp Hy Hr; split; [exact (Hl1 model Hp Hy)|].
    now rewrite Her, (Hl2 rd Hr). }
  clear Hym Hrd Hm1 Hl1 Hm2 Hl2 Her.
  rewrite Hpage; clear Hpage.
  pose proof (Runs.results_column_returns E uploaded_file ym er) as Hret.
  split; [|split; [|split]].
  - intros e; unfold Startup.upload_column, call.
    destruct uploaded_file as [fb|].
    + destruct (st_image_upload E fb) as [[]|eu] eqn:Hu; unfold result; cbn [snd].
      * unfold result in Hret; rewrite Hret; discriminate.
      * intros H; injection H as <-; exists fb; auto.
    + unfold ret, result; cbn [snd]; unfold result in Hret; rewrite Hret.
      discriminate.
  - intros fb e -> Hu; unfold Startup.upload_column, call; rewrite Hu.
    unfold result, log; cbn [fst snd]; split; [reflexivity|].
    exists note; split; [reflexivity | exact Hnote].
  - intros Hm; specialize (Hmissing Hm).
    assert (Hcol : Main.results_column E uploaded_file ym er
                   = match uploaded_file with
                     | Some _ =>
                         ([EvSt StError "⚠️ Models failed to load. Cannot process."],
                          Returns tt)
                     | None =>
                         ([EvSt StInfo "☝️ Upload an image to begin."], Returns tt)
                     end).
    { destruct uploaded_file; [|reflexivity].
      destruct Hmissing as [-> | ->]; [reflexivity|].
      destruct ym; reflexivity. }
    rewrite Hcol; unfold Startup.upload_column, call.
    destruct uploaded_file as [fb|].
    + destruct (st_image_upload E fb) as [[]|eu] eqn:Hu;
        unfold log, result; cbn [fst snd];
        rewrite !existsb_app, Hnote; cbn [existsb orb];
        (split; [reflexivity|]);
        (split; [|discriminate]); intros fb' H Hu'; injection H as <-.
      * apply in_or_app; right; right; now left.
      * rewrite Hu in Hu'; discriminate Hu'.
    + unfold ret, log, result; cbn [fst snd app].
      rewrite !existsb_app, Hnote; cbn [existsb orb].
      split; [reflexivity|]; split; [discriminate|].
      intros _; apply in_or_app; right; now left.
  - intros model rd Hp Hy Hr Hu.
    destruct (Hloaded model rd Hp Hy Hr) as [-> ->].
    destruct (Startup.upload_column E uploaded_file) as [lu [[]|eu]];
      [|discriminate Hu].
    unfold log; cbn [fst].
    exists note; split; [reflexivity | exact Hnote].
Qed.

End Startup.

(** No model file on disk: the upload is shown and not even decoded. A file
    that cannot be shown: the run ends with the display's exception. *)
Lemma page_without_models_does_nothing_witness :
  existsb Spec.is_work
    (log (Startup.page Sample.no_model_file Sample.libraries (Some Demo.jpeg)))
  = false
  /\ result (Startup.page Sample.not_a_picture Sample.libraries (Some Demo.jpeg))
     = Raises "cannot identify image file".
Proof.
  destruct (page_without_models_does_nothing Sample.no_model_file
              Sample.libraries (Some Demo.jpeg)) as (_ & _ & H & _).
  destruct (page_without_models_does_nothing Sample.not_a_picture
              Sample.libraries (Some Demo.jpeg)) as (_ & H' & _).
  split.
  - destruct H as [H _]; [left; reflexivity | exact H].
  - destruct (H' Demo.jpeg "cannot identify image file" eq_refl eq_refl) as [Hr _].
    exact Hr.
Defined.
